(** * Water-quality map pages: location aggregation, river colours, bounded display

    A shallow embedding of the three Streamlit pages of the repository

    - [app.py]            (satellite basemap, river network, station markers),
    - [app_wastewater.py] (the same with waste-water sites and radius circles),
    - [app_satelite.py]   (night lights, unique stations, bounded display),

    and the properties of their data handling: grouping of sample rows into
    distinct locations, the river colour table, the display cap, and what
    happens when a file or a column is missing.

    The pages are Python scripts over pandas tables.  A table is modelled as
    its header and its grid of cells; pandas operations used by the pages
    ([dropna], [groupby(...).size()], [groupby(...).agg], [drop_duplicates],
    [unique], [concat], [sample]) are functions on that grid with the
    behaviour pandas documents for the arguments the pages pass.  Exceptions
    are values of [result]; the map object [m] and the Streamlit calls are an
    explicit page state threaded through the script. *)

From Stdlib Require Import Ascii QArith Qcanon.
From stdpp Require Import sorting numbers gmap strings list.

Local Open Scope string_scope.
Local Open Scope list_scope.
Local Open Scope stdpp_scope.

(** ** Python values held in table cells and dictionaries *)

(** A cell is a number, a string, or missing.  Numbers are float64 or int64
    values; the pages only compare them ([==] when hashing and grouping, [<]
    when [groupby] sorts its keys), so a finite number is represented by its
    exact rational value (this identifies [0.0] and [-0.0], as the pandas
    hash table does).  [VNaN] is the missing value of a numeric column,
    [VNone] is Python's [None] (a JSON [null]). *)
Inductive value : Type :=
  | VNone
  | VNaN
  | VNum (x : Qc)
  | VStr (s : string).

#[global] Instance value_eq_dec : EqDecision value.
Proof. solve_decision. Defined.

#[global] Instance value_inhabited : Inhabited value := populate VNaN.

Definition value_to_sum (v : value) : (unit + unit) + (Qc + string) :=
  match v with
  | VNone => inl (inl ())
  | VNaN => inl (inr ())
  | VNum x => inr (inl x)
  | VStr s => inr (inr s)
  end.

Definition value_of_sum (s : (unit + unit) + (Qc + string)) : value :=
  match s with
  | inl (inl _) => VNone
  | inl (inr _) => VNaN
  | inr (inl x) => VNum x
  | inr (inr s) => VStr s
  end.

#[global] Instance value_countable : Countable value.
Proof.
  refine (inj_countable' value_to_sum value_of_sum _).
  by intros [].
Defined.

(** [pd.isna]: both [None] and [NaN] count as missing. *)
Definition isna (v : value) : bool :=
  match v with
  | VNone | VNaN => true
  | _ => false
  end.

(** Numbers written as in the data files. *)
Definition num (z : Z) : value := VNum (Qc_of_Z z).

(** *** The order [groupby] sorts keys by *)

(** Numbers by value, strings by code point; in a column that mixes both,
    numbers come first.  Missing values are removed before any sort in the
    pages, their rank only makes the order total. *)
Definition value_rank (v : value) : nat :=
  match v with
  | VNum _ => 0
  | VStr _ => 1
  | VNaN => 2
  | VNone => 3
  end.

Definition value_le (a b : value) : Prop :=
  match a, b with
  | VNum x, VNum y => (x ≤ y)%Qc
  | VStr s, VStr t => String.le s t
  | _, _ => (value_rank a ≤ value_rank b)%nat
  end.

#[global] Instance value_le_dec : RelDecision value_le.
Proof. intros [] []; simpl; apply _. Defined.

(** A grouping key: the (Latitude, Longitude) pair of a row. *)
Definition key : Type := value * value.

Definition key_notna (k : key) : bool := negb (isna k.1) && negb (isna k.2).

(** Lexicographic: first by latitude, then by longitude. *)
Definition key_le (a b : key) : Prop :=
  (a.1 ≠ b.1 ∧ value_le a.1 b.1) ∨ (a.1 = b.1 ∧ value_le a.2 b.2).

#[global] Instance key_le_dec : RelDecision key_le.
Proof. intros a b. unfold key_le. apply _. Defined.

(** ** First-seen distinct values *)

(** pandas' hash-table based [unique] and [drop_duplicates(keep='first')]
    scan the input once and keep an element the first time its key is met;
    [seen] is the content of the hash table. *)
Fixpoint first_by {A K} `{EqDecision K} (f : A → K) (seen : list K) (l : list A)
    : list A :=
  match l with
  | [] => []
  | x :: l =>
      if decide (f x ∈ seen) then first_by f seen l
      else x :: first_by f (f x :: seen) l
  end.

Definition unique {A} `{EqDecision A} (l : list A) : list A := first_by id [] l.

(** Number of occurrences of [x]. *)
Definition occurrences {A} `{EqDecision A} (x : A) (l : list A) : nat :=
  length (filter (λ y, y = x) l).

(** ** [groupby([Latitude, Longitude])] *)

(** The groups of [df.groupby(keys)] with the defaults [sort=True] and
    [dropna=True]: rows with a missing key are left out, each distinct key
    forms one group, and the groups come in ascending key order. *)
Definition group_keys (ks : list key) : list key :=
  merge_sort key_le (unique (filter (λ k, key_notna k) ks)).

(** [.size()]: the number of rows of each group. *)
Definition groupby_size (ks : list key) : list (key * nat) :=
  (λ k, (k, occurrences k ks)) <$> group_keys ks.

(** ** Exceptions *)

Inductive exn : Type :=
  | FileNotFoundError
  | KeyError
  | ValueError
  | TypeError
  | IndexError
  | StopException
  | OtherError.

Inductive result (A : Type) : Type :=
  | Ok (a : A)
  | Raise (e : exn).
Arguments Ok {A} a.
Arguments Raise {A} e.

#[global] Instance exn_eq_dec : EqDecision exn.
Proof. solve_decision. Defined.

#[global] Instance result_ret : MRet result := λ A a, Ok a.
#[global] Instance result_bind : MBind result := λ A B f c,
  match c with
  | Ok a => f a
  | Raise e => Raise e
  end.

(** ** Tables *)

(** A [pandas.DataFrame]: the column labels and one list of cells per row.
    [read_csv] fills a short line with NaN, hence the default of [cell_at].
    The row index is not modelled: every page resets or ignores it. *)
Record DataFrame : Type := mkDF {
  columns : list string;
  rows : list (list value);
}.

#[global] Instance DataFrame_eq_dec : EqDecision DataFrame.
Proof. solve_decision. Defined.

(** [pd.DataFrame()] *)
Definition pd_DataFrame : DataFrame := mkDF [] [].

(** [df.empty]: one of the two axes has length 0. *)
Definition empty (df : DataFrame) : bool :=
  bool_decide (columns df = []) || bool_decide (rows df = []).

(** [len(df)] *)
Definition len (df : DataFrame) : nat := length (rows df).

(** Position of the first column called [name].  [read_csv] and [read_excel]
    make the labels of a table pairwise different, and then this is the
    column of that name.  Labels can come to collide only when
    [app_wastewater.py] strips them; what pandas does with such a table is
    not modelled. *)
Definition col_index (name : string) (cols : list string) : option nat :=
  fst <$> list_find (λ c, c = name) cols.

Definition cell_at (i : nat) (row : list value) : value := default VNaN (row !! i).

(** [name in df.columns] *)
Definition has_column (name : string) (df : DataFrame) : bool :=
  bool_decide (name ∈ columns df).

(** [{'Latitude', 'Longitude'}.issubset(df.columns)], also written
    ['Latitude' in df.columns and 'Longitude' in df.columns]. *)
Definition has_coordinates (df : DataFrame) : bool :=
  has_column "Latitude" df && has_column "Longitude" df.

(** [df[name]]: the cells of a column, [KeyError] when there is none. *)
Definition getitem (name : string) (df : DataFrame) : result (list value) :=
  match col_index name (columns df) with
  | Some i => Ok (cell_at i <$> rows df)
  | None => Raise KeyError
  end.

(** The (Latitude, Longitude) cells of every row: what [groupby],
    [drop_duplicates] and [dropna] look at.  [KeyError] when one of the two
    columns does not exist. *)
Definition coordinates (df : DataFrame) : result (list key) :=
  match col_index "Latitude" (columns df), col_index "Longitude" (columns df) with
  | Some i, Some j => Ok ((λ r, (cell_at i r, cell_at j r)) <$> rows df)
  | _, _ => Raise KeyError
  end.

(** [df[['Latitude', 'Longitude']]] *)
Definition getitem_coordinates (df : DataFrame) : result DataFrame :=
  ks ← coordinates df;
  mret (mkDF ["Latitude"; "Longitude"] ((λ k : key, [k.1; k.2]) <$> ks)).

(** [df.dropna(subset=['Latitude', 'Longitude'])] *)
Definition dropna_coordinates (df : DataFrame) : result DataFrame :=
  match col_index "Latitude" (columns df), col_index "Longitude" (columns df) with
  | Some i, Some j =>
      Ok (mkDF (columns df)
            (filter (λ r, key_notna (cell_at i r, cell_at j r)) (rows df)))
  | _, _ => Raise KeyError
  end.

(** [temp[name] = v]: a new last column holding [v] in every row, or the
    existing column of that name overwritten. *)
Definition setitem_const (name : string) (v : value) (df : DataFrame) : DataFrame :=
  match col_index name (columns df) with
  | Some i => mkDF (columns df) ((λ r, <[i:=v]> r) <$> rows df)
  | None => mkDF (columns df ++ [name]) ((λ r, r ++ [v]) <$> rows df)
  end.

(** [pd.concat([a, b], ignore_index=True)]: the union of the columns in
    first-seen order, the rows of [a] then the rows of [b], NaN where a
    table lacks a column. *)
Definition reindex_columns (cols : list string) (df : DataFrame) : list (list value) :=
  (λ r, (λ c, match col_index c (columns df) with
              | Some i => cell_at i r
              | None => VNaN
              end) <$> cols) <$> rows df.

Definition concat (a b : DataFrame) : DataFrame :=
  let cols := unique (columns a ++ columns b) in
  mkDF cols (reindex_columns cols a ++ reindex_columns cols b).

(** [df.drop_duplicates(subset=['Latitude', 'Longitude']).reset_index(drop=True)]:
    pandas returns an empty table as it is, before looking at [subset];
    otherwise the first row of each coordinate pair is kept, in input order
    (missing values compare equal here). *)
Definition drop_duplicates_coordinates (df : DataFrame) : result DataFrame :=
  if empty df then Ok df
  else
    match col_index "Latitude" (columns df), col_index "Longitude" (columns df) with
    | Some i, Some j =>
        Ok (mkDF (columns df)
              (first_by (λ r, (cell_at i r, cell_at j r)) [] (rows df)))
    | _, _ => Raise KeyError
    end.

(** [for _, row in df.iterrows(): ... row[name] ...]: a row is read through
    the column labels of its table. *)
Definition row_getitem (cols : list string) (row : list value) (name : string)
    : result value :=
  match col_index name cols with
  | Some i => Ok (cell_at i row)
  | None => Raise KeyError
  end.

(** ** Strings *)

(** A Python string is held as its UTF-8 encoding, one [ascii] per byte; two
    strings are equal exactly when their encodings are. *)

(** [str.isspace] on the characters below U+0080: tab, line feed, vertical
    tab, form feed, carriage return, the four separators 28-31 and the
    space. *)
Definition py_isspace (a : ascii) : bool :=
  let n := nat_of_ascii a in
  bool_decide (9 ≤ n ≤ 13)%nat || bool_decide (28 ≤ n ≤ 32)%nat.

(** The other characters [str.isspace] accepts, by the bytes of their
    encoding: U+0085 and U+00A0 take two bytes, *)
Definition isspace2 (a b : ascii) : bool :=
  bool_decide (nat_of_ascii a = 194)%nat
  && (bool_decide (nat_of_ascii b = 133)%nat
      || bool_decide (nat_of_ascii b = 160)%nat).

(** and U+1680, U+2000 to U+200A, U+2028, U+2029, U+202F, U+205F and U+3000
    take three. *)
Definition isspace3 (a b c : ascii) : bool :=
  let x := nat_of_ascii a in
  let y := nat_of_ascii b in
  let z := nat_of_ascii c in
  bool_decide (x = 225 ∧ y = 154 ∧ z = 128)%nat
  || bool_decide (x = 226 ∧ y = 128
                  ∧ (128 ≤ z ≤ 138 ∨ z = 168 ∨ z = 169 ∨ z = 175))%nat
  || bool_decide (x = 226 ∧ y = 129 ∧ z = 159)%nat
  || bool_decide (x = 227 ∧ y = 128 ∧ z = 128)%nat.

(** Whitespace characters are taken off the front, as long as there is one;
    [sp2] and [sp3] recognise those of two and three bytes. *)
Fixpoint lstrip_by (sp2 : ascii → ascii → bool)
    (sp3 : ascii → ascii → ascii → bool) (s : string) : string :=
  match s with
  | String a s1 =>
      if py_isspace a then lstrip_by sp2 sp3 s1
      else
        match s1 with
        | String b s2 =>
            if sp2 a b then lstrip_by sp2 sp3 s2
            else
              match s2 with
              | String c s3 => if sp3 a b c then lstrip_by sp2 sp3 s3 else s
              | EmptyString => s
              end
        | EmptyString => s
        end
  | EmptyString => EmptyString
  end.

(** [str.lstrip] *)
Definition lstrip (s : string) : string := lstrip_by isspace2 isspace3 s.

(** [str.rstrip]: the same from the end, where the bytes of a character come
    in reverse. *)
Definition rstrip (s : string) : string :=
  String.rev (lstrip_by (λ a b, isspace2 b a) (λ a b c, isspace3 c b a)
                (String.rev s)).

(** [str.strip] *)
Definition strip (s : string) : string := rstrip (lstrip s).

(** [s.endswith(suffix)] *)
Definition endswith (s suffix : string) : bool :=
  String.prefix (String.rev suffix) (String.rev s).

(** ** Colours *)

Definition rgb : Type := N * N * N.

(** Modelled from the spec: the palette is "a fixed ordered sequence of N
    distinct colors (N=20 in the reference behavior)".  The table itself is
    matplotlib's [tab20] colour map, which is not part of the repository;
    its entries are multiples of 1/255, listed here as bytes. *)
Definition tab20 : list rgb :=
  [ (31, 119, 180); (174, 199, 232); (255, 127, 14); (255, 187, 120);
    (44, 160, 44); (152, 223, 138); (214, 39, 40); (255, 152, 150);
    (148, 103, 189); (197, 176, 213); (140, 86, 75); (196, 156, 148);
    (227, 119, 194); (247, 182, 210); (127, 127, 127); (199, 199, 199);
    (188, 189, 34); (219, 219, 141); (23, 190, 207); (158, 218, 229) ]%N.

(** [plt.get_cmap('tab20')(i)] for an integer [i]: entry [i] of the table, an
    index past the end gives the last entry. *)
Definition colormap (i : nat) : rgb := default (0, 0, 0)%N (tab20 !! (i `min` 19)).

Definition hex_digit (n : N) : ascii :=
  default "?"%char (String.get (N.to_nat n) "0123456789abcdef").

Definition hex2 (n : N) : string :=
  String (hex_digit (n / 16)) (String (hex_digit (n mod 16)) EmptyString).

(** [mcolors.to_hex]: ['#rrggbb'] in lower case. *)
Definition to_hex (c : rgb) : string :=
  String "#"%char (hex2 c.1.1 +:+ hex2 c.1.2 +:+ hex2 c.2).

(** The twenty colours a river can get. *)
Definition palette : list string := to_hex <$> tab20.

(** ** The map, the page and the script monad *)

(** The ['properties'] dictionary of a GeoJSON feature. *)
Definition feature : Type := gmap string value.

(** The dictionary a style function returns. *)
Record style : Type := mkStyle {
  color : string;
  weight : value;
  opacity : Qc;
}.

(** What the pages put on the folium map.  Popups keep the values that are
    formatted into them. *)
Inductive layer : Type :=
  | GeoJson (data : list feature) (name : string)
            (style_function : feature → result style)
  | TileLayer (name : string)
  | CircleMarker (location : key) (radius : Qc) (color fill_color : string)
                 (popup : list value)
  | Circle (location : key) (radius : value) (color : string).

(** Calls into Streamlit that show something. *)
Inductive st_call : Type :=
  | st_error (msg : string)
  | st_info (msg : string)
  | st_toast (msg : string)
  | st_folium (shown : list layer).

(** The state a script run works on: the map object [m] as the list of
    layers added so far, and what has been shown on the page. *)
Record page : Type := mkPage {
  m : list layer;
  st : list st_call;
}.

Definition new_page : page := mkPage [] [].

(** A statement: runs on a state, returns or raises, and leaves a state. *)
Definition M (S A : Type) : Type := S → result A * S.

#[global] Instance M_ret {S} : MRet (M S) := λ A a s, (Ok a, s).
#[global] Instance M_bind {S} : MBind (M S) := λ A B f c s,
  match c s with
  | (Ok a, s') => f a s'
  | (Raise e, s') => (Raise e, s')
  end.
#[global] Typeclasses Opaque M.

Definition lift {S A} (r : result A) : M S A := λ s, (r, s).

Fixpoint for_ {S A} (l : list A) (body : A → M S unit) : M S unit :=
  match l with
  | [] => mret ()
  | x :: l => body x ;; for_ l body
  end.

(** [layer.add_to(m)] *)
Definition add_to (l : layer) : M page unit :=
  λ p, (Ok (), mkPage (m p ++ [l]) (st p)).

Definition streamlit (c : st_call) : M page unit :=
  λ p, (Ok (), mkPage (m p) (st p ++ [c])).

(** folium's [validate_location], run by the constructors of [CircleMarker]
    and [Circle]: each coordinate goes through [float()], and a missing one,
    NaN or [None], is refused with [ValueError] ("Location values cannot
    contain NaNs").  A text cell is taken to spell a number: what [float()]
    makes of a text is not modelled. *)
Definition validate_location (location : key) : result unit :=
  if key_notna location then Ok () else Raise ValueError.

(** [folium.CircleMarker(location=..., ...)] *)
Definition folium_CircleMarker (location : key) (radius : Qc)
    (color fill_color : string) (popup : list value) : result layer :=
  validate_location location ;;
  mret (CircleMarker location radius color fill_color popup).

(** [folium.Circle(location=..., ...)] *)
Definition folium_Circle (location : key) (radius : value) (color : string)
    : result layer :=
  validate_location location ;;
  mret (Circle location radius color).

(** [f"{v:.4f}"]: a number is formatted, NaN as ['nan']; a text has no
    format code ['f'] ([ValueError]) and [None] takes no format specification
    at all ([TypeError]). *)
Definition format_4f (v : value) : result unit :=
  match v with
  | VNum _ | VNaN => Ok ()
  | VStr _ => Raise ValueError
  | VNone => Raise TypeError
  end.

(** [st_folium(m, ...)] shows the map as it is at that point. *)
Definition show_map : M page unit :=
  λ p, (Ok (), mkPage (m p) (st p ++ [st_folium (m p)])).

(** The markers among the layers, as (location, popup) pairs. *)
Definition markers (ls : list layer) : list (key * list value) :=
  omap (λ l, match l with
             | CircleMarker loc _ _ _ popup => Some (loc, popup)
             | _ => None
             end) ls.

(** ** Files *)

(** The files as the pages see them, through the four library calls they
    make.  A table read from a file is the parsed content. *)
Record filesystem : Type := mkFS {
  path_exists : string → bool;
  read_csv : string → result DataFrame;
  read_excel : string → result DataFrame;
  read_file : string → result DataFrame;
}.

(** ** Rivers: colour table and style, shared by [app.py] and
    [app_wastewater.py] *)

(** [enumerate] *)
Definition enumerate {A} (l : list A) : list (nat * A) := imap pair l.

(** [[
    river_color_map = {}
    for i, riv_id in enumerate(unique_main_rivers):
        rgba = colormap(i % 20)
        river_color_map[riv_id] = mcolors.to_hex(rgba)
    ]] *)
Definition river_color_map (unique_main_rivers : list value) : gmap value string :=
  foldl (λ d '(i, riv_id), <[riv_id := to_hex (colormap (i mod 20))]> d)
        ∅ (enumerate unique_main_rivers).

(** [v * c], [v + c] with a float constant [c].  Exact arithmetic stands for
    the float operations (exact on the small integer stream orders of the
    data); [None] and strings raise [TypeError]. *)
Definition py_mul (v : value) (c : Qc) : result value :=
  match v with
  | VNum x => Ok (VNum (x * c)%Qc)
  | VNaN => Ok VNaN
  | VNone | VStr _ => Raise TypeError
  end.

Definition py_add (v : value) (c : Qc) : result value :=
  match v with
  | VNum x => Ok (VNum (x + c)%Qc)
  | VNaN => Ok VNaN
  | VNone | VStr _ => Raise TypeError
  end.

(** GeoDataFrame to GeoJSON features: one per row, the columns as properties,
    missing values as [null]. *)
Definition to_json (v : value) : value := if isna v then VNone else v.

Definition geo_features (gdf : DataFrame) : list feature :=
  (λ r, list_to_map (zip (columns gdf) (to_json <$> r))) <$> rows gdf.

(** [x['properties'][name]] *)
Definition properties_getitem (x : feature) (name : string) : result value :=
  match x !! name with
  | Some v => Ok v
  | None => Raise KeyError
  end.

(** [bool(v)] *)
Definition truthy (v : value) : bool :=
  match v with
  | VNone => false
  | VNaN => true
  | VNum x => negb (bool_decide (x = Q2Qc 0))
  | VStr s => negb (bool_decide (s = EmptyString))
  end.

(** ** [app.py] *)

Module App.

(** [[
    try:
        df = pd.read_csv(file_path)
        return df.dropna(subset=['Latitude', 'Longitude'])
    except FileNotFoundError:
        return pd.DataFrame()
    ]] *)
Definition load_data (fs : filesystem) (file_path : string) : result DataFrame :=
  match df ← read_csv fs file_path; dropna_coordinates df with
  | Raise FileNotFoundError => Ok pd_DataFrame
  | r => r
  end.

(** [[
    try:
        gdf = gpd.read_file(file_path)
        return gdf
    except Exception as e:
        st.error(f"Error loading river file: {e}")
        return None
    ]] *)
Definition load_river_data (fs : filesystem) (file_path : string)
    : M page (option DataFrame) :=
  match read_file fs file_path with
  | Ok gdf => mret (Some gdf)
  | Raise _ => streamlit (st_error "Error loading river file") ;; mret None
  end.

(** The [style_function] lambda of the river layer. *)
Definition style_function (river_color_map : gmap value string) (x : feature)
    : result style :=
  riv ← properties_getitem x "MAIN_RIV";
  w ← py_mul (default (num 1) (x !! "ORD_STRA")) (Q2Qc (1 # 4));
  mret (mkStyle (default "#87CEFA" (river_color_map !! riv)) w (Q2Qc (4 # 5))).

(** [df.groupby(['Latitude', 'Longitude']).size().reset_index(name='Count')] *)
Definition distinct_df (df : DataFrame) : result DataFrame :=
  ks ← coordinates df;
  mret (mkDF ["Latitude"; "Longitude"; "Count"]
          ((λ kn : key * nat, [kn.1.1; kn.1.2; num (Z.of_nat kn.2)])
             <$> groupby_size ks)).

Definition add_markers (df : DataFrame) (color fill_color label : string)
    : M page unit :=
  if empty df then mret ()
  else
    distinct_df ← lift (distinct_df df);
    for_ (rows distinct_df) (λ row,
      lat ← lift (row_getitem (columns distinct_df) row "Latitude");
      lon ← lift (row_getitem (columns distinct_df) row "Longitude");
      count ← lift (row_getitem (columns distinct_df) row "Count");
      marker ← lift (folium_CircleMarker (lat, lon) (Q2Qc 4) color fill_color
                       [VStr label; count]);
      add_to marker).

(** The river layer: colour table from the distinct [MAIN_RIV] values,
    then the GeoJson layer styled with it. *)
Definition add_rivers (rivers_gdf : DataFrame) : M page unit :=
  main_riv ← lift (getitem "MAIN_RIV" rivers_gdf);
  let unique_main_rivers := unique main_riv in
  let river_color_map := river_color_map unique_main_rivers in
  add_to (GeoJson (geo_features rivers_gdf) "River Network"
            (style_function river_color_map)).

(** The script.  The three sidebar check boxes are inputs.  The centre of
    the map (the mean of [all_coords], a float computation) is not part of
    the state; building [all_coords] is, because it can raise.  The mean
    exists when the coordinate cells are numbers; what [mean] and
    [folium.Map] do with other cells, and what folium does with the river
    layer when the map is rendered, is not modelled: the script can raise
    there as well. *)
Definition main (fs : filesystem) (show_train show_val show_rivers : bool)
    : M page unit :=
  df_train ← lift (load_data fs "TRAINING_SET.csv");
  df_val ← lift (load_data fs "VALIDATION_SET.csv");
  rivers_gdf ← load_river_data fs "sa_rivers_final.geojson";
  train_coords ← lift (getitem_coordinates df_train);
  val_coords ← lift (getitem_coordinates df_val);
  let all_coords := concat train_coords val_coords in
  match rivers_gdf with
  | Some gdf => if show_rivers then add_rivers gdf else mret ()
  | None => mret ()
  end ;;
  (if show_train then add_markers df_train "dodgerblue" "cyan" "Training"
   else mret ()) ;;
  (if show_val then add_markers df_val "darkred" "red" "Validation"
   else mret ()) ;;
  show_map ;;
  streamlit (st_info "Loaded river reaches from local file.").

End App.

(** ** [app_wastewater.py] *)

Module AppWastewater.

(** The path the loader ends up reading, if any:
    [[
    if not os.path.exists(file_path):
        if os.path.exists(file_path + " - Sheet1.csv"):
            file_path = file_path + " - Sheet1.csv"
        elif not os.path.exists(file_path):
            return pd.DataFrame()
    ]] *)
Definition resolve (fs : filesystem) (file_path : string) : option string :=
  if path_exists fs file_path then Some file_path
  else if path_exists fs (file_path +:+ " - Sheet1.csv")
       then Some (file_path +:+ " - Sheet1.csv")
       else None.

(** The body of the [try] once the path is settled: read, strip the column
    labels, then drop the rows without coordinates, or give the empty
    table when a coordinate column is missing.  The labels of a table are
    text, as [read_csv] always has them; a sheet whose header cells are all
    numbers, for which [df.columns.str.strip()] raises, is not among the
    tables here. *)
Definition read_table (fs : filesystem) (file_path : string) : result DataFrame :=
  df ← (if endswith file_path ".xlsx" then read_excel fs file_path
        else read_csv fs file_path);
  let df := mkDF (strip <$> columns df) (rows df) in
  if has_coordinates df then dropna_coordinates df
  else Ok pd_DataFrame.

(** [load_data]: every exception is caught, reported with [st.error] and
    turned into the empty table. *)
Definition load_data (fs : filesystem) (file_path : string) : M page DataFrame :=
  match resolve fs file_path with
  | None => mret pd_DataFrame
  | Some file_path =>
      match read_table fs file_path with
      | Ok df => mret df
      | Raise _ =>
          streamlit (st_error ("Error loading " +:+ file_path)) ;;
          mret pd_DataFrame
      end
  end.

(** [[
    try:
        gdf = gpd.read_file(file_path)
        return gdf
    except Exception as e:
        return None
    ]] *)
Definition load_river_data (fs : filesystem) (file_path : string)
    : option DataFrame :=
  match read_file fs file_path with
  | Ok gdf => Some gdf
  | Raise _ => None
  end.

Definition style_function (river_color_map : gmap value string) (x : feature)
    : result style :=
  riv ← properties_getitem x "MAIN_RIV";
  w ← py_mul (default (num 1) (x !! "ORD_STRA")) (Q2Qc (1 # 2));
  w ← py_add w (Q2Qc (1 # 2));
  mret (mkStyle (default "#00FFFF" (river_color_map !! riv)) w (Q2Qc (4 # 5))).

(** A column read from a file has dtype [object] as soon as it holds a
    string (or [None]); otherwise it is a float column. *)
Definition is_object (column : list value) : bool :=
  bool_decide (Exists (λ v, value_rank v = 1 ∨ value_rank v = 3)%nat column).

(** The ['first'] aggregation: the first value of the group that is not
    missing; for a group without any, [None] in an object column and NaN
    in a float column. *)
Definition agg_first (column group : list value) : value :=
  match filter (λ v, negb (isna v)) group with
  | v :: _ => v
  | [] => if is_object column then VNone else VNaN
  end.

(** The cells of [column] in the rows whose key is [k], in row order. *)
Definition group_cells (k : key) (ks : list key) (column : list value)
    : list value :=
  snd <$> filter (λ kv : key * value, kv.1 = k) (zip ks column).

(** [[
    df.groupby(['Latitude', 'Longitude']).agg(
        Count=('Latitude', 'size'),
        Name=(desc_col, 'first') if desc_col and desc_col in df.columns
             else ('Latitude', lambda x: None)
    ).reset_index()
    ]] *)
Definition distinct_df (df : DataFrame) (desc_col : option string)
    : result DataFrame :=
  ks ← coordinates df;
  name_of ← match desc_col with
            | Some c =>
                if truthy (VStr c) && has_column c df
                then column ← getitem c df;
                     mret (λ k, agg_first column (group_cells k ks column))
                else mret (λ _, VNone)
            | None => mret (λ _, VNone)
            end;
  mret (mkDF ["Latitude"; "Longitude"; "Count"; "Name"]
          ((λ kn : key * nat,
              [kn.1.1; kn.1.2; num (Z.of_nat kn.2); name_of kn.1])
             <$> groupby_size ks)).

(** [radius_km] is the value chosen in the side bar, a global of the
    script. *)
Definition add_markers_and_radius (radius_km : Z) (df : DataFrame)
    (color fill_color group_label : string) (desc_col : option string)
    (marker_size : Qc) (with_radius : bool) : M page unit :=
  if empty df then mret ()
  else
    distinct_df ← lift (distinct_df df desc_col);
    for_ (rows distinct_df) (λ row,
      lat ← lift (row_getitem (columns distinct_df) row "Latitude");
      lon ← lift (row_getitem (columns distinct_df) row "Longitude");
      name ← lift (row_getitem (columns distinct_df) row "Name");
      let site_name := if truthy name then name else VStr group_label in
      count ← lift (row_getitem (columns distinct_df) row "Count");
      marker ← lift (folium_CircleMarker (lat, lon) marker_size color
                       fill_color [site_name; VStr group_label; count]);
      add_to marker ;;
      if with_radius && bool_decide (0 < radius_km)%Z
      then circle ← lift (folium_Circle (lat, lon) (num (radius_km * 1000))
                            "black");
           add_to circle
      else mret ()).

Definition add_rivers (rivers_gdf : DataFrame) : M page unit :=
  main_riv ← lift (getitem "MAIN_RIV" rivers_gdf);
  let unique_main_rivers := unique main_riv in
  let river_color_map := river_color_map unique_main_rivers in
  add_to (GeoJson (geo_features rivers_gdf) "River Network"
            (style_function river_color_map)).

(** The script.  The four check boxes and the radius select box are
    inputs; the centre of the map is not part of the state.  As in
    [app.py], the mean exists when the coordinate cells are numbers; what
    [mean] and [folium.Map] do with other cells or with labels that collide,
    and what folium does with the river layer when the map is rendered, is
    not modelled: the script can raise there as well. *)
Definition main (fs : filesystem)
    (show_train show_val show_wastewater show_rivers : bool) (radius_km : Z)
    : M page unit :=
  df_train ← load_data fs "TRAINING_SET.csv";
  df_val ← load_data fs "VALIDATION_SET.csv";
  df_wastewater ← load_data fs "Waste_Water.xlsx";
  let rivers_gdf := load_river_data fs "sa_rivers_final.geojson" in
  let data_frames :=
    filter (λ df, negb (empty df)) [df_train; df_val; df_wastewater] in
  all_coords ← lift (mapM getitem_coordinates data_frames);
  match rivers_gdf with
  | Some gdf => if show_rivers then add_rivers gdf else mret ()
  | None => mret ()
  end ;;
  (if show_train
   then add_markers_and_radius radius_km df_train "dodgerblue" "cyan"
          "Training Set" None (Q2Qc 5) true
   else mret ()) ;;
  (if show_val
   then add_markers_and_radius radius_km df_val "darkred" "red"
          "Validation Set" None (Q2Qc 5) true
   else mret ()) ;;
  (if show_wastewater
   then add_markers_and_radius radius_km df_wastewater "lime" "#39FF14"
          "Waste Water / Dam" (Some "Description") (Q2Qc (5 # 4)) false
   else mret ()) ;;
  show_map ;;
  streamlit (st_info "Loaded river reaches and waste water/dam sites.").

End AppWastewater.

(** ** [app_satelite.py] *)

Module AppSatelite.

(** The [files] dictionary, in insertion order. *)
Definition files : list (string * string) :=
  [ ("Training Set", "TRAINING_SET.csv");
    ("Validation Set", "VALIDATION_SET.csv") ].

(** One turn of the loading loop:
    [[
    try:
        df = pd.read_csv(f)
        if {'Latitude', 'Longitude'}.issubset(df.columns):
            temp = df[['Latitude', 'Longitude']].copy()
            temp['Source'] = source
            combined_df = pd.concat([combined_df, temp], ignore_index=True)
    except Exception:
        continue
    ]] *)
Definition add_dataset (fs : filesystem) (combined_df : DataFrame)
    (file : string * string) : DataFrame :=
  let '(source, f) := file in
  match
    df ← read_csv fs f;
    if has_coordinates df
    then temp ← getitem_coordinates df;
         let temp := setitem_const "Source" (VStr source) temp in
         mret (concat combined_df temp)
    else mret combined_df
  with
  | Ok combined_df => combined_df
  | Raise _ => combined_df
  end.

Definition combined_df (fs : filesystem) : DataFrame :=
  foldl (add_dataset fs) pd_DataFrame files.

Definition load_unique_data (fs : filesystem) : result DataFrame :=
  drop_duplicates_coordinates (combined_df fs).

(** [[
    df = load_unique_data()
    if df.empty:
        st.error("Error: CSV files not found. ...")
        st.stop()
    ]] *)
Definition start (fs : filesystem) : M page DataFrame :=
  df ← lift (load_unique_data fs);
  if empty df
  then streamlit (st_error "Error: CSV files not found.") ;;
       lift (Raise StopException)
  else mret df.

Section sampling.

(** numpy's generator, as far as [DataFrame.sample] uses it:
    [np.random.RandomState(seed)] makes a generator from a seed, and
    [permutation(n)] draws an arrangement of [0 .. n-1] and advances the
    generator.  The page state carries numpy's global generator. *)
Context {rng : Type}.
Variable RandomState : Z → rng.
Variable permutation : rng → nat → list nat * rng.

(** [df.sample(n=n, random_state=random_state)], without replacement: an
    integer [random_state] seeds a generator of its own, [None] draws
    from (and advances) the global one.  The rows at the first [n]
    positions of a random arrangement are taken. *)
Definition sample (n : nat) (random_state : option Z) (df : DataFrame)
    : M rng DataFrame := λ np_random,
  if decide (len df < n)%nat then (Raise ValueError, np_random)
  else
    let '(arrangement, after) :=
      permutation (from_option RandomState np_random random_state) (len df) in
    (match mapM (λ i, rows df !! i) (take n arrangement) with
     | Some taken => Ok (mkDF (columns df) taken)
     | None => Raise IndexError
     end,
     match random_state with Some _ => np_random | None => after end).

Definition on_page {A} (c : M page A) : M (page * rng) A := λ s,
  let '(r, p) := c s.1 in (r, (p, s.2)).

Definition on_rng {A} (c : M rng A) : M (page * rng) A := λ s,
  let '(r, g) := c s.2 in (r, (s.1, g)).

(** [[
    if len(df) > max_points:
        display_df = df.sample(n=max_points, random_state=42)
        st.toast(...)
    else:
        display_df = df
    ]] *)
Definition display_df (df : DataFrame) (max_points : nat)
    : M (page * rng) DataFrame :=
  if decide (max_points < len df)%nat
  then display_df ← on_rng (sample max_points (Some 42%Z) df);
       on_page (streamlit (st_toast "Displaying random stations.")) ;;
       mret display_df
  else mret df.

End sampling.

(** The radii switched on in the side bar. *)
Definition radii (show_1km show_3km show_5km show_10km : bool) : list Z :=
  (if show_1km then [1%Z] else []) ++ (if show_3km then [3%Z] else [])
  ++ (if show_5km then [5%Z] else []) ++ (if show_10km then [10%Z] else []).

(** The drawing loop over [display_df.iterrows()].  The popup text
    [f"Lat: {lat:.4f}, Lon: {lon:.4f}<br>Source: {source}"] is an argument of
    the marker's constructor, so it is formatted before the constructor
    looks at the location. *)
Definition draw (display_df : DataFrame) (radii : list Z) : M page unit :=
  for_ (rows display_df) (λ row,
    lat ← lift (row_getitem (columns display_df) row "Latitude");
    lon ← lift (row_getitem (columns display_df) row "Longitude");
    source ← lift (row_getitem (columns display_df) row "Source");
    let marker_color :=
      if decide (source = VStr "Training Set") then "blue" else "red" in
    lift (format_4f lat) ;;
    lift (format_4f lon) ;;
    marker ← lift (folium_CircleMarker (lat, lon) (Q2Qc (3 # 2)) marker_color
                     marker_color [lat; lon; source]);
    add_to marker ;;
    for_ radii (λ km,
      circle ← lift (folium_Circle (lat, lon) (num (km * 1000)) "cyan");
      add_to circle)).

End AppSatelite.

(** ** Reading the results *)

(** The distinct locations a marker loop has drawn: the location of each
    marker with the sample count shown in its popup (the last value both
    [add_markers] and [add_markers_and_radius] format into it). *)
Definition distinct_locations (ls : list layer) : list (key * value) :=
  (λ lp : key * list value, (lp.1, List.last lp.2 VNaN)) <$> markers ls.

(** One location per key of the input, each with the number of rows that
    have this key. *)
Definition one_per_key (ks : list key) (locs : list (key * value)) : Prop :=
  NoDup locs.*1
  ∧ (∀ k, k ∈ locs.*1 ↔ k ∈ ks)
  ∧ (∀ k c, (k, c) ∈ locs → c = num (Z.of_nat (occurrences k ks))).

(** The stations of the unique-station table of [app_satelite.py]: the
    coordinates and the source cell of each row. *)
Definition stations (df : DataFrame) : list (key * value) :=
  (λ r, ((cell_at 0 r, cell_at 1 r), cell_at 2 r)) <$> rows df.

(** The input of [load_unique_data] as one sequence: the coordinate pairs of
    every dataset that could be read and has both coordinate columns, each
    with the tag of its dataset, in dataset order. *)
Definition tagged_rows (fs : filesystem) (file : string * string)
    : list (key * value) :=
  match read_csv fs file.2 with
  | Ok df =>
      match coordinates df with
      | Ok ks => (λ k, (k, VStr file.1)) <$> ks
      | Raise _ => []
      end
  | Raise _ => []
  end.

Definition concatenated_input (fs : filesystem) : list (key * value) :=
  tagged_rows fs ("Training Set", "TRAINING_SET.csv")
  ++ tagged_rows fs ("Validation Set", "VALIDATION_SET.csv").

(** ** Auxiliary notions of the proofs *)

(** The locations read off the groups. *)
Definition located (ks : list key) : list (key * value) :=
  (λ kn : key * nat, (kn.1, num (Z.of_nat kn.2))) <$> groupby_size ks.

Definition located_in (df : DataFrame) : list (key * value) :=
  match coordinates df with
  | Ok ks => located ks
  | Raise _ => []
  end.

(** A station as a row of the table. *)
Definition station_row (s : key * value) : list value := [s.1.1; s.1.2; s.2].

(** The table under construction holds the tagged rows read so far: it is
    still [pd.DataFrame()], or it has the three columns. *)
Definition holds (df : DataFrame) (c : list (key * value)) : Prop :=
  rows df = station_row <$> c
  ∧ (columns df = [] ∧ c = [] ∨ columns df = ["Latitude"; "Longitude"; "Source"]).

(** One turn of the loop that fills [river_color_map]. *)
Definition paint (d : gmap value string) (entry : nat * value) : gmap value string :=
  <[entry.2 := to_hex (colormap (entry.1 mod 20))]> d.

(** ** More readings of the map *)

(** The circles among the layers, as (centre, radius) pairs. *)
Definition circles (ls : list layer) : list (key * value) :=
  omap (λ l, match l with
             | Circle loc radius _ => Some (loc, radius)
             | _ => None
             end) ls.

(** The markers among the layers, as (location, colour) pairs. *)
Definition marker_colors (ls : list layer) : list (key * string) :=
  omap (λ l, match l with
             | CircleMarker loc _ color _ _ => Some (loc, color)
             | _ => None
             end) ls.

(** A location given by two numbers. *)
Definition numeric (k : key) : bool :=
  match k with
  | (VNum _, VNum _) => true
  | _ => false
  end.

(** What the drawing loop of [app_satelite.py] adds for a station: its
    marker, then its circles. *)
Definition station_layers (radii : list Z) (s : key * value) : list layer :=
  let marker_color :=
    if decide (s.2 = VStr "Training Set") then "blue" else "red" in
  CircleMarker s.1 (Q2Qc (3 # 2)) marker_color marker_color
    [s.1.1; s.1.2; s.2]
  :: ((λ km, Circle s.1 (num (km * 1000)) "cyan") <$> radii).

(** A table as the pages expect it: the labels are pairwise different and
    the coordinates are numbers. *)
Definition plain (df : DataFrame) : Prop :=
  NoDup (columns df)
  ∧ ∀ ks, coordinates df = Ok ks → Forall (λ k, numeric k = true) ks.

(** ** Column labels with whitespace around them *)

(** U+00A0, the no-break space. *)
Definition nbsp : string :=
  String (ascii_of_nat 194) (String (ascii_of_nat 160) EmptyString).

(** Whitespace characters only. *)
Inductive all_space : string → Prop :=
  | all_space_nil : all_space EmptyString
  | all_space_1 a s :
      py_isspace a = true → all_space s → all_space (String a s)
  | all_space_2 a b s :
      isspace2 a b = true → all_space s → all_space (String a (String b s))
  | all_space_3 a b c s :
      isspace3 a b c = true → all_space s →
      all_space (String a (String b (String c s))).

(** The first character is below U+0080 and is not whitespace. *)
Definition starts_clean (s : string) : bool :=
  match s with
  | String a _ => negb (py_isspace a) && bool_decide (nat_of_ascii a < 128)%nat
  | EmptyString => true
  end.

(** The same at both ends: a word such as [Latitude]. *)
Definition edge_clean (s : string) : bool :=
  starts_clean s && starts_clean (String.rev s).

(** [label] is [core] with whitespace before and after it. *)
Definition padded (core label : string) : Prop :=
  ∃ pre post,
    all_space pre ∧ all_space post ∧ label = pre +:+ core +:+ post.

(** Every row has one cell per column. *)
Definition rectangular (df : DataFrame) : Prop :=
  Forall (λ r, length r = length (columns df)) (rows df).

(** ** Sample inputs *)

(** A disk holding the given CSV, Excel and GeoJSON files: reading a path
    that is not there raises [FileNotFoundError], reading a file with the
    wrong reader raises some other exception. *)
Definition read_from (own others : list (string * DataFrame)) (path : string)
    : result DataFrame :=
  match list_find (λ f : string * DataFrame, f.1 = path) own with
  | Some (_, f) => Ok f.2
  | None =>
      if bool_decide (path ∈ others.*1) then Raise OtherError
      else Raise FileNotFoundError
  end.

Definition disk (csv excel geojson : list (string * DataFrame)) : filesystem :=
  mkFS (λ path, bool_decide (path ∈ (csv ++ excel ++ geojson).*1))
       (read_from csv (excel ++ geojson))
       (read_from excel (csv ++ geojson))
       (read_from geojson (csv ++ excel)).

Definition station_table (rs : list (Z * Z)) : DataFrame :=
  mkDF ["Latitude"; "Longitude"] ((λ r : Z * Z, [num r.1; num r.2]) <$> rs).

(** A table without coordinate columns. *)
Definition no_coordinates : DataFrame :=
  mkDF ["Site"; "Description"] [[VStr "Dam 1"; VStr "Upper dam"]].

Definition no_coordinates_files : filesystem :=
  disk [("TRAINING_SET.csv", no_coordinates);
        ("VALIDATION_SET.csv", no_coordinates)]
       [("Waste_Water.xlsx", no_coordinates)] [].

Definition rivers_table : DataFrame :=
  mkDF ["MAIN_RIV"; "ORD_STRA"] [[num 7; num 1]; [num 7; num 2]; [num 9; num 1]].

(** [TRAINING_SET.csv] is not on the disk; the validation set (one row) and
    the river file are. *)
Definition missing_training_set : filesystem :=
  disk [("VALIDATION_SET.csv", station_table [(1, 2)%Z])] []
       [("sa_rivers_final.geojson", rivers_table)].

(** Both station files hold the single station (1, 1). *)
Definition shared_station : filesystem :=
  disk [("TRAINING_SET.csv", station_table [(1, 1)%Z]);
        ("VALIDATION_SET.csv", station_table [(1, 1)%Z])] [] [].

Definition no_files : filesystem := disk [] [] [].

(** The station (1, 1) is in both sets, the station (2, 2) in the validation
    set only. *)
Definition overlapping_sets : filesystem :=
  disk [("TRAINING_SET.csv", station_table [(1, 1)%Z]);
        ("VALIDATION_SET.csv", station_table [(1, 1); (2, 2)]%Z)] [] [].

(** The validation set has one row, without latitude. *)
Definition unlocated_station : filesystem :=
  disk [("TRAINING_SET.csv", station_table [(1, 1)%Z]);
        ("VALIDATION_SET.csv",
         mkDF ["Latitude"; "Longitude"] [[VNaN; num 2]])] [] [].

(** Eleven stations in the training set. *)
Definition eleven_stations : filesystem :=
  disk [("TRAINING_SET.csv",
         station_table ((λ i, (i, i)) <$> seqZ 1 11))] [] [].

(** The sheet of the Excel file exported as CSV: a no-break space before
    the first label, a blank after the second; the second row has no
    latitude. *)
Definition padded_sheet : DataFrame :=
  mkDF [nbsp +:+ "Latitude"; "Longitude "; "Description"]
    [[num 1; num 2; VStr "Dam"]; [VNaN; num 3; VStr "Weir"]].

Definition sheet_export : filesystem :=
  disk [("Waste_Water.xlsx - Sheet1.csv", padded_sheet)] [] [].

(** Three rows of one site: the first has no description. *)
Definition described_sites : DataFrame :=
  mkDF ["Latitude"; "Longitude"; "Description"]
    [[num 1; num 2; VNaN]; [num 1; num 2; VStr "Dam"];
     [num 1; num 2; VStr "Weir"]].

(** Rivers 7 and 9, a reach without river identifier and a reach without
    stream order. *)
Definition rivers_with_gaps : DataFrame :=
  mkDF ["MAIN_RIV"; "ORD_STRA"]
    [[num 7; num 1]; [VNaN; num 2]; [num 9; VNaN]].

(** The station files of [shared_station] and a river file whose table has
    no [MAIN_RIV] column. *)
Definition nameless_rivers : filesystem :=
  disk [("TRAINING_SET.csv", station_table [(1, 1)%Z]);
        ("VALIDATION_SET.csv", station_table [(1, 1)%Z])] []
       [("sa_rivers_final.geojson", no_coordinates)].

(** * Properties *)

(** ** The key order is a total order *)

#[local] Instance value_le_refl : Reflexive value_le.
Proof. intros [| |x|s]; simpl; try lia; reflexivity. Qed.

#[local] Instance value_le_trans : Transitive value_le.
Proof.
  intros [| |x|s] [| |y|t] [| |z|u]; simpl; try lia; try done.
  - apply Qcle_trans.
  - intros; by etrans.
Qed.

#[local] Instance value_le_antisym : AntiSymm (=) value_le.
Proof.
  intros [| |x|s] [| |y|t]; simpl; try lia; try done.
  - intros. f_equal. by apply Qcle_antisym.
  - intros. f_equal. by apply (anti_symm String.le).
Qed.

#[local] Instance value_le_total : Total value_le.
Proof.
  intros [| |x|s] [| |y|t]; simpl; try lia.
  - apply (total Qcle).
  - apply (total String.le).
Qed.

#[local] Instance key_le_refl : Reflexive key_le.
Proof. intros [a b]. right. split; [done | reflexivity]. Qed.

#[local] Instance key_le_trans : Transitive key_le.
Proof.
  intros [a1 a2] [b1 b2] [c1 c2]; unfold key_le; simpl.
  intros [[Hne1 H1] | [-> H1]] [[Hne2 H2] | [-> H2]].
  - left. split; [| by etrans].
    intros ->. apply Hne1. by apply (anti_symm value_le).
  - by left.
  - by left.
  - right. split; [done | by etrans].
Qed.

#[local] Instance key_le_antisym : AntiSymm (=) key_le.
Proof.
  intros [a1 a2] [b1 b2]; unfold key_le; simpl.
  intros [[Hne1 H1] | [-> H1]] [[Hne2 H2] | [E H2]]; try congruence.
  - destruct Hne1. by apply (anti_symm value_le).
  - f_equal. by apply (anti_symm value_le).
Qed.

#[local] Instance key_le_total : Total key_le.
Proof.
  intros [a1 a2] [b1 b2]; unfold key_le; simpl.
  destruct (decide (a1 = b1)) as [-> | Hne].
  - destruct (total value_le a2 b2); [left | right]; by right.
  - destruct (total value_le a1 b1); [left | right]; left; split; congruence.
Qed.

(** ** First-seen scans *)

Section first_by.
Context {A K : Type} `{EqDecision K} (f : A → K).

Lemma elem_of_first_by seen l x :
  x ∈ first_by f seen l → x ∈ l ∧ f x ∉ seen.
Proof.
  revert seen. induction l as [| y l IH]; intros seen; simpl.
  - by intros ?%elem_of_nil.
  - case_decide as Hy.
    + intros [? ?]%IH. split; [by right | done].
    + intros [-> | [? Hx]%IH]%elem_of_cons.
      * split; [by left | done].
      * split; [by right |]. intros ?. apply Hx. by right.
Qed.

Lemma first_by_keys seen l :
  f <$> first_by f seen l = first_by id seen (f <$> l).
Proof.
  revert seen. induction l as [| y l IH]; intros seen; simpl; [done |].
  unfold id at 1. case_decide; simpl; by rewrite IH.
Qed.

Lemma first_by_sublist seen l : first_by f seen l `sublist_of` l.
Proof.
  revert seen. induction l as [| y l IH]; intros seen; simpl; [done |].
  case_decide; [by apply sublist_cons | by apply sublist_skip].
Qed.

(** A kept element is the first element of the input with its key. *)
Lemma first_by_is_first seen l x :
  x ∈ first_by f seen l →
  ∃ i, list_find (λ y, f y = f x) l = Some (i, x).
Proof.
  revert seen. induction l as [| y l IH]; intros seen; simpl.
  - by intros ?%elem_of_nil.
  - case_decide as Hy.
    + intros Hx. destruct (elem_of_first_by _ _ _ Hx) as [_ Hseen].
      destruct (IH _ Hx) as [i Hi]. exists (S i).
      rewrite decide_False by congruence. by rewrite Hi.
    + intros [-> | Hx]%elem_of_cons.
      * exists 0%nat. by rewrite decide_True.
      * destruct (elem_of_first_by _ _ _ Hx) as [_ Hseen].
        destruct (IH _ Hx) as [i Hi]. exists (S i).
        rewrite decide_False; [by rewrite Hi |].
        intros E. apply Hseen. rewrite E. by left.
Qed.

End first_by.

Lemma first_by_fmap {A B K} `{EqDecision K} (f : B → K) (g : A → B) seen l :
  first_by f seen (g <$> l) = g <$> first_by (f ∘ g) seen l.
Proof.
  revert seen. induction l as [| x l IH]; intros seen; simpl; [done |].
  case_decide; simpl; by rewrite IH.
Qed.

Lemma first_by_ext {A K} `{EqDecision K} (f g : A → K) seen l :
  (∀ x, f x = g x) → first_by f seen l = first_by g seen l.
Proof.
  intros Hfg. revert seen. induction l as [| x l IH]; intros seen; simpl; [done |].
  rewrite Hfg. case_decide; by rewrite IH.
Qed.

Section unique.
Context {A : Type} `{EqDecision A}.
Implicit Types l seen : list A.

Lemma elem_of_unique_from seen l x :
  x ∈ first_by id seen l ↔ x ∈ l ∧ x ∉ seen.
Proof.
  split; [apply (elem_of_first_by id) |].
  revert seen. induction l as [| y l IH]; intros seen [Hx Hseen]; simpl.
  - by apply elem_of_nil in Hx.
  - unfold id at 1. apply elem_of_cons in Hx as [-> | Hx].
    + rewrite decide_False by done. by left.
    + case_decide; [by apply IH |].
      destruct (decide (x = y)) as [-> | Hne]; [by left | right].
      apply IH. split; [done |]. by intros [? | ?]%elem_of_cons.
Qed.

Lemma NoDup_unique_from seen l : NoDup (first_by id seen l).
Proof.
  revert seen. induction l as [| y l IH]; intros seen; simpl; [constructor |].
  unfold id at 1. case_decide; [done |]. constructor; [| done].
  intros [_ Hy]%elem_of_unique_from. apply Hy. by left.
Qed.

Lemma elem_of_unique l x : x ∈ unique l ↔ x ∈ l.
Proof.
  unfold unique. rewrite elem_of_unique_from. split; [by intros [? _] |].
  intros ?. split; [done | by intros ?%elem_of_nil].
Qed.

Lemma NoDup_unique l : NoDup (unique l).
Proof. apply NoDup_unique_from. Qed.

(** ** Counting *)

Lemma occurrences_cons x y l :
  occurrences x (y :: l)
  = ((if decide (y = x) then 1 else 0) + occurrences x l)%nat.
Proof. unfold occurrences. rewrite filter_cons. by case_decide. Qed.

Lemma occurrences_pos x l : x ∈ l → (1 ≤ occurrences x l)%nat.
Proof.
  induction 1 as [x l | x y l _ IH]; rewrite occurrences_cons.
  - rewrite decide_True by done. lia.
  - lia.
Qed.

Lemma occurrences_zero x l : x ∉ l → occurrences x l = 0%nat.
Proof.
  induction l as [| y l IH]; [done |]. rewrite occurrences_cons.
  intros Hx. rewrite decide_False, IH; [done | |].
  - intros ?. apply Hx. by right.
  - intros ->. apply Hx. by left.
Qed.

(** Counted over a duplicate-free list of values, the occurrences add up
    to the number of elements that have one of these values. *)
Lemma sum_occurrences us l :
  NoDup us →
  sum_list ((λ x, occurrences x l) <$> us) = length (filter (λ y, y ∈ us) l).
Proof.
  intros Hus. induction l as [| y l IH]; simpl.
  - clear Hus. induction us as [| u us IHus]; [done |].
    rewrite fmap_cons. cbn [sum_list]. by rewrite IHus.
  - rewrite filter_cons. 
    assert (sum_list ((λ x, occurrences x (y :: l)) <$> us)
            = ((if decide (y ∈ us) then 1 else 0)
               + sum_list ((λ x, occurrences x l) <$> us))%nat) as ->.
    { clear IH. induction Hus as [| u us Hu Hus IHus].
      - by rewrite decide_False by apply not_elem_of_nil.
      - rewrite !fmap_cons. cbn [sum_list]. rewrite IHus, occurrences_cons.
        destruct (decide (y = u)) as [E | Hne].
        + subst u. rewrite (decide_False (P := y ∈ us)) by done.
          rewrite (decide_True (P := y ∈ y :: us)) by (by left). simpl. lia.
        + destruct (decide (y ∈ us)) as [Hin | Hnin].
          * rewrite (decide_True (P := y ∈ u :: us)) by (by right). simpl. lia.
          * rewrite (decide_False (P := y ∈ u :: us)); [simpl; lia |].
            by intros [? | ?]%elem_of_cons. }
    case_decide; simpl; lia.
Qed.

End unique.

(** ** Groups *)

Lemma filter_all {A} (P : A → Prop) `{∀ x, Decision (P x)} (l : list A) :
  Forall P l → filter P l = l.
Proof.
  induction 1 as [| x l Hx _ IH]; [done |].
  by rewrite filter_cons_True, IH.
Qed.

Lemma group_keys_Permutation ks :
  group_keys ks ≡ₚ unique (filter (λ k, key_notna k) ks).
Proof. apply merge_sort_Permutation. Qed.

Lemma elem_of_group_keys ks k : k ∈ group_keys ks ↔ k ∈ ks ∧ key_notna k.
Proof.
  rewrite group_keys_Permutation, elem_of_unique, list_elem_of_filter. tauto.
Qed.

Lemma NoDup_group_keys ks : NoDup (group_keys ks).
Proof. rewrite group_keys_Permutation. apply NoDup_unique. Qed.

Lemma StronglySorted_group_keys ks : StronglySorted key_le (group_keys ks).
Proof. apply (StronglySorted_merge_sort key_le). Qed.

Lemma groupby_size_keys ks : (groupby_size ks).*1 = group_keys ks.
Proof.
  unfold groupby_size. rewrite <-list_fmap_compose. apply list_fmap_id.
Qed.

Lemma elem_of_groupby_size ks k n :
  (k, n) ∈ groupby_size ks ↔ k ∈ group_keys ks ∧ n = occurrences k ks.
Proof.
  unfold groupby_size. rewrite list_elem_of_fmap. split.
  - intros (k' & [= -> ->] & ?). done.
  - intros [? ->]. by exists k.
Qed.

(** With every key present, the group sizes add up to the number of rows. *)
Lemma groupby_size_total ks :
  Forall (λ k, key_notna k) ks →
  sum_list (groupby_size ks).*2 = length ks.
Proof.
  intros Hks. unfold groupby_size. rewrite <-list_fmap_compose.
  change (snd ∘ _) with (λ k, occurrences k ks).
  rewrite sum_occurrences by apply NoDup_group_keys.
  f_equal. apply filter_all, Forall_forall. intros k Hk.
  apply elem_of_group_keys. split; [done |].
  by apply (proj1 (Forall_forall _ _) Hks).
Qed.

Lemma groupby_size_nil : groupby_size [] = [].
Proof. reflexivity. Qed.

(** ** Tables with coordinate columns *)

Lemma coordinates_length df ks : coordinates df = Ok ks → length ks = len df.
Proof.
  unfold coordinates, len. repeat case_match; intros [= <-]; try done.
  by rewrite length_fmap.
Qed.

Lemma coordinates_columns df ks : coordinates df = Ok ks → columns df ≠ [].
Proof. unfold coordinates. by destruct (columns df). Qed.

(** When the coordinate columns exist, [df.empty] says there are no rows. *)
Lemma empty_coordinates df ks :
  coordinates df = Ok ks → empty df = bool_decide (ks = []).
Proof.
  intros Hks. unfold empty.
  rewrite (bool_decide_eq_false_2 _ (coordinates_columns _ _ Hks)). simpl.
  apply coordinates_length in Hks. unfold len in Hks.
  apply bool_decide_ext. destruct ks, (rows df); naive_solver.
Qed.

Lemma coordinates_has_coordinates df :
  has_coordinates df = true ↔ ∃ ks, coordinates df = Ok ks.
Proof.
  unfold has_coordinates, has_column, coordinates, col_index.
  rewrite andb_true_iff, !bool_decide_eq_true. split.
  - intros [Hlat Hlon].
    destruct (list_find_elem_of (λ c, c = "Latitude") _ _ Hlat eq_refl) as [[i ?] ->].
    destruct (list_find_elem_of (λ c, c = "Longitude") _ _ Hlon eq_refl) as [[j ?] ->].
    simpl. eauto.
  - intros [ks Hks].
    destruct (list_find _ _) as [[i a] |] eqn:Hlat; [| done].
    destruct (list_find (λ c, c = "Longitude") _) as [[j b] |] eqn:Hlon; [| done].
    apply list_find_Some in Hlat as (Ha%list_elem_of_lookup_2 & -> & _).
    apply list_find_Some in Hlon as (Hb%list_elem_of_lookup_2 & -> & _).
    done.
Qed.

Lemma getitem_has_column c df :
  has_column c df = true → ∃ column, getitem c df = Ok column.
Proof.
  unfold has_column, getitem, col_index. intros Hc%bool_decide_eq_true.
  destruct (list_find_elem_of (λ c', c' = c) (columns df) c Hc eq_refl)
    as [[i c'] ->].
  simpl. eauto.
Qed.

Lemma getitem_coordinates_Ok df ks :
  coordinates df = Ok ks →
  ∃ coords, getitem_coordinates df = Ok coords.
Proof. intros Hks. unfold getitem_coordinates. rewrite Hks. by eexists. Qed.

Lemma dropna_coordinates_Ok d d' :
  dropna_coordinates d = Ok d' →
  ∃ ks, coordinates d' = Ok ks ∧ Forall (λ k, key_notna k) ks.
Proof.
  unfold dropna_coordinates, coordinates.
  destruct (col_index "Latitude" _) as [i |] eqn:Hi; [| done].
  destruct (col_index "Longitude" _) as [j |] eqn:Hj; [| done].
  intros [= <-]. simpl. rewrite Hi, Hj. eexists. split; [done |].
  apply Forall_fmap, Forall_forall. by intros r [? _]%list_elem_of_filter.
Qed.

(** ** Running the marker loops *)

Lemma M_bind_Ok {S A B} (c : M S A) (f : A → M S B) s a s' :
  c s = (Ok a, s') → (c ≫= f) s = f a s'.
Proof. intros Hc. unfold mbind, M_bind. by rewrite Hc. Qed.

(** A loop whose body only adds layers adds the layers of all turns. *)
Lemma for_adds {A} (l : list A) (body : A → M page unit) (g : A → list layer) p :
  (∀ x q, body x q = (Ok (), mkPage (m q ++ g x) (st q))) →
  for_ l body p = (Ok (), mkPage (m p ++ mjoin (g <$> l)) (st p)).
Proof.
  intros Hbody. revert p. induction l as [| x l IH]; intros p; simpl.
  - rewrite app_nil_r. by destruct p.
  - unfold mbind, M_bind. rewrite Hbody, IH. simpl. by rewrite <-app_assoc.
Qed.

Lemma for_adds_in {A} (l : list A) (body : A → M page unit) (g : A → list layer) p :
  (∀ x, x ∈ l → ∀ q, body x q = (Ok (), mkPage (m q ++ g x) (st q))) →
  for_ l body p = (Ok (), mkPage (m p ++ mjoin (g <$> l)) (st p)).
Proof.
  revert p. induction l as [| x l IH]; intros p Hbody; simpl.
  - rewrite app_nil_r. by destruct p.
  - unfold mbind, M_bind. rewrite Hbody by left.
    rewrite IH by (intros y Hy; apply Hbody; by right).
    simpl. by rewrite <-app_assoc.
Qed.

(** A group key is a location folium accepts. *)
Lemma groupby_size_notna ks kn :
  kn ∈ groupby_size ks → validate_location kn.1 = Ok ().
Proof.
  destruct kn as [k n]. intros [Hk _]%elem_of_groupby_size.
  apply elem_of_group_keys in Hk as [_ Hk]. unfold validate_location.
  simpl. by destruct (key_notna k).
Qed.

Lemma mjoin_singletons {A B} (g : A → B) (l : list A) :
  mjoin ((λ x, [g x]) <$> l) = g <$> l.
Proof. induction l as [| x l IH]; [done |]. rewrite !fmap_cons, <-IH. done. Qed.

Lemma markers_app ls1 ls2 : markers (ls1 ++ ls2) = markers ls1 ++ markers ls2.
Proof. apply omap_app. Qed.

Lemma distinct_locations_app ls1 ls2 :
  distinct_locations (ls1 ++ ls2) = distinct_locations ls1 ++ distinct_locations ls2.
Proof. unfold distinct_locations. by rewrite markers_app, fmap_app. Qed.

Lemma distinct_locations_marker_groups (popup : key * nat → list value)
    (circles : key → list layer) marker_size color fill_color
    (l : list (key * nat)) :
  (∀ k, markers (circles k) = []) →
  (∀ kn, List.last (popup kn) VNaN = num (Z.of_nat kn.2)) →
  distinct_locations
    (mjoin ((λ kn : key * nat,
               CircleMarker kn.1 marker_size color fill_color (popup kn)
               :: circles kn.1) <$> l))
  = (λ kn : key * nat, (kn.1, num (Z.of_nat kn.2))) <$> l.
Proof.
  intros Hcircles Hpopup. unfold distinct_locations.
  induction l as [| kn l IH]; [done |].
  rewrite !fmap_cons, <-IH.
  change (mjoin (?x :: ?l)) with (x ++ mjoin l).
  rewrite (markers_app (_ :: _)), fmap_app. f_equal.
  change (markers (?x :: ?l)) with
    (option_list (match x with
                  | CircleMarker loc _ _ _ popup => Some (loc, popup)
                  | _ => None
                  end) ++ markers l).
  rewrite Hcircles. simpl. by rewrite Hpopup.
Qed.

Lemma App_add_markers_run df ks color fill_color label p :
  coordinates df = Ok ks →
  App.add_markers df color fill_color label p
  = (Ok (),
     mkPage (m p ++ ((λ kn : key * nat,
                        CircleMarker kn.1 (Q2Qc 4) color fill_color
                          [VStr label; num (Z.of_nat kn.2)])
                       <$> groupby_size ks))
            (st p)).
Proof.
  intros Hks. unfold App.add_markers. rewrite (empty_coordinates _ _ Hks).
  case_bool_decide as Hnil.
  - subst ks. rewrite groupby_size_nil. simpl. rewrite app_nil_r. by destruct p.
  - unfold App.distinct_df. rewrite Hks. simpl.
    unfold mbind at 1, M_bind, lift. simpl.
    rewrite (for_adds_in _ _ (λ row, [CircleMarker (cell_at 0 row, cell_at 1 row) (Q2Qc 4)
                                      color fill_color [VStr label; cell_at 2 row]])).
    + do 3 f_equal. rewrite <-list_fmap_compose.
      trans (mjoin ((λ kn : key * nat,
                       [CircleMarker kn.1 (Q2Qc 4) color fill_color
                          [VStr label; num (Z.of_nat kn.2)]])
                      <$> groupby_size ks)).
      * f_equal. apply list_fmap_ext. by intros i [[a b] n] _.
      * apply mjoin_singletons.
    + intros row (kn & -> & Hkn)%list_elem_of_fmap q.
      apply groupby_size_notna in Hkn. destruct kn as [[a b] n].
      unfold mbind, M_bind, lift, folium_CircleMarker.
      change (row_getitem _ _ "Latitude") with (Ok a).
      change (row_getitem _ _ "Longitude") with (Ok b).
      change (row_getitem _ _ "Count") with (Ok (num (Z.of_nat n))).
      cbn [fst snd] in *. by rewrite Hkn.
Qed.

Lemma AppWastewater_distinct_df df ks desc_col :
  coordinates df = Ok ks →
  ∃ name_of : key → value,
    AppWastewater.distinct_df df desc_col
    = Ok (mkDF ["Latitude"; "Longitude"; "Count"; "Name"]
            ((λ kn : key * nat,
                [kn.1.1; kn.1.2; num (Z.of_nat kn.2); name_of kn.1])
               <$> groupby_size ks)).
Proof.
  intros Hks. unfold AppWastewater.distinct_df. rewrite Hks. simpl.
  destruct desc_col as [c |]; [| eexists; reflexivity].
  destruct (_ && has_column c df) eqn:Hc; [| eexists; reflexivity].
  apply andb_true_iff in Hc as [_ Hc].
  destruct (getitem_has_column _ _ Hc) as [column ->]. simpl.
  by exists (λ k, AppWastewater.agg_first column
                    (AppWastewater.group_cells k ks column)).
Qed.

Lemma AppWastewater_add_markers_and_radius_run radius_km df ks color fill_color
    group_label desc_col marker_size with_radius p :
  coordinates df = Ok ks →
  ∃ (site_name : key → value) (circles : key → list layer),
    AppWastewater.add_markers_and_radius radius_km df color fill_color
      group_label desc_col marker_size with_radius p
    = (Ok (),
       mkPage (m p ++ mjoin ((λ kn : key * nat,
                 CircleMarker kn.1 marker_size color fill_color
                   [site_name kn.1; VStr group_label; num (Z.of_nat kn.2)]
                 :: circles kn.1) <$> groupby_size ks))
              (st p))
    ∧ ∀ k, markers (circles k) = [].
Proof.
  intros Hks. unfold AppWastewater.add_markers_and_radius.
  rewrite (empty_coordinates _ _ Hks).
  case_bool_decide as Hnil.
  { subst ks. exists (λ _, VNone), (λ _, []). rewrite groupby_size_nil. simpl.
    rewrite app_nil_r. by destruct p. }
  destruct (AppWastewater_distinct_df df ks desc_col Hks) as [name_of ->].
  exists (λ k, if truthy (name_of k) then name_of k else VStr group_label),
         (λ k, if with_radius && bool_decide (0 < radius_km)%Z
               then [Circle k (num (radius_km * 1000)) "black"] else []).
  split; [| by intros k; destruct (with_radius && _)].
  unfold mbind at 1, M_bind, lift. cbn [columns rows].
  rewrite (for_adds_in _ _ (λ row,
    CircleMarker (cell_at 0 row, cell_at 1 row) marker_size color fill_color
      [if truthy (cell_at 3 row) then cell_at 3 row else VStr group_label;
       VStr group_label; cell_at 2 row]
    :: (if with_radius && bool_decide (0 < radius_km)%Z
        then [Circle (cell_at 0 row, cell_at 1 row) (num (radius_km * 1000)) "black"]
        else []))).
  - do 3 f_equal. rewrite <-list_fmap_compose.
    f_equal. apply list_fmap_ext. by intros i [[a b] n] _.
  - intros row (kn & -> & Hkn)%list_elem_of_fmap q.
    apply groupby_size_notna in Hkn. destruct kn as [[a b] n].
    cbn [fst snd] in Hkn.
    unfold mbind, M_bind, lift, folium_CircleMarker, folium_Circle.
    change (row_getitem _ _ "Latitude") with (Ok a).
    change (row_getitem _ _ "Longitude") with (Ok b).
    change (row_getitem _ _ "Count") with (Ok (num (Z.of_nat n))).
    change (row_getitem _ _ "Name") with (Ok (name_of (a, b))).
    cbn [fst snd]. rewrite Hkn.
    destruct (with_radius && _); cbv -[truthy num Z.mul app];
      by rewrite <-?app_assoc.
Qed.

(** ** What the marker loops draw *)

Lemma located_keys ks : (located ks).*1 = group_keys ks.
Proof.
  unfold located. rewrite <-list_fmap_compose, <-groupby_size_keys.
  by apply list_fmap_ext.
Qed.

Lemma located_counts ks : (located ks).*2 = (num ∘ Z.of_nat) <$> (groupby_size ks).*2.
Proof.
  unfold located. rewrite <-!list_fmap_compose. by apply list_fmap_ext.
Qed.

Lemma located_one_per_key ks :
  Forall (λ k, key_notna k) ks → one_per_key ks (located ks).
Proof.
  intros Hks. unfold one_per_key. rewrite located_keys.
  split; [apply NoDup_group_keys |]. split.
  - intros k. rewrite elem_of_group_keys. split; [by intros [? _] |].
    intros Hk. split; [done |]. by apply (proj1 (Forall_forall _ _) Hks).
  - intros k c. unfold located. rewrite list_elem_of_fmap.
    intros ([k' n] & [= -> ->] & Hkn). simpl.
    apply elem_of_groupby_size in Hkn as [_ ->]. done.
Qed.

Lemma located_sorted ks : StronglySorted key_le (located ks).*1.
Proof. rewrite located_keys. apply StronglySorted_group_keys. Qed.

Lemma located_counts_positive ks : Forall (λ n, 1 ≤ n)%nat (groupby_size ks).*2.
Proof.
  apply Forall_forall. intros n. rewrite list_elem_of_fmap.
  intros ([k n'] & -> & [Hk ->]%elem_of_groupby_size). simpl.
  apply occurrences_pos. by apply elem_of_group_keys in Hk as [? _].
Qed.

Lemma located_nonempty ks k : k ∈ ks → key_notna k → located ks ≠ [].
Proof.
  intros Hk Hpresent Hnil.
  assert (k ∈ (located ks).*1) as Hin.
  { rewrite located_keys. by apply elem_of_group_keys. }
  rewrite Hnil in Hin. by apply elem_of_nil in Hin.
Qed.

Lemma App_add_markers_locations df ks color fill_color label :
  coordinates df = Ok ks →
  distinct_locations (m (App.add_markers df color fill_color label new_page).2)
  = located ks.
Proof.
  intros Hks. rewrite (App_add_markers_run _ _ _ _ _ _ Hks). simpl.
  unfold distinct_locations, located.
  induction (groupby_size ks) as [| kn l IH]; [done |].
  rewrite !fmap_cons, <-IH. done.
Qed.

Lemma AppWastewater_add_markers_and_radius_locations radius_km df ks color
    fill_color group_label desc_col marker_size with_radius :
  coordinates df = Ok ks →
  distinct_locations
    (m (AppWastewater.add_markers_and_radius radius_km df color fill_color
          group_label desc_col marker_size with_radius new_page).2)
  = located ks.
Proof.
  intros Hks.
  destruct (AppWastewater_add_markers_and_radius_run radius_km df ks color
              fill_color group_label desc_col marker_size with_radius new_page Hks)
    as (site_name & circles & -> & Hcircles).
  cbn [snd m new_page app]. unfold distinct_locations, located.
  induction (groupby_size ks) as [| kn l IH]; [done |].
  rewrite !fmap_cons, <-IH.
  change (mjoin (?x :: ?l)) with (x ++ mjoin l).
  rewrite (markers_app (_ :: _)), fmap_app. f_equal.
  change (markers (?x :: ?l)) with
    (option_list (match x with
                  | CircleMarker loc _ _ _ popup => Some (loc, popup)
                  | _ => None
                  end) ++ markers l).
  by rewrite Hcircles.
Qed.

(** C1 (amended).  For every table that has the Latitude and Longitude
    columns with both values present in every row, the marker loops of
    [app.py] and [app_wastewater.py] finish without an exception and draw
    exactly one location per distinct (latitude, longitude) pair of the
    table, with the number of rows that have this pair as its count; the
    locations come in ascending order of (latitude, longitude), which is the
    order [groupby] gives its groups, not the order of first appearance. *)
Theorem aggregation_one_location_per_key_ascending (df : DataFrame) (ks : list key) :
  coordinates df = Ok ks →
  Forall (λ k, key_notna k) ks →
  (∀ color fill_color label,
     let run := App.add_markers df color fill_color label new_page in
     let locs := distinct_locations (m run.2) in
     run.1 = Ok () ∧ one_per_key ks locs ∧ StronglySorted key_le locs.*1)
  ∧ (∀ radius_km color fill_color group_label desc_col marker_size with_radius,
       let run := AppWastewater.add_markers_and_radius radius_km df color
                    fill_color group_label desc_col marker_size with_radius
                    new_page in
       let locs := distinct_locations (m run.2) in
       run.1 = Ok () ∧ one_per_key ks locs ∧ StronglySorted key_le locs.*1).
Proof.
  intros Hks Hpresent. split.
  - intros color fill_color label. cbv zeta.
    rewrite (App_add_markers_locations _ _ _ _ _ Hks).
    rewrite (App_add_markers_run _ _ _ _ _ _ Hks).
    auto using located_one_per_key, located_sorted.
  - intros radius_km color fill_color group_label desc_col marker_size with_radius.
    cbv zeta.
    rewrite (AppWastewater_add_markers_and_radius_locations _ _ _ _ _ _ _ _ _ Hks).
    destruct (AppWastewater_add_markers_and_radius_run radius_km df ks color
                fill_color group_label desc_col marker_size with_radius new_page Hks)
      as (site_name & circles & -> & _).
    auto using located_one_per_key, located_sorted.
Qed.

(** The three rows (1,2), (1,2), (3,4) of the specification satisfy the
    premises of C1. *)
Lemma aggregation_one_location_per_key_ascending_witness :
  coordinates (station_table [(1, 2); (1, 2); (3, 4)]%Z)
  = Ok [(num 1, num 2); (num 1, num 2); (num 3, num 4)]
  ∧ Forall (λ k, key_notna k) [(num 1, num 2); (num 1, num 2); (num 3, num 4)]
  ∧ one_per_key [(num 1, num 2); (num 1, num 2); (num 3, num 4)]
      (distinct_locations
         (m (App.add_markers (station_table [(1, 2); (1, 2); (3, 4)]%Z)
               "dodgerblue" "cyan" "Training" new_page).2)).
Proof.
  split; [reflexivity |]. split; [by repeat constructor |].
  destruct (aggregation_one_location_per_key_ascending
              (station_table [(1, 2); (1, 2); (3, 4)]%Z)
              [(num 1, num 2); (num 1, num 2); (num 3, num 4)])
    as [Happ _].
  - reflexivity.
  - by repeat constructor.
  - exact (proj1 (proj2 (Happ "dodgerblue" "cyan" "Training"))).
Defined.

(** On these rows: two locations, counts 2 and 1. *)
Example add_markers_spec_rows :
  distinct_locations
    (m (App.add_markers (station_table [(1, 2); (1, 2); (3, 4)]%Z)
          "dodgerblue" "cyan" "Training" new_page).2)
  = [((num 1, num 2), num 2); ((num 3, num 4), num 1)].
Proof. vm_compute. reflexivity. Qed.

(** C1 as stated fails: on the rows (3,4), (1,2) the locations are drawn as
    (1,2), (3,4), while the order of first appearance is (3,4), (1,2). *)
Lemma add_markers_not_in_first_seen_order :
  coordinates (station_table [(3, 4); (1, 2)]%Z)
  = Ok [(num 3, num 4); (num 1, num 2)]
  ∧ (distinct_locations
       (m (App.add_markers (station_table [(3, 4); (1, 2)]%Z)
             "dodgerblue" "cyan" "Training" new_page).2)).*1
    = [(num 1, num 2); (num 3, num 4)]
  ∧ (distinct_locations
       (m (App.add_markers (station_table [(3, 4); (1, 2)]%Z)
             "dodgerblue" "cyan" "Training" new_page).2)).*1
    ≠ unique [(num 3, num 4); (num 1, num 2)].
Proof.
  split; [by vm_compute |]. split; [by vm_compute |].
  apply (bool_decide_eq_false_1 (_ = _)). vm_compute. reflexivity.
Qed.

(** C10.  For every table that has the Latitude and Longitude columns with
    both values present in every row (the tables the loaders hand to the
    marker loops), the counts of the drawn locations are all at least 1 and
    add up to the number of rows of the table, in [app.py] and in
    [app_wastewater.py]. *)
Theorem aggregation_conserves_rows (df : DataFrame) (ks : list key) :
  coordinates df = Ok ks →
  Forall (λ k, key_notna k) ks →
  ∃ counts : list nat,
    Forall (λ n, 1 ≤ n)%nat counts
    ∧ sum_list counts = len df
    ∧ (∀ color fill_color label,
         (distinct_locations
            (m (App.add_markers df color fill_color label new_page).2)).*2
         = (num ∘ Z.of_nat) <$> counts)
    ∧ (∀ radius_km color fill_color group_label desc_col marker_size with_radius,
         (distinct_locations
            (m (AppWastewater.add_markers_and_radius radius_km df color
                  fill_color group_label desc_col marker_size with_radius
                  new_page).2)).*2
         = (num ∘ Z.of_nat) <$> counts).
Proof.
  intros Hks Hpresent. exists (groupby_size ks).*2.
  split; [apply located_counts_positive |]. split; [| split].
  - rewrite groupby_size_total by done. by apply coordinates_length.
  - intros. rewrite (App_add_markers_locations _ _ _ _ _ Hks).
    apply located_counts.
  - intros.
    rewrite (AppWastewater_add_markers_and_radius_locations _ _ _ _ _ _ _ _ _ Hks).
    apply located_counts.
Qed.

(** The rows (1,2), (1,2), (3,4) satisfy the premises of C10; the counts add
    up to 3. *)
Lemma aggregation_conserves_rows_witness :
  coordinates (station_table [(1, 2); (1, 2); (3, 4)]%Z)
  = Ok [(num 1, num 2); (num 1, num 2); (num 3, num 4)]
  ∧ Forall (λ k, key_notna k) [(num 1, num 2); (num 1, num 2); (num 3, num 4)]
  ∧ ∃ counts : list nat,
      sum_list counts = 3%nat
      ∧ (distinct_locations
           (m (App.add_markers (station_table [(1, 2); (1, 2); (3, 4)]%Z)
                 "dodgerblue" "cyan" "Training" new_page).2)).*2
        = (num ∘ Z.of_nat) <$> counts.
Proof.
  split; [reflexivity |]. split; [by repeat constructor |].
  destruct (aggregation_conserves_rows
              (station_table [(1, 2); (1, 2); (3, 4)]%Z)
              [(num 1, num 2); (num 1, num 2); (num 3, num 4)])
    as (counts & _ & Hsum & Happ & _).
  - reflexivity.
  - by repeat constructor.
  - exists counts. split; [exact Hsum | apply Happ].
Defined.

(** ** The unique-station table of [app_satelite.py] *)

Lemma stations_station_row c : stations (mkDF ["Latitude"; "Longitude"; "Source"] (station_row <$> c)) = c.
Proof.
  unfold stations. simpl. rewrite <-list_fmap_compose.
  rewrite <-(list_fmap_id c) at 2. apply list_fmap_ext. by intros i [[a b] s] _.
Qed.

Lemma reindex_station_rows c :
  reindex_columns ["Latitude"; "Longitude"; "Source"]
    (mkDF ["Latitude"; "Longitude"; "Source"] (station_row <$> c))
  = station_row <$> c.
Proof.
  unfold reindex_columns. simpl. rewrite <-list_fmap_compose.
  apply list_fmap_ext. by intros i [[a b] s] _.
Qed.

Lemma concat_first c :
  concat pd_DataFrame (mkDF ["Latitude"; "Longitude"; "Source"] (station_row <$> c))
  = mkDF ["Latitude"; "Longitude"; "Source"] (station_row <$> c).
Proof.
  unfold concat. cbn [columns pd_DataFrame app].
  change (unique ["Latitude"; "Longitude"; "Source"])
    with ["Latitude"; "Longitude"; "Source"].
  by rewrite reindex_station_rows.
Qed.

Lemma concat_station_rows a b :
  concat (mkDF ["Latitude"; "Longitude"; "Source"] (station_row <$> a))
         (mkDF ["Latitude"; "Longitude"; "Source"] (station_row <$> b))
  = mkDF ["Latitude"; "Longitude"; "Source"] (station_row <$> (a ++ b)).
Proof.
  unfold concat. cbn [columns app].
  change (unique ["Latitude"; "Longitude"; "Source";
                  "Latitude"; "Longitude"; "Source"])
    with ["Latitude"; "Longitude"; "Source"].
  by rewrite !reindex_station_rows, fmap_app.
Qed.

Lemma add_dataset_holds fs df c file :
  holds df c →
  holds (AppSatelite.add_dataset fs df file) (c ++ tagged_rows fs file).
Proof.
  intros [Hrows Hcols]. destruct file as [source f].
  unfold AppSatelite.add_dataset, tagged_rows. simpl.
  destruct (read_csv fs f) as [d | e]; simpl; [| by rewrite app_nil_r].
  destruct (has_coordinates d) eqn:Hd; simpl.
  - apply coordinates_has_coordinates in Hd as [ks Hks].
    unfold getitem_coordinates. rewrite Hks. simpl.
    assert (setitem_const "Source" (VStr source)
              (mkDF ["Latitude"; "Longitude"] ((λ k : key, [k.1; k.2]) <$> ks))
            = mkDF ["Latitude"; "Longitude"; "Source"]
                (station_row <$> ((λ k, (k, VStr source)) <$> ks))) as ->.
    { unfold setitem_const. simpl. f_equal. by rewrite <-!list_fmap_compose. }
    destruct df as [cols rs]. simpl in *. subst rs.
    destruct Hcols as [[-> ->] | ->].
    + rewrite concat_first. split; [done | by right].
    + rewrite concat_station_rows. split; [done | by right].
  - destruct (coordinates d) as [ks |] eqn:Hks; [| by rewrite app_nil_r].
    assert (has_coordinates d = true) by (apply coordinates_has_coordinates; eauto).
    congruence.
Qed.

Lemma combined_df_holds fs : holds (AppSatelite.combined_df fs) (concatenated_input fs).
Proof.
  unfold AppSatelite.combined_df, AppSatelite.files, concatenated_input.
  cbn [foldl].
  apply add_dataset_holds.
  apply (add_dataset_holds fs pd_DataFrame []).
  split; [done | by left].
Qed.

(** [load_unique_data] never raises; its table holds, for each coordinate
    pair, the first tagged row of the concatenated input. *)
Lemma load_unique_data_stations fs :
  ∃ out, AppSatelite.load_unique_data fs = Ok out
    ∧ stations out = first_by fst [] (concatenated_input fs)
    ∧ (columns out = [] ∨ columns out = ["Latitude"; "Longitude"; "Source"]).
Proof.
  unfold AppSatelite.load_unique_data.
  destruct (combined_df_holds fs) as [Hrows Hcols].
  destruct (AppSatelite.combined_df fs) as [cols rs]. simpl in *. subst rs.
  unfold drop_duplicates_coordinates, empty. simpl.
  destruct Hcols as [[-> Hc] | ->].
  - rewrite Hc. simpl. eexists. split; [done |]. split; [done | by left].
  - rewrite bool_decide_eq_false_2 by done. simpl.
    case_bool_decide as Hnil.
    + eexists. split; [done |]. split; [| by right].
      destruct (concatenated_input fs); [done | discriminate].
    + eexists. split; [done |]. split; [| by right].
      rewrite first_by_fmap, stations_station_row.
      apply first_by_ext. by intros [[a b] s].
Qed.

(** C2 (amended).  [load_unique_data] never raises.  Its table has one row
    per distinct coordinate pair of the concatenated input (training rows,
    then validation rows), in order of first appearance, whatever dataset the
    pair comes from; each row is the first tagged row of the concatenated
    input with these coordinates, so its source is the dataset of the first
    occurrence.  The table is empty or has exactly the columns Latitude,
    Longitude and Source: there is no count. *)
Theorem load_unique_data_first_occurrence_wins (fs : filesystem) :
  ∃ out,
    AppSatelite.load_unique_data fs = Ok out
    ∧ (stations out).*1 = unique (concatenated_input fs).*1
    ∧ Forall (λ s, ∃ i, list_find (λ r, r.1 = s.1) (concatenated_input fs)
                        = Some (i, s))
             (stations out)
    ∧ (columns out = [] ∨ columns out = ["Latitude"; "Longitude"; "Source"])
    ∧ ("Count" ∉ columns out).
Proof.
  destruct (load_unique_data_stations fs) as (out & Hout & Hst & Hcols).
  exists out. split; [done |]. rewrite Hst. split; [| split; [| split]].
  - unfold unique. by rewrite (first_by_keys fst).
  - apply Forall_forall. intros s Hs.
    by apply (first_by_is_first fst [] (concatenated_input fs)).
  - done.
  - destruct Hcols as [-> | ->]; [apply not_elem_of_nil |].
    apply (bool_decide_eq_false_1 (_ ∈ _)). reflexivity.
Qed.

(** C2 as stated fails: with the station (1,1) in both files the table has
    the single row (1, 1, "Training Set"), and no row of it has a count 2 to
    read: [row['Count']] raises [KeyError]. *)
Lemma unique_station_has_no_count :
  AppSatelite.load_unique_data shared_station
  = Ok (mkDF ["Latitude"; "Longitude"; "Source"]
          [[num 1; num 1; VStr "Training Set"]])
  ∧ ¬ ∃ out row,
        AppSatelite.load_unique_data shared_station = Ok out
        ∧ row ∈ rows out
        ∧ row_getitem (columns out) row "Count" = Ok (num 2).
Proof.
  assert (AppSatelite.load_unique_data shared_station
          = Ok (mkDF ["Latitude"; "Longitude"; "Source"]
                  [[num 1; num 1; VStr "Training Set"]])) as Hrun
    by (vm_compute; reflexivity).
  split; [done |]. rewrite Hrun. intros (out & row & [= <-] & _ & Hcount).
  vm_compute in Hcount. discriminate.
Qed.

(** ** The river colour table *)

Lemma river_color_map_paint l : river_color_map l = foldl paint ∅ (enumerate l).
Proof.
  unfold river_color_map. generalize (∅ : gmap value string).
  induction (enumerate l) as [| [i r] e IH]; intros d; simpl; [done |].
  by rewrite IH.
Qed.

Lemma paint_other (h : nat → nat) d l r :
  r ∉ l → foldl paint d (imap (λ i x, (h i, x)) l) !! r = d !! r.
Proof.
  revert h d. induction l as [| x l IH]; intros h d Hr; simpl; [done |].
  apply not_elem_of_cons in Hr as [Hne Hr].
  rewrite (IH (h ∘ S)) by done. unfold paint. simpl.
  by rewrite lookup_insert_ne.
Qed.

Lemma paint_lookup (h : nat → nat) d l i r :
  NoDup l → l !! i = Some r →
  foldl paint d (imap (λ i x, (h i, x)) l) !! r
  = Some (to_hex (colormap (h i mod 20))).
Proof.
  revert h d i. induction l as [| x l IH]; intros h d i Hl Hi; [done |].
  apply NoDup_cons in Hl as [Hx Hl]. simpl.
  destruct i as [| i]; simpl in Hi.
  - injection Hi as ->. rewrite (paint_other (h ∘ S)) by done.
    unfold paint. simpl. by rewrite lookup_insert_eq.
  - by rewrite (IH (h ∘ S) _ i).
Qed.

Lemma river_color_map_lookup l i r :
  NoDup l → l !! i = Some r →
  river_color_map l !! r = Some (to_hex (colormap (i mod 20))).
Proof. rewrite river_color_map_paint. apply (paint_lookup id). Qed.

Lemma river_color_map_None l r : r ∉ l → river_color_map l !! r = None.
Proof.
  rewrite river_color_map_paint. intros Hr.
  unfold enumerate. by rewrite (paint_other id).
Qed.

Lemma palette_lookup i :
  (i < 20)%nat → palette !! i = Some (to_hex (colormap i)).
Proof.
  intros Hi. do 20 (destruct i as [| i]; [reflexivity |]). lia.
Qed.

(** C3.  For every list of river identifiers, the identifier at position [i]
    of the first-seen distinct order gets the colour at index [i mod 20] of
    the 20-colour palette (the index is always inside the palette), and two
    identifiers whose positions are equal modulo 20 get the same colour.  The
    table is a function of the list alone. *)
Theorem river_color_assignment (main_riv : list value) (i : nat) (riv_id : value) :
  unique main_riv !! i = Some riv_id →
  river_color_map (unique main_riv) !! riv_id = palette !! (i mod 20)
  ∧ is_Some (palette !! (i mod 20))
  ∧ ∀ j other,
      unique main_riv !! j = Some other →
      (j mod 20 = i mod 20)%nat →
      river_color_map (unique main_riv) !! other
      = river_color_map (unique main_riv) !! riv_id.
Proof.
  intros Hi.
  assert (i mod 20 < 20)%nat as Hlt by (apply Nat.mod_upper_bound; lia).
  rewrite (river_color_map_lookup _ _ _ (NoDup_unique _) Hi).
  rewrite (palette_lookup _ Hlt). split; [done |]. split; [by eexists |].
  intros j other Hj Hmod.
  rewrite (river_color_map_lookup _ _ _ (NoDup_unique _) Hj). by rewrite Hmod.
Qed.

(** ["A", "B", "A", "C"]: the third distinct identifier "C" is at position 2
    and gets the palette colour 2. *)
Lemma river_color_assignment_witness :
  unique [VStr "A"; VStr "B"; VStr "A"; VStr "C"] !! 2%nat = Some (VStr "C")
  ∧ river_color_map (unique [VStr "A"; VStr "B"; VStr "A"; VStr "C"]) !! VStr "C"
    = palette !! 2%nat.
Proof.
  split; [reflexivity |].
  apply (river_color_assignment [VStr "A"; VStr "B"; VStr "A"; VStr "C"] 2 (VStr "C")).
  reflexivity.
Defined.

(** ** The style of a river that has no colour *)

(** C7.  When the [MAIN_RIV] value of a feature is not a key of the colour
    table (this includes a [null] value when no river is keyed by [None]),
    the style function returns the fixed default colour, ["#87CEFA"] in
    [app.py] and ["#00FFFF"] in [app_wastewater.py], as soon as the line
    weight can be computed; neither default, in either letter case, is one of
    the 20 palette colours. *)
Theorem unassigned_river_gets_default (assignment : gmap value string)
    (x : feature) (riv : value) :
  x !! "MAIN_RIV" = Some riv →
  assignment !! riv = None →
  (∀ w, py_mul (default (num 1) (x !! "ORD_STRA")) (Q2Qc (1 # 4)) = Ok w →
        App.style_function assignment x
        = Ok (mkStyle "#87CEFA" w (Q2Qc (4 # 5))))
  ∧ (∀ w, (w ← py_mul (default (num 1) (x !! "ORD_STRA")) (Q2Qc (1 # 2));
           py_add w (Q2Qc (1 # 2))) = Ok w →
          AppWastewater.style_function assignment x
          = Ok (mkStyle "#00FFFF" w (Q2Qc (4 # 5))))
  ∧ Forall (λ c, c ∉ palette) ["#87CEFA"; "#87cefa"; "#00FFFF"; "#00ffff"]
  ∧ length palette = 20%nat.
Proof.
  intros Hriv Hnone. split; [| split; [| split; [| done]]].
  - intros w Hw. unfold App.style_function, properties_getitem.
    rewrite Hriv. simpl. rewrite Hw, Hnone. done.
  - intros w Hw. unfold AppWastewater.style_function, properties_getitem.
    rewrite Hriv. simpl.
    destruct (py_mul _ _) as [w1 |]; simpl in *; [| done].
    rewrite Hw, Hnone. done.
  - repeat apply Forall_cons_2; [.. | apply Forall_nil_2];
      apply (bool_decide_eq_false_1 (_ ∈ palette)); vm_compute; reflexivity.
Qed.

(** A feature whose [MAIN_RIV] is [null], styled with the table of the rivers
    1 and 2, satisfies the premises of C7. *)
Lemma unassigned_river_gets_default_witness :
  ({[ "MAIN_RIV" := VNone; "ORD_STRA" := num 2 ]} : feature) !! "MAIN_RIV"
  = Some VNone
  ∧ river_color_map [num 1; num 2] !! VNone = None
  ∧ App.style_function (river_color_map [num 1; num 2])
      {[ "MAIN_RIV" := VNone; "ORD_STRA" := num 2 ]}
    = Ok (mkStyle "#87CEFA" (VNum (Qc_of_Z 2 * Q2Qc (1 # 4))%Qc) (Q2Qc (4 # 5))).
Proof.
  split; [reflexivity |]. split; [vm_compute; reflexivity |].
  destruct (unassigned_river_gets_default (river_color_map [num 1; num 2])
              {[ "MAIN_RIV" := VNone; "ORD_STRA" := num 2 ]} VNone)
    as [Happ _].
  - reflexivity.
  - vm_compute. reflexivity.
  - apply Happ. vm_compute. reflexivity.
Defined.

(** ** The display cap *)

Section display.
Context {rng : Type} (RandomState : Z → rng)
        (permutation : rng → nat → list nat * rng).

Lemma display_df_small df max_points (s : page * rng) :
  (len df ≤ max_points)%nat →
  AppSatelite.display_df RandomState permutation df max_points s = (Ok df, s).
Proof.
  intros Hle. unfold AppSatelite.display_df.
  rewrite decide_False by lia. done.
Qed.

Lemma display_df_large df max_points (s : page * rng) :
  (max_points < len df)%nat →
  AppSatelite.display_df RandomState permutation df max_points s
  = (match mapM (λ i, rows df !! i)
             (take max_points (permutation (RandomState 42) (len df)).1) with
     | Some taken => Ok (mkDF (columns df) taken)
     | None => Raise IndexError
     end,
     (match mapM (λ i, rows df !! i)
              (take max_points (permutation (RandomState 42) (len df)).1) with
      | Some _ => mkPage (m s.1) (st s.1 ++ [st_toast "Displaying random stations."])
      | None => s.1
      end, s.2)).
Proof.
  intros Hlt. unfold AppSatelite.display_df.
  rewrite decide_True by done.
  unfold mbind, M_bind, AppSatelite.on_rng, AppSatelite.on_page,
    AppSatelite.sample.
  rewrite decide_False by lia. simpl.
  destruct (permutation _ _) as [arrangement after]. simpl.
  destruct (mapM _ _); destruct s as [p g]; simpl; [done |].
  by destruct p.
Qed.

End display.

(** C4.  Let the generator seeded with 42 draw an arrangement of the row
    positions, as numpy's [permutation] does.  Then for every table of [M]
    rows and every cap [k] the display step returns a table of exactly
    [min M k] rows with the same columns; when [M ≤ k] it is the input table
    itself, and when [M > k] its rows are the rows of the input at [k]
    pairwise distinct positions (a draw without replacement). *)
Theorem display_df_bound {rng : Type} (RandomState : Z → rng)
    (permutation : rng → nat → list nat * rng)
    (df : DataFrame) (max_points : nat) (s : page * rng) :
  (permutation (RandomState 42%Z) (len df)).1 ≡ₚ seq 0 (len df) →
  ∃ out,
    (AppSatelite.display_df RandomState permutation df max_points s).1 = Ok out
    ∧ columns out = columns df
    ∧ len out = (len df `min` max_points)%nat
    ∧ ((len df ≤ max_points)%nat → out = df)
    ∧ ((max_points < len df)%nat →
       ∃ positions,
         NoDup positions
         ∧ length positions = max_points
         ∧ Forall2 (λ i r, rows df !! i = Some r) positions (rows out)).
Proof.
  intros Hperm. destruct (decide (max_points < len df)%nat) as [Hlt | Hle].
  - rewrite display_df_large by done.
    set (arrangement := (permutation (RandomState 42%Z) (len df)).1) in *.
    assert (NoDup (take max_points arrangement)) as Hnodup.
    { eapply sublist_NoDup; [| apply sublist_take].
      rewrite Hperm. apply NoDup_seq. }
    assert (length (take max_points arrangement) = max_points) as Hlen.
    { apply length_take_le. rewrite Hperm, length_seq. lia. }
    assert (is_Some (mapM (λ i, rows df !! i) (take max_points arrangement)))
      as [taken Htaken].
    { apply mapM_is_Some, Forall_take, Forall_forall. intros i Hi.
      rewrite Hperm in Hi. apply elem_of_seq in Hi.
      apply lookup_lt_is_Some. unfold len in *. lia. }
    rewrite Htaken. apply mapM_Some in Htaken.
    exists (mkDF (columns df) taken). simpl.
    split; [done |]. split; [done |]. split; [| split; [lia |]].
    + unfold len at 1. simpl. rewrite <-(Forall2_length _ _ _ Htaken). lia.
    + intros _. by exists (take max_points arrangement).
  - rewrite display_df_small by lia. exists df. simpl.
    split; [done |]. split; [done |]. split; [lia |]. split; [done | lia].
Qed.

(** A table of three stations, capped at two, with a generator whose
    arrangement is the reversed order: the premise of C4 holds and its
    conclusion gives a table of two rows. *)
Lemma display_df_bound_witness :
  (reverse (seq 0 (len (station_table [(1, 2); (3, 4); (5, 6)]%Z)))
   ≡ₚ seq 0 (len (station_table [(1, 2); (3, 4); (5, 6)]%Z)))
  ∧ ∃ out,
      (AppSatelite.display_df (λ seed, seed)
         (λ g n, (reverse (seq 0 n), (g + 1)%Z))
         (station_table [(1, 2); (3, 4); (5, 6)]%Z) 2 (new_page, 0%Z)).1
      = Ok out
      ∧ len out = 2%nat.
Proof.
  split; [apply reverse_Permutation |].
  destruct (display_df_bound (λ seed, seed)
              (λ g n, (reverse (seq 0 n), (g + 1)%Z))
              (station_table [(1, 2); (3, 4); (5, 6)]%Z) 2 (new_page, 0%Z))
    as (out & Hout & _ & Hlen & _).
  - apply reverse_Permutation.
  - exists out. split; [exact Hout | exact Hlen].
Defined.

(** C5.  The display step is the same in every run: for every table and
    cap, whatever the page and whatever the state of numpy's global generator
    (two runs [s1] and [s2]), the returned table or exception is the same,
    because the draw uses a generator of its own seeded with 42; the global
    generator is left as it was.  The same holds of [sample] with any fixed
    seed. *)
Theorem display_df_reproducible {rng : Type} (RandomState : Z → rng)
    (permutation : rng → nat → list nat * rng)
    (df : DataFrame) (max_points : nat) (s1 s2 : page * rng) :
  (AppSatelite.display_df RandomState permutation df max_points s1).1
  = (AppSatelite.display_df RandomState permutation df max_points s2).1
  ∧ (AppSatelite.display_df RandomState permutation df max_points s1).2.2 = s1.2
  ∧ ∀ seed,
      (AppSatelite.sample RandomState permutation max_points (Some seed) df s1.2).1
      = (AppSatelite.sample RandomState permutation max_points (Some seed) df s2.2).1.
Proof.
  split; [| split].
  - destruct (decide (max_points < len df)%nat) as [Hlt | Hle].
    + by rewrite !display_df_large by done.
    + by rewrite !display_df_small by lia.
  - destruct (decide (max_points < len df)%nat) as [Hlt | Hle].
    + by rewrite !display_df_large by done.
    + by rewrite !display_df_small by lia.
  - intros seed. unfold AppSatelite.sample.
    case_decide; [done |]. simpl. by destruct (permutation _ _).
Qed.

(** ** Coordinate columns that are missing *)

(** [app.py] is the one page where a missing coordinate column does surface:
    its loader catches [FileNotFoundError] only, and [dropna] raises
    [KeyError]. *)
Lemma App_load_data_missing_coordinates fs file_path df :
  read_csv fs file_path = Ok df →
  has_coordinates df = false →
  App.load_data fs file_path = Raise KeyError.
Proof.
  intros Hread Hcols. unfold App.load_data. rewrite Hread. simpl.
  unfold dropna_coordinates.
  destruct (col_index "Latitude" _) as [i |] eqn:Hi; [| done].
  destruct (col_index "Longitude" _) as [j |] eqn:Hj; [| done].
  assert (has_coordinates df = true); [| congruence].
  apply coordinates_has_coordinates. unfold coordinates.
  rewrite Hi, Hj. by eexists.
Qed.




(** ** A file that cannot be read *)

(** In [app.py], when both station files are read and have the coordinate
    columns, with numbers in them, a river file that cannot be read costs
    only the river layer. *)
Lemma App_main_without_rivers fs e df_train df_val ks_train ks_val show_rivers :
  read_file fs "sa_rivers_final.geojson" = Raise e →
  App.load_data fs "TRAINING_SET.csv" = Ok df_train →
  App.load_data fs "VALIDATION_SET.csv" = Ok df_val →
  coordinates df_train = Ok ks_train →
  coordinates df_val = Ok ks_val →
  plain df_train →
  plain df_val →
  (App.main fs true true show_rivers new_page).1 = Ok ()
  ∧ distinct_locations (m (App.main fs true true show_rivers new_page).2)
    = located ks_train ++ located ks_val.
Proof.
  intros Hrivers Htrain Hval Hks_train Hks_val _ _.
  destruct (getitem_coordinates_Ok _ _ Hks_train) as [ct Hct].
  destruct (getitem_coordinates_Ok _ _ Hks_val) as [cv Hcv].
  unfold App.main, App.load_river_data.
  rewrite Htrain, Hval, Hrivers.
  unfold mbind, M_bind, lift, mret, M_ret, streamlit, show_map. simpl.
  rewrite Hct, Hcv.
  rewrite (App_add_markers_run _ _ _ _ _ _ Hks_train). simpl.
  rewrite (App_add_markers_run _ _ _ _ _ _ Hks_val). simpl.
  split; [done |].
  rewrite distinct_locations_app.
  rewrite <-(App_add_markers_locations df_train ks_train "dodgerblue" "cyan" "Training" Hks_train).
  rewrite <-(App_add_markers_locations df_val ks_val "darkred" "red" "Validation" Hks_val).
  rewrite (App_add_markers_run _ _ _ _ _ _ Hks_train).
  rewrite (App_add_markers_run _ _ _ _ _ _ Hks_val). done.
Qed.

(** In particular the markers are there as soon as the training set has a
    row. *)
Lemma App_markers_survive_river_failure fs e df_train df_val ks_train ks_val k :
  read_file fs "sa_rivers_final.geojson" = Raise e →
  App.load_data fs "TRAINING_SET.csv" = Ok df_train →
  App.load_data fs "VALIDATION_SET.csv" = Ok df_val →
  coordinates df_train = Ok ks_train →
  coordinates df_val = Ok ks_val →
  plain df_train →
  plain df_val →
  k ∈ ks_train →
  key_notna k →
  distinct_locations (m (App.main fs true true true new_page).2) ≠ [].
Proof.
  intros Hrivers Htrain Hval Hks_train Hks_val Hplain_train Hplain_val Hk Hpresent.
  destruct (App_main_without_rivers fs e df_train df_val ks_train ks_val true
              Hrivers Htrain Hval Hks_train Hks_val Hplain_train Hplain_val)
    as [_ ->].
  intros [Hnil _]%app_eq_nil. by apply (located_nonempty ks_train k).
Qed.

(** The loader of [app_wastewater.py] always returns a table: the empty one
    or one with both coordinates in every row. *)
Lemma AppWastewater_load_data_total fs file_path p :
  ∃ df p',
    AppWastewater.load_data fs file_path p = (Ok df, p')
    ∧ m p' = m p
    ∧ (df = pd_DataFrame
       ∨ ∃ ks, coordinates df = Ok ks ∧ Forall (λ k, key_notna k) ks).
Proof.
  unfold AppWastewater.load_data.
  destruct (AppWastewater.resolve fs file_path) as [path |];
    [| by exists pd_DataFrame, p; auto].
  destruct (AppWastewater.read_table fs path) as [df | e] eqn:Hread.
  - exists df, p. split; [done |]. split; [done |].
    unfold AppWastewater.read_table in Hread.
    destruct (if endswith path ".xlsx" then _ else _) as [d |]; [| done].
    simpl in Hread. destruct (has_coordinates _).
    + right. by apply dropna_coordinates_Ok in Hread.
    + left. by injection Hread.
  - eexists pd_DataFrame, _. split; [reflexivity |]. split; [done | by left].
Qed.

Lemma AppWastewater_markers_total radius_km df color fill_color group_label
    desc_col marker_size with_radius p :
  (df = pd_DataFrame ∨ ∃ ks, coordinates df = Ok ks) →
  ∃ p',
    AppWastewater.add_markers_and_radius radius_km df color fill_color
      group_label desc_col marker_size with_radius p = (Ok (), p')
    ∧ st p' = st p
    ∧ distinct_locations (m p') = distinct_locations (m p) ++ located_in df.
Proof.
  intros [-> | [ks Hks]].
  - exists p. split; [done |]. split; [done |]. by rewrite app_nil_r.
  - destruct (AppWastewater_add_markers_and_radius_run radius_km df ks color
                fill_color group_label desc_col marker_size with_radius p Hks)
      as (site_name & circles & -> & Hcircles).
    eexists. split; [reflexivity |]. split; [done |]. simpl.
    rewrite distinct_locations_app. f_equal.
    unfold located_in. rewrite Hks.
    by apply (distinct_locations_marker_groups
                (λ kn, [site_name kn.1; VStr group_label; num (Z.of_nat kn.2)])).
Qed.

Lemma mapM_getitem_coordinates (dfs : list DataFrame) :
  Forall (λ df, df = pd_DataFrame ∨ ∃ ks, coordinates df = Ok ks) dfs →
  ∃ all_coords,
    mapM getitem_coordinates (filter (λ df, negb (empty df)) dfs) = Ok all_coords.
Proof.
  induction 1 as [| df dfs Hdf _ [cs IH]]; [by eexists |].
  rewrite filter_cons. destruct Hdf as [-> | [ks Hks]].
  - rewrite decide_False by (by intros ?). by eexists.
  - case_decide; [| by eexists].
    destruct (getitem_coordinates_Ok _ _ Hks) as [c Hc].
    exists (c :: cs). simpl. rewrite Hc. simpl. by rewrite IH.
Qed.

(** A layer drawn only when its check box is ticked. *)
Lemma then_markers (show : bool) (c : M page unit) (locs : list (key * value)) p :
  (∀ q, ∃ q', c q = (Ok (), q')
              ∧ distinct_locations (m q') = distinct_locations (m q) ++ locs) →
  ∃ p', (if show then c else mret ()) p = (Ok (), p')
        ∧ distinct_locations (m p')
          = distinct_locations (m p) ++ (if show then locs else []).
Proof.
  intros Hc. destruct show; [apply Hc |].
  exists p. split; [done |]. by rewrite app_nil_r.
Qed.

(** X18.  In [app_wastewater.py] a river file that cannot be read, and any
    station file that cannot be read, costs only its own layer.  When the
    tables the loader returns are as the page expects them (labels pairwise
    different, coordinates that are numbers), the script finishes and every
    shown dataset has its locations on the map. *)
Lemma AppWastewater_main_without_rivers fs e show_train show_val show_wastewater
    show_rivers radius_km df_train df_val df_wastewater p1 p2 p3 :
  read_file fs "sa_rivers_final.geojson" = Raise e →
  AppWastewater.load_data fs "TRAINING_SET.csv" new_page = (Ok df_train, p1) →
  AppWastewater.load_data fs "VALIDATION_SET.csv" p1 = (Ok df_val, p2) →
  AppWastewater.load_data fs "Waste_Water.xlsx" p2 = (Ok df_wastewater, p3) →
  plain df_train →
  plain df_val →
  plain df_wastewater →
  (AppWastewater.main fs show_train show_val show_wastewater show_rivers
     radius_km new_page).1 = Ok ()
  ∧ distinct_locations
      (m (AppWastewater.main fs show_train show_val show_wastewater
            show_rivers radius_km new_page).2)
    = (if show_train then located_in df_train else [])
      ++ (if show_val then located_in df_val else [])
      ++ (if show_wastewater then located_in df_wastewater else []).
Proof.
  intros Hrivers Ht Hv Hw _ _ _.
  destruct (AppWastewater_load_data_total fs "TRAINING_SET.csv" new_page)
    as (df_train' & p1' & Ht' & Hm1 & Hdt).
  rewrite Ht in Ht'. injection Ht' as <- <-.
  destruct (AppWastewater_load_data_total fs "VALIDATION_SET.csv" p1)
    as (df_val' & p2' & Hv' & Hm2 & Hdv).
  rewrite Hv in Hv'. injection Hv' as <- <-.
  destruct (AppWastewater_load_data_total fs "Waste_Water.xlsx" p2)
    as (df_wastewater' & p3' & Hw' & Hm3 & Hdw).
  rewrite Hw in Hw'. injection Hw' as <- <-.
  assert (Hdt' : df_train = pd_DataFrame ∨ ∃ ks, coordinates df_train = Ok ks)
    by (destruct Hdt as [? | (ks & ? & _)]; eauto).
  assert (Hdv' : df_val = pd_DataFrame ∨ ∃ ks, coordinates df_val = Ok ks)
    by (destruct Hdv as [? | (ks & ? & _)]; eauto).
  assert (Hdw' : df_wastewater = pd_DataFrame
                 ∨ ∃ ks, coordinates df_wastewater = Ok ks)
    by (destruct Hdw as [? | (ks & ? & _)]; eauto).
  destruct (mapM_getitem_coordinates [df_train; df_val; df_wastewater])
    as [all_coords Hall].
  { repeat first [apply Forall_nil_2 | apply Forall_cons_2]; done. }
  assert (m p3 = []) as Hm by (rewrite Hm3, Hm2, Hm1; done).
  destruct (then_markers show_train
              (AppWastewater.add_markers_and_radius radius_km df_train
                 "dodgerblue" "cyan" "Training Set" None (Q2Qc 5) true)
              (located_in df_train) p3) as (p4 & Hq1 & Hl4).
  { intros q. destruct (AppWastewater_markers_total radius_km df_train
      "dodgerblue" "cyan" "Training Set" None (Q2Qc 5) true q Hdt')
      as (q' & ? & _ & ?). eauto. }
  destruct (then_markers show_val
              (AppWastewater.add_markers_and_radius radius_km df_val
                 "darkred" "red" "Validation Set" None (Q2Qc 5) true)
              (located_in df_val) p4) as (p5 & Hq2 & Hl5).
  { intros q. destruct (AppWastewater_markers_total radius_km df_val
      "darkred" "red" "Validation Set" None (Q2Qc 5) true q Hdv')
      as (q' & ? & _ & ?). eauto. }
  destruct (then_markers show_wastewater
              (AppWastewater.add_markers_and_radius radius_km df_wastewater
                 "lime" "#39FF14" "Waste Water / Dam" (Some "Description")
                 (Q2Qc (5 # 4)) false)
              (located_in df_wastewater) p5) as (p6 & Hq3 & Hl6).
  { intros q. destruct (AppWastewater_markers_total radius_km df_wastewater
      "lime" "#39FF14" "Waste Water / Dam" (Some "Description")
      (Q2Qc (5 # 4)) false q Hdw') as (q' & ? & _ & ?). eauto. }
  assert (AppWastewater.main fs show_train show_val show_wastewater show_rivers
            radius_km new_page
          = (Ok (), mkPage (m p6)
                      (st p6 ++ [st_folium (m p6)]
                       ++ [st_info "Loaded river reaches and waste water/dam sites."])))
    as ->.
  { unfold AppWastewater.main, AppWastewater.load_river_data.
    rewrite Hrivers.
    rewrite (M_bind_Ok _ _ _ _ _ Ht), (M_bind_Ok _ _ _ _ _ Hv),
      (M_bind_Ok _ _ _ _ _ Hw).
    unfold lift at 1. rewrite Hall.
    rewrite (M_bind_Ok _ _ p3 all_coords p3 eq_refl).
    rewrite (M_bind_Ok _ _ p3 () p3 eq_refl).
    rewrite (M_bind_Ok _ _ _ _ _ Hq1), (M_bind_Ok _ _ _ _ _ Hq2),
      (M_bind_Ok _ _ _ _ _ Hq3).
    unfold mbind, M_bind, show_map, streamlit. simpl. by rewrite <-app_assoc. }
  simpl. split; [done |]. rewrite Hl6, Hl5, Hl4, Hm. simpl.
  by rewrite app_assoc.
Qed.

(** C8, at the failing input.  With [TRAINING_SET.csv] missing and the
    validation set and the river file in place, [load_data] of [app.py] gives
    the empty table for the training set; the map set-up then indexes it with
    the coordinate columns, which raises [KeyError] before any layer is
    drawn.  [app_wastewater.py], which leaves empty tables out of the map
    set-up, finishes and draws the validation location. *)
Lemma missing_training_set_stops_app :
  App.load_data missing_training_set "TRAINING_SET.csv" = Ok pd_DataFrame
  ∧ App.load_data missing_training_set "VALIDATION_SET.csv"
    = Ok (station_table [(1, 2)%Z])
  ∧ getitem_coordinates pd_DataFrame = Raise KeyError
  ∧ App.main missing_training_set true true true new_page
    = (Raise KeyError, new_page)
  ∧ (AppWastewater.main missing_training_set true true true true 0 new_page).1
    = Ok ()
  ∧ distinct_locations
      (m (AppWastewater.main missing_training_set true true true true 0
            new_page).2)
    = [((num 1, num 2), num 1)].
Proof. vm_compute. done. Qed.

(** ** Empty and absent datasets *)

Lemma tagged_rows_nil fs file :
  (∀ d, read_csv fs file.2 = Ok d → rows d = []) → tagged_rows fs file = [].
Proof.
  intros Hrows. unfold tagged_rows.
  destruct (read_csv fs file.2) as [d |]; [| done].
  destruct (coordinates d) as [ks |] eqn:Hks; [| done].
  apply coordinates_length in Hks. unfold len in Hks.
  rewrite (Hrows d eq_refl) in Hks. by destruct ks.
Qed.

(** C9 as stated fails: with no station file on the disk,
    [load_unique_data] returns the empty table, and the page of
    [app_satelite.py] has a failure path of its own for it: it shows an error
    and stops. *)
Lemma empty_table_stops_the_station_page :
  AppSatelite.load_unique_data no_files = Ok pd_DataFrame
  ∧ AppSatelite.start no_files new_page
    = (Raise StopException, mkPage [] [st_error "Error: CSV files not found."]).
Proof. vm_compute. done. Qed.

(** C9 (amended).  A dataset without rows, in particular the empty table the
    loaders return for an absent file, is accepted by the aggregation steps:
    the marker loops of [app.py] and [app_wastewater.py] return without
    drawing anything and without an exception, [drop_duplicates] returns the
    table as it is, and when no station file that can be read has a row,
    [load_unique_data] returns a table without rows and does not raise.  The
    page of [app_satelite.py], however, treats this empty result as a
    failure: it shows its error message and stops. *)
Theorem empty_dataset_gives_empty_output (fs : filesystem) (df : DataFrame) :
  rows df = [] →
  (∀ f d, read_csv fs f = Ok d → rows d = []) →
  (∀ color fill_color label p,
     App.add_markers df color fill_color label p = (Ok (), p))
  ∧ (∀ radius_km color fill_color group_label desc_col marker_size with_radius p,
       AppWastewater.add_markers_and_radius radius_km df color fill_color
         group_label desc_col marker_size with_radius p = (Ok (), p))
  ∧ drop_duplicates_coordinates df = Ok df
  ∧ (∃ out, AppSatelite.load_unique_data fs = Ok out ∧ rows out = [])
  ∧ (∀ p, AppSatelite.start fs p
          = (Raise StopException,
             mkPage (m p) (st p ++ [st_error "Error: CSV files not found."]))).
Proof.
  intros Hrows Hfiles.
  assert (empty df = true) as Hempty.
  { unfold empty. rewrite Hrows. apply orb_true_r. }
  assert (∃ out, AppSatelite.load_unique_data fs = Ok out ∧ rows out = [])
    as (out & Hout & Hnone).
  { destruct (load_unique_data_stations fs) as (out & Hout & Hst & _).
    exists out. split; [done |].
    unfold concatenated_input in Hst.
    rewrite !tagged_rows_nil in Hst by (intros d; apply Hfiles).
    by apply fmap_nil_inv in Hst. }
  split; [| split; [| split; [| split]]].
  - intros. unfold App.add_markers. by rewrite Hempty.
  - intros. unfold AppWastewater.add_markers_and_radius. by rewrite Hempty.
  - unfold drop_duplicates_coordinates. by rewrite Hempty.
  - by exists out.
  - intros p. unfold AppSatelite.start.
    rewrite (M_bind_Ok _ _ p out p) by (unfold lift; by rewrite Hout).
    assert (empty out = true) as ->
      by (unfold empty; rewrite Hnone; apply orb_true_r).
    reflexivity.
Qed.

(** The empty table and a disk without files satisfy the premises of C9. *)
Lemma empty_dataset_gives_empty_output_witness :
  rows pd_DataFrame = []
  ∧ (∀ f d, read_csv no_files f = Ok d → rows d = [])
  ∧ App.add_markers pd_DataFrame "dodgerblue" "cyan" "Training" new_page
    = (Ok (), new_page)
  ∧ (∃ out, AppSatelite.load_unique_data no_files = Ok out ∧ rows out = [])
  ∧ (AppSatelite.start no_files new_page).1 = Raise StopException.
Proof.
  split; [reflexivity |]. split; [by intros f d |].
  destruct (empty_dataset_gives_empty_output no_files pd_DataFrame)
    as (Hmarkers & _ & _ & Hload & Hstop).
  - reflexivity.
  - by intros f d.
  - split; [apply Hmarkers |]. split; [exact Hload |]. by rewrite Hstop.
Defined.

(** The drawing loop of [app_satelite.py] on the shared station: a red or
    blue marker per row, then one circle per radius. *)
Example draw_shared_station :
  (AppSatelite.draw
     (mkDF ["Latitude"; "Longitude"; "Source"] [[num 1; num 1; VStr "Training Set"]])
     (AppSatelite.radii true false false true) new_page).2
  = mkPage [CircleMarker (num 1, num 1) (Q2Qc (3 # 2)) "blue" "blue"
              [num 1; num 1; VStr "Training Set"];
            Circle (num 1, num 1) (num 1000) "cyan";
            Circle (num 1, num 1) (num 10000) "cyan"] [].
Proof. vm_compute. reflexivity. Qed.

(** * More properties of the pages *)

(** ** The loader of [app.py] *)

Lemma filter_fmap {A B} (f : A → B) (P : B → Prop) `{∀ y, Decision (P y)}
    (l : list A) :
  filter P (f <$> l) = f <$> filter (λ x, P (f x)) l.
Proof.
  induction l as [| x l IH]; [done |].
  rewrite fmap_cons, !filter_cons. case_decide; by rewrite ?fmap_cons, IH.
Qed.

Lemma coordinates_dropna df ks :
  coordinates df = Ok ks →
  ∃ out, dropna_coordinates df = Ok out
    ∧ columns out = columns df
    ∧ rows out `sublist_of` rows df
    ∧ coordinates out = Ok (filter (λ k, key_notna k) ks).
Proof.
  unfold coordinates, dropna_coordinates.
  destruct (col_index "Latitude" _) as [i |] eqn:Hi; [| done].
  destruct (col_index "Longitude" _) as [j |] eqn:Hj; [| done].
  intros [= <-]. eexists. split; [done |]. simpl. rewrite Hi, Hj.
  split; [done |]. split; [apply sublist_filter |].
  f_equal. by rewrite filter_fmap.
Qed.

(** X1.  [load_data] of [app.py] on a file that can be read and has both
    coordinate columns returns a table with the columns of the file whose
    rows are rows of the file, in file order: those with both coordinates
    present.  When no row lacks a coordinate it is the table of the file. *)
Theorem App_load_data_keeps_located_rows (fs : filesystem) (file_path : string)
    (df : DataFrame) (ks : list key) :
  read_csv fs file_path = Ok df →
  coordinates df = Ok ks →
  ∃ out,
    App.load_data fs file_path = Ok out
    ∧ columns out = columns df
    ∧ rows out `sublist_of` rows df
    ∧ coordinates out = Ok (filter (λ k, key_notna k) ks)
    ∧ (Forall (λ k, key_notna k) ks → out = df).
Proof.
  intros Hread Hks.
  destruct (coordinates_dropna df ks Hks) as (out & Hout & Hcols & Hsub & Hcoord).
  exists out. unfold App.load_data. rewrite Hread. simpl. rewrite Hout.
  do 4 (split; [done |]).
  intros Hall. unfold dropna_coordinates, coordinates in *.
  destruct (col_index "Latitude" _) as [i |]; [| done].
  destruct (col_index "Longitude" _) as [j |]; [| done].
  injection Hout as <-. injection Hks as <-.
  destruct df as [cols rs]. simpl in *. f_equal.
  apply filter_all. rewrite Forall_fmap in Hall. exact Hall.
Qed.

Lemma App_load_data_keeps_located_rows_witness :
  read_csv shared_station "TRAINING_SET.csv" = Ok (station_table [(1, 1)%Z])
  ∧ coordinates (station_table [(1, 1)%Z]) = Ok [(num 1, num 1)]
  ∧ ∃ out,
      App.load_data shared_station "TRAINING_SET.csv" = Ok out
      ∧ columns out = ["Latitude"; "Longitude"].
Proof.
  split; [reflexivity |]. split; [reflexivity |].
  destruct (App_load_data_keeps_located_rows shared_station "TRAINING_SET.csv"
              (station_table [(1, 1)%Z]) [(num 1, num 1)])
    as (out & Hout & Hcols & _); [reflexivity | reflexivity |].
  exists out. split; [exact Hout | exact Hcols].
Defined.

(** X2.  What [load_data] of [app.py] does with a failure: a missing file
    gives the empty table [pd.DataFrame()]; every other exception of
    [read_csv] leaves the function; and a file without one of the coordinate
    columns makes [dropna] raise [KeyError], which is not caught either. *)
Theorem App_load_data_errors (fs : filesystem) (file_path : string) :
  (read_csv fs file_path = Raise FileNotFoundError →
   App.load_data fs file_path = Ok pd_DataFrame)
  ∧ (∀ e, read_csv fs file_path = Raise e → e ≠ FileNotFoundError →
          App.load_data fs file_path = Raise e)
  ∧ (∀ df, read_csv fs file_path = Ok df → has_coordinates df = false →
           App.load_data fs file_path = Raise KeyError).
Proof.
  split; [| split].
  - intros Hread. unfold App.load_data. by rewrite Hread.
  - intros e Hread He. unfold App.load_data. rewrite Hread. simpl.
    by destruct e.
  - intros df. apply App_load_data_missing_coordinates.
Qed.

Lemma App_load_data_errors_witness :
  read_csv no_coordinates_files "TRAINING_SET.csv" = Ok no_coordinates
  ∧ has_coordinates no_coordinates = false
  ∧ App.load_data no_coordinates_files "TRAINING_SET.csv" = Raise KeyError.
Proof.
  split; [reflexivity |]. split; [reflexivity |].
  destruct (App_load_data_errors no_coordinates_files "TRAINING_SET.csv")
    as (_ & _ & Hcols).
  apply (Hcols no_coordinates); reflexivity.
Defined.

(** ** The loader of [app_wastewater.py] *)

(** X3.  [load_data] of [app_wastewater.py] never raises and never touches
    the map.  It returns the empty table or a table in which every row has
    both coordinates.  It shows nothing, or exactly one [st.error] naming the
    path it tried to read, and then what it returns is the empty table. *)
Theorem AppWastewater_load_data_never_raises (fs : filesystem)
    (file_path : string) (p : page) :
  ∃ df,
    (AppWastewater.load_data fs file_path p).1 = Ok df
    ∧ m (AppWastewater.load_data fs file_path p).2 = m p
    ∧ (df = pd_DataFrame
       ∨ ∃ ks, coordinates df = Ok ks ∧ Forall (λ k, key_notna k) ks)
    ∧ (st (AppWastewater.load_data fs file_path p).2 = st p
       ∨ df = pd_DataFrame
         ∧ ∃ path e,
             AppWastewater.resolve fs file_path = Some path
             ∧ AppWastewater.read_table fs path = Raise e
             ∧ st (AppWastewater.load_data fs file_path p).2
               = st p ++ [st_error ("Error loading " +:+ path)]).
Proof.
  unfold AppWastewater.load_data.
  destruct (AppWastewater.resolve fs file_path) as [path |];
    [| exists pd_DataFrame; simpl; auto].
  destruct (AppWastewater.read_table fs path) as [df | e] eqn:Hread.
  - exists df. simpl. do 2 (split; [done |]). split; [| by left].
    unfold AppWastewater.read_table in Hread.
    destruct (if endswith path ".xlsx" then _ else _) as [d |]; [| done].
    simpl in Hread. destruct (has_coordinates _).
    + right. by apply dropna_coordinates_Ok in Hread.
    + left. by injection Hread.
  - exists pd_DataFrame. simpl. do 2 (split; [done |]). split; [by left |].
    right. split; [done |]. by exists path, e.
Qed.

Lemma rev_app_app (s t acc : string) :
  String.rev_app (s +:+ t) acc = String.rev_app t (String.rev_app s acc).
Proof.
  revert acc. induction s as [| a s IH]; intros acc; [done |].
  change (String a s +:+ t) with (String a (s +:+ t)). simpl. apply IH.
Qed.

Lemma endswith_sheet_fallback (s : string) :
  endswith (s +:+ " - Sheet1.csv") ".xlsx" = false.
Proof. unfold endswith, String.rev. by rewrite rev_app_app. Qed.

(** X4.  When the requested file does not exist and the file with the
    suffix [" - Sheet1.csv"] does, [load_data] of [app_wastewater.py] reads
    that file, and reads it with [read_csv] even if the requested name ends
    in [.xlsx]: a failure of [read_csv] is reported under the longer path,
    and a table read whose stripped labels are pairwise different and
    include both coordinates is returned without its rows that lack a
    coordinate. *)
Theorem AppWastewater_sheet_fallback_is_read_as_csv (fs : filesystem)
    (file_path : string) (p : page) :
  path_exists fs file_path = false →
  path_exists fs (file_path +:+ " - Sheet1.csv") = true →
  AppWastewater.resolve fs file_path = Some (file_path +:+ " - Sheet1.csv")
  ∧ (∀ e, read_csv fs (file_path +:+ " - Sheet1.csv") = Raise e →
          AppWastewater.load_data fs file_path p
          = (Ok pd_DataFrame,
             mkPage (m p)
               (st p ++ [st_error ("Error loading "
                                   +:+ (file_path +:+ " - Sheet1.csv"))])))
  ∧ (∀ df ks,
       read_csv fs (file_path +:+ " - Sheet1.csv") = Ok df →
       NoDup (strip <$> columns df) →
       coordinates (mkDF (strip <$> columns df) (rows df)) = Ok ks →
       ∃ out,
         AppWastewater.load_data fs file_path p = (Ok out, p)
         ∧ columns out = strip <$> columns df
         ∧ rows out `sublist_of` rows df
         ∧ coordinates out = Ok (filter (λ k, key_notna k) ks)).
Proof.
  intros Hno Hyes.
  assert (AppWastewater.resolve fs file_path
          = Some (file_path +:+ " - Sheet1.csv")) as Hpath.
  { unfold AppWastewater.resolve. by rewrite Hno, Hyes. }
  split; [done |]. split.
  - intros e Hread. unfold AppWastewater.load_data, AppWastewater.read_table.
    rewrite Hpath, endswith_sheet_fallback, Hread. done.
  - intros df ks Hread _ Hks.
    destruct (coordinates_dropna _ ks Hks) as (out & Hout & Hcols & Hsub & Hcoord).
    exists out. unfold AppWastewater.load_data, AppWastewater.read_table.
    rewrite Hpath, endswith_sheet_fallback, Hread. simpl.
    assert (has_coordinates (mkDF (strip <$> columns df) (rows df)) = true) as ->
      by (apply coordinates_has_coordinates; eauto).
    by rewrite Hout.
Qed.

(** The exported sheet, with a no-break space before [Latitude]: the labels
    are found, and the row without latitude is dropped. *)
Lemma AppWastewater_sheet_fallback_is_read_as_csv_witness :
  path_exists sheet_export "Waste_Water.xlsx" = false
  ∧ path_exists sheet_export ("Waste_Water.xlsx" +:+ " - Sheet1.csv") = true
  ∧ strip <$> columns padded_sheet = ["Latitude"; "Longitude"; "Description"]
  ∧ ∃ out,
      AppWastewater.load_data sheet_export "Waste_Water.xlsx" new_page
      = (Ok out, new_page)
      ∧ coordinates out = Ok [(num 1, num 2)].
Proof.
  split; [reflexivity |]. split; [reflexivity |]. split; [reflexivity |].
  destruct (AppWastewater_sheet_fallback_is_read_as_csv sheet_export
              "Waste_Water.xlsx" new_page) as (_ & _ & Hread);
    [reflexivity | reflexivity |].
  destruct (Hread padded_sheet [(num 1, num 2); (VNaN, num 3)])
    as (out & Hout & _ & _ & Hcoord).
  - reflexivity.
  - apply (bool_decide_eq_true_1 (NoDup _)). vm_compute. reflexivity.
  - reflexivity.
  - exists out. split; [exact Hout | exact Hcoord].
Defined.

(** ** Stripping column labels *)

Lemma string_app_assoc (s t u : string) : (s +:+ t) +:+ u = s +:+ (t +:+ u).
Proof.
  induction s as [| a s IH]; [done |].
  change (String a ((s +:+ t) +:+ u) = String a (s +:+ (t +:+ u))). by rewrite IH.
Qed.

Lemma string_app_nil_r (s : string) : s +:+ EmptyString = s.
Proof.
  induction s as [| a s IH]; [done |].
  change (String a (s +:+ EmptyString) = String a s). by rewrite IH.
Qed.

Lemma rev_app_acc (s acc : string) : String.rev_app s acc = String.rev s +:+ acc.
Proof.
  unfold String.rev. revert acc. induction s as [| a s IH]; intros acc; [done |].
  simpl. rewrite (IH (String a acc)), (IH (String a EmptyString)), string_app_assoc. done.
Qed.

Lemma rev_string_app (s t : string) :
  String.rev (s +:+ t) = String.rev t +:+ String.rev s.
Proof. unfold String.rev at 1. rewrite rev_app_app, (rev_app_acc t). reflexivity. Qed.

Lemma rev_String (a : ascii) (s : string) :
  String.rev (String a s) = String.rev s +:+ String a EmptyString.
Proof. unfold String.rev at 1. simpl. apply rev_app_acc. Qed.

Lemma rev_rev (s : string) : String.rev (String.rev s) = s.
Proof.
  induction s as [| a s IH]; [done |].
  by rewrite rev_String, rev_string_app, IH.
Qed.

(** The bytes of the whitespace characters. *)
Lemma py_isspace_high (a : ascii) :
  (33 ≤ nat_of_ascii a)%nat → py_isspace a = false.
Proof.
  intros Ha. unfold py_isspace. simpl.
  rewrite !bool_decide_eq_false_2 by lia. done.
Qed.

Lemma isspace2_bytes (a b : ascii) :
  isspace2 a b = true →
  (nat_of_ascii a = 194 ∧ 128 ≤ nat_of_ascii b)%nat.
Proof.
  unfold isspace2. intros [Ha Hb]%andb_true_iff.
  apply bool_decide_eq_true in Ha. apply orb_true_iff in Hb.
  rewrite !bool_decide_eq_true in Hb. lia.
Qed.

Lemma isspace3_bytes (a b c : ascii) :
  isspace3 a b c = true →
  (225 ≤ nat_of_ascii a ∧ 128 ≤ nat_of_ascii b ≤ 154 ∧ 128 ≤ nat_of_ascii c)%nat.
Proof.
  unfold isspace3. simpl. rewrite !orb_true_iff, !bool_decide_eq_true. lia.
Qed.

Lemma isspace2_false (a b : ascii) :
  (nat_of_ascii a ≠ 194 ∨ nat_of_ascii b < 128)%nat → isspace2 a b = false.
Proof.
  intros H. destruct (isspace2 a b) eqn:Hab; [| done].
  apply isspace2_bytes in Hab. lia.
Qed.

Lemma isspace3_false (a b c : ascii) :
  (nat_of_ascii a < 225 ∨ nat_of_ascii c < 128)%nat → isspace3 a b c = false.
Proof.
  intros H. destruct (isspace3 a b c) eqn:Habc; [| done].
  apply isspace3_bytes in Habc. lia.
Qed.

(** Leading whitespace goes. *)
Lemma lstrip_space (pre t : string) :
  all_space pre → lstrip (pre +:+ t) = lstrip t.
Proof.
  unfold lstrip. induction 1 as [| a s Ha _ IH | a b s Hab _ IH | a b c s Habc _ IH].
  - done.
  - change (String a s +:+ t) with (String a (s +:+ t)).
    cbn [lstrip_by]. by rewrite Ha.
  - change (String a (String b s) +:+ t) with (String a (String b (s +:+ t))).
    cbn [lstrip_by]. destruct (isspace2_bytes _ _ Hab) as [Hlead _].
    rewrite py_isspace_high by lia. by rewrite Hab.
  - change (String a (String b (String c s)) +:+ t)
      with (String a (String b (String c (s +:+ t)))).
    cbn [lstrip_by]. destruct (isspace3_bytes _ _ _ Habc) as (Hlead & _ & _).
    rewrite py_isspace_high by lia.
    rewrite isspace2_false by lia. by rewrite Habc.
Qed.

(** So does trailing whitespace, met in reverse. *)
Lemma rstrip_space (post t : string) :
  all_space post →
  lstrip_by (λ a b, isspace2 b a) (λ a b c, isspace3 c b a)
    (String.rev post +:+ t)
  = lstrip_by (λ a b, isspace2 b a) (λ a b c, isspace3 c b a) t.
Proof.
  intros Hpost. revert t.
  induction Hpost as [| a s Ha _ IH | a b s Hab _ IH | a b c s Habc _ IH];
    intros t.
  - done.
  - rewrite rev_String, string_app_assoc, IH.
    change (String a EmptyString +:+ t) with (String a t).
    cbn [lstrip_by]. by rewrite Ha.
  - rewrite !rev_String, !string_app_assoc, IH.
    change (String b EmptyString +:+ (String a EmptyString +:+ t))
      with (String b (String a t)).
    cbn [lstrip_by]. destruct (isspace2_bytes _ _ Hab) as [_ Hb].
    rewrite py_isspace_high by lia. by rewrite Hab.
  - rewrite !rev_String, !string_app_assoc, IH.
    change (String c EmptyString
            +:+ (String b EmptyString +:+ (String a EmptyString +:+ t)))
      with (String c (String b (String a t))).
    cbn [lstrip_by]. destruct (isspace3_bytes _ _ _ Habc) as (_ & Hb & Hc).
    rewrite py_isspace_high by lia.
    rewrite isspace2_false by lia. by rewrite Habc.
Qed.

(** Nothing is taken off a string that starts with a character below U+0080
    that is not whitespace. *)
Lemma lstrip_by_clean sp2 sp3 (s : string) :
  starts_clean s = true →
  (∀ a b, (nat_of_ascii a < 128)%nat → sp2 a b = false) →
  (∀ a b c, (nat_of_ascii a < 128)%nat → sp3 a b c = false) →
  lstrip_by sp2 sp3 s = s.
Proof.
  intros Hs Hsp2 Hsp3. destruct s as [| a s1]; [done |].
  simpl in Hs. apply andb_true_iff in Hs as [Hspace Hlow].
  apply negb_true_iff in Hspace. apply bool_decide_eq_true in Hlow.
  cbn [lstrip_by]. rewrite Hspace.
  destruct s1 as [| b s2]; [done |]. rewrite Hsp2 by done.
  destruct s2 as [| c s3]; [done |]. by rewrite Hsp3.
Qed.

Lemma starts_clean_app (s t : string) :
  s ≠ EmptyString → starts_clean (s +:+ t) = starts_clean s.
Proof. by destruct s. Qed.

(** [strip] removes the whitespace around a word and nothing else. *)
Lemma strip_padded (core label : string) :
  padded core label → edge_clean core = true → strip label = core.
Proof.
  intros (pre & post & Hpre & Hpost & ->) [Hstart Hend]%andb_true_iff.
  unfold strip, rstrip. rewrite (lstrip_space pre _ Hpre).
  destruct (decide (core = EmptyString)) as [-> | Hne].
  - change (EmptyString +:+ post) with post.
    rewrite <-(string_app_nil_r post) at 1.
    rewrite (lstrip_space post _ Hpost). done.
  - unfold lstrip.
    rewrite (lstrip_by_clean isspace2 isspace3 (core +:+ post)); cycle 1.
    + by rewrite starts_clean_app.
    + intros a b Ha. apply isspace2_false. lia.
    + intros a b c Ha. apply isspace3_false. lia.
    + rewrite rev_string_app, (rstrip_space post _ Hpost).
      rewrite lstrip_by_clean; [apply rev_rev | done | |].
      * intros a b Ha. apply isspace2_false. lia.
      * intros a b c Ha. apply isspace3_false. lia.
Qed.

Lemma strip_padded_labels (cores labels : list string) :
  Forall2 padded cores labels →
  Forall (λ core, edge_clean core = true) cores →
  strip <$> labels = cores.
Proof.
  induction 1 as [| core label cores labels Hp _ IH]; [done |].
  intros [Hc Hclean]%Forall_cons.
  rewrite fmap_cons, (strip_padded core label), IH; done.
Qed.

(** X5.  [load_data] of [app_wastewater.py] finds the coordinate columns
    whatever whitespace surrounds the labels in the file, the whitespace
    beyond ASCII included: if the labels of the file are pairwise different
    words (text that starts and ends with a character below U+0080 that is
    not whitespace), each padded with whitespace, the table returned has the
    words as labels and the rows with both coordinates. *)
Theorem AppWastewater_load_data_ignores_padding (fs : filesystem)
    (file_path path : string) (df : DataFrame) (cores : list string)
    (ks : list key) (p : page) :
  AppWastewater.resolve fs file_path = Some path →
  (if endswith path ".xlsx" then read_excel fs path else read_csv fs path)
  = Ok df →
  Forall2 padded cores (columns df) →
  Forall (λ core, edge_clean core = true) cores →
  NoDup cores →
  coordinates (mkDF cores (rows df)) = Ok ks →
  ∃ out,
    AppWastewater.load_data fs file_path p = (Ok out, p)
    ∧ columns out = cores
    ∧ rows out `sublist_of` rows df
    ∧ coordinates out = Ok (filter (λ k, key_notna k) ks).
Proof.
  intros Hpath Hread Hpad Hclean _ Hks.
  pose proof (strip_padded_labels _ _ Hpad Hclean) as Hstrip.
  destruct (coordinates_dropna _ ks Hks) as (out & Hout & Hcols & Hsub & Hcoord).
  exists out. unfold AppWastewater.load_data, AppWastewater.read_table.
  rewrite Hpath, Hread. simpl. rewrite Hstrip.
  assert (has_coordinates (mkDF cores (rows df)) = true) as ->
    by (apply coordinates_has_coordinates; eauto).
  by rewrite Hout.
Qed.

(** The exported sheet: [Latitude] after a no-break space, [Longitude]
    before a blank. *)
Lemma AppWastewater_load_data_ignores_padding_witness :
  AppWastewater.resolve sheet_export "Waste_Water.xlsx"
  = Some "Waste_Water.xlsx - Sheet1.csv"
  ∧ read_csv sheet_export "Waste_Water.xlsx - Sheet1.csv" = Ok padded_sheet
  ∧ Forall2 padded ["Latitude"; "Longitude"; "Description"]
      (columns padded_sheet)
  ∧ ∃ out,
      AppWastewater.load_data sheet_export "Waste_Water.xlsx" new_page
      = (Ok out, new_page)
      ∧ columns out = ["Latitude"; "Longitude"; "Description"]
      ∧ coordinates out = Ok [(num 1, num 2)].
Proof.
  assert (Forall2 padded ["Latitude"; "Longitude"; "Description"]
            (columns padded_sheet)) as Hpad.
  { repeat first [apply Forall2_nil_2 | apply Forall2_cons_2].
    - exists nbsp, EmptyString. split; [| split; [constructor | reflexivity]].
      apply all_space_2; [reflexivity | constructor].
    - exists EmptyString, " ". split; [constructor |]. split; [| reflexivity].
      apply all_space_1; [reflexivity | constructor].
    - exists EmptyString, EmptyString. by repeat constructor. }
  split; [reflexivity |]. split; [reflexivity |]. split; [exact Hpad |].
  destruct (AppWastewater_load_data_ignores_padding sheet_export
              "Waste_Water.xlsx" "Waste_Water.xlsx - Sheet1.csv" padded_sheet
              ["Latitude"; "Longitude"; "Description"]
              [(num 1, num 2); (VNaN, num 3)] new_page)
    as (out & Hout & Hcols & _ & Hcoord).
  - reflexivity.
  - reflexivity.
  - exact Hpad.
  - repeat first [apply Forall_nil_2 | apply Forall_cons_2]; reflexivity.
  - apply (bool_decide_eq_true_1 (NoDup _)). vm_compute. reflexivity.
  - reflexivity.
  - exists out. split; [exact Hout |]. split; [exact Hcols | exact Hcoord].
Defined.

(** ** Circles and site names in [app_wastewater.py] *)

Lemma circles_app ls1 ls2 : circles (ls1 ++ ls2) = circles ls1 ++ circles ls2.
Proof. apply omap_app. Qed.

(** The layers the loop of [add_markers_and_radius] adds, given the names
    the aggregation has found. *)
Lemma AppWastewater_add_markers_and_radius_layers radius_km df ks color
    fill_color group_label desc_col marker_size with_radius
    (name_of : key → value) p :
  coordinates df = Ok ks →
  AppWastewater.distinct_df df desc_col
  = Ok (mkDF ["Latitude"; "Longitude"; "Count"; "Name"]
          ((λ kn : key * nat,
              [kn.1.1; kn.1.2; num (Z.of_nat kn.2); name_of kn.1])
             <$> groupby_size ks)) →
  AppWastewater.add_markers_and_radius radius_km df color fill_color
    group_label desc_col marker_size with_radius p
  = (Ok (),
     mkPage (m p ++ mjoin ((λ kn : key * nat,
               CircleMarker kn.1 marker_size color fill_color
                 [if truthy (name_of kn.1) then name_of kn.1
                  else VStr group_label;
                  VStr group_label; num (Z.of_nat kn.2)]
               :: (if with_radius && bool_decide (0 < radius_km)%Z
                   then [Circle kn.1 (num (radius_km * 1000)) "black"]
                   else [])) <$> groupby_size ks))
            (st p)).
Proof.
  intros Hks Hdf. unfold AppWastewater.add_markers_and_radius.
  rewrite (empty_coordinates _ _ Hks).
  case_bool_decide as Hnil.
  { subst ks. rewrite groupby_size_nil. simpl.
    rewrite app_nil_r. by destruct p. }
  rewrite Hdf.
  unfold mbind at 1, M_bind, lift. cbn [columns rows].
  rewrite (for_adds_in _ _ (λ row,
    CircleMarker (cell_at 0 row, cell_at 1 row) marker_size color fill_color
      [if truthy (cell_at 3 row) then cell_at 3 row else VStr group_label;
       VStr group_label; cell_at 2 row]
    :: (if with_radius && bool_decide (0 < radius_km)%Z
        then [Circle (cell_at 0 row, cell_at 1 row) (num (radius_km * 1000)) "black"]
        else []))).
  - do 3 f_equal. rewrite <-list_fmap_compose.
    f_equal. apply list_fmap_ext. by intros i [[a b] n] _.
  - intros row (kn & -> & Hkn)%list_elem_of_fmap q.
    apply groupby_size_notna in Hkn. destruct kn as [[a b] n].
    cbn [fst snd] in Hkn.
    unfold mbind, M_bind, lift, folium_CircleMarker, folium_Circle.
    change (row_getitem _ _ "Latitude") with (Ok a).
    change (row_getitem _ _ "Longitude") with (Ok b).
    change (row_getitem _ _ "Count") with (Ok (num (Z.of_nat n))).
    change (row_getitem _ _ "Name") with (Ok (name_of (a, b))).
    cbn [fst snd]. rewrite Hkn.
    destruct (with_radius && _); cbv -[truthy num Z.mul app];
      by rewrite <-?app_assoc.
Qed.

(** X6.  The radius circles of [add_markers_and_radius]: when [with_radius]
    is set and the chosen radius is positive, one circle per location of the
    table, in ascending key order, centred on the location, with the radius
    in metres ([radius_km * 1000]); otherwise no circle at all. *)
Theorem add_markers_and_radius_circles (radius_km : Z) (df : DataFrame)
    (ks : list key) (color fill_color group_label : string)
    (desc_col : option string) (marker_size : Qc) (with_radius : bool) :
  coordinates df = Ok ks →
  circles (m (AppWastewater.add_markers_and_radius radius_km df color
                fill_color group_label desc_col marker_size with_radius
                new_page).2)
  = if with_radius && bool_decide (0 < radius_km)%Z
    then (λ k, (k, num (radius_km * 1000))) <$> group_keys ks
    else [].
Proof.
  intros Hks.
  destruct (AppWastewater_distinct_df df ks desc_col Hks) as [name_of Hdf].
  rewrite (AppWastewater_add_markers_and_radius_layers _ _ _ _ _ _ _ _ _
             name_of new_page Hks Hdf).
  cbn [snd m new_page app]. rewrite <-groupby_size_keys. clear Hdf.
  induction (groupby_size ks) as [| kn l IH].
  - by destruct (with_radius && _).
  - rewrite !fmap_cons.
    change (mjoin (?x :: ?l)) with (x ++ mjoin l).
    rewrite circles_app, IH.
    destruct (with_radius && _); reflexivity.
Qed.

Lemma add_markers_and_radius_circles_witness :
  coordinates (station_table [(3, 4); (1, 2); (3, 4)]%Z)
  = Ok [(num 3, num 4); (num 1, num 2); (num 3, num 4)]
  ∧ circles (m (AppWastewater.add_markers_and_radius 5
                  (station_table [(3, 4); (1, 2); (3, 4)]%Z) "dodgerblue"
                  "cyan" "Training Set" None (Q2Qc 5) true new_page).2)
    = [((num 1, num 2), num 5000); ((num 3, num 4), num 5000)].
Proof.
  split; [reflexivity |].
  rewrite (add_markers_and_radius_circles 5
             (station_table [(3, 4); (1, 2); (3, 4)]%Z)
             [(num 3, num 4); (num 1, num 2); (num 3, num 4)]); [| reflexivity].
  vm_compute. reflexivity.
Defined.

Lemma first_described (k : key) (l : list (key * value)) i kd :
  list_find (λ kv : key * value, kv.1 = k ∧ isna kv.2 = false) l = Some (i, kd) →
  ∃ rest,
    filter (λ v, negb (isna v)) (snd <$> filter (λ kv : key * value, kv.1 = k) l)
    = kd.2 :: rest.
Proof.
  revert i. induction l as [| [k' v] l IH]; intros i; [done |].
  cbn [list_find]. case_decide as Hkv.
  - intros [= <- <-]. destruct Hkv as [Hk Hv].
    rewrite filter_cons_True by exact Hk. rewrite fmap_cons.
    rewrite filter_cons_True; [eauto |]. cbn [snd] in *. by rewrite Hv.
  - destruct (list_find _ l) as [[j kd'] |] eqn:Hfind; [| done].
    intros [= <- <-]. destruct (IH j eq_refl) as [rest Hrest].
    rewrite filter_cons. case_decide as Hk; [| eauto].
    rewrite fmap_cons, filter_cons_False; [eauto |].
    intros Hv. apply Hkv. split; [done |].
    cbn [snd] in *. by destruct (isna v).
Qed.

(** X7.  The name of a site in [add_markers_and_radius]: when a description
    column is given and exists, the marker of a location is named by the
    description of the first row of that location that has one, provided
    this description is truthy. *)
Theorem add_markers_and_radius_site_names (radius_km : Z) (df : DataFrame)
    (ks : list key) (color fill_color group_label c : string)
    (column : list value) (marker_size : Qc) (with_radius : bool)
    (k : key) (popup : list value) (i : nat) (d : value) :
  coordinates df = Ok ks →
  c ≠ EmptyString →
  getitem c df = Ok column →
  list_find (λ kv : key * value, kv.1 = k ∧ isna kv.2 = false) (zip ks column)
  = Some (i, (k, d)) →
  truthy d = true →
  (k, popup) ∈ markers (m (AppWastewater.add_markers_and_radius radius_km df
                             color fill_color group_label (Some c) marker_size
                             with_radius new_page).2) →
  popup !! 0%nat = Some d.
Proof.
  intros Hks Hc Hcol Hfind Hd.
  assert (has_column c df = true) as Hhas.
  { unfold has_column, getitem, col_index in *.
    destruct (list_find _ _) as [[j c'] |] eqn:Hj; [| done].
    apply list_find_Some in Hj as (Hj & -> & _).
    apply bool_decide_eq_true. by eapply list_elem_of_lookup_2. }
  assert (AppWastewater.distinct_df df (Some c)
          = Ok (mkDF ["Latitude"; "Longitude"; "Count"; "Name"]
                  ((λ kn : key * nat,
                      [kn.1.1; kn.1.2; num (Z.of_nat kn.2);
                       (λ k, AppWastewater.agg_first column
                               (AppWastewater.group_cells k ks column)) kn.1])
                     <$> groupby_size ks))) as Hdf.
  { unfold AppWastewater.distinct_df. rewrite Hks. simpl.
    rewrite Hhas, (bool_decide_eq_false_2 _ Hc). simpl. by rewrite Hcol. }
  rewrite (AppWastewater_add_markers_and_radius_layers _ _ _ _ _ _ _ _ _
             _ new_page Hks Hdf).
  cbn [snd m new_page app].
  destruct (first_described k (zip ks column) i (k, d) Hfind) as [rest Hrest].
  assert (AppWastewater.agg_first column
            (AppWastewater.group_cells k ks column) = d) as Hname.
  { unfold AppWastewater.agg_first, AppWastewater.group_cells.
    by rewrite Hrest. }
  clear Hdf. induction (groupby_size ks) as [| kn l IH]; [by intros ?%elem_of_nil |].
  rewrite fmap_cons. change (mjoin (?x :: ?l)) with (x ++ mjoin l).
  rewrite markers_app. intros [Hin | Hin]%elem_of_app; [| by apply IH].
  assert ((k, popup)
          = (kn.1, [if truthy (AppWastewater.agg_first column
                                 (AppWastewater.group_cells kn.1 ks column))
                    then AppWastewater.agg_first column
                           (AppWastewater.group_cells kn.1 ks column)
                    else VStr group_label;
                    VStr group_label; num (Z.of_nat kn.2)])) as [= <- ->].
  { destruct (with_radius && _); simpl in Hin;
      by apply list_elem_of_singleton in Hin. }
  simpl. by rewrite Hname, Hd.
Qed.

Lemma add_markers_and_radius_site_names_witness :
  coordinates described_sites
  = Ok [(num 1, num 2); (num 1, num 2); (num 1, num 2)]
  ∧ markers (m (AppWastewater.add_markers_and_radius 5 described_sites
                  "orange" "yellow" "Waste Water" (Some "Description")
                  (Q2Qc 5) false new_page).2)
    = [((num 1, num 2), [VStr "Dam"; VStr "Waste Water"; num 3])]
  ∧ [VStr "Dam"; VStr "Waste Water"; num 3] !! 0%nat = Some (VStr "Dam").
Proof.
  split; [reflexivity |].
  assert (markers (m (AppWastewater.add_markers_and_radius 5 described_sites
                  "orange" "yellow" "Waste Water" (Some "Description")
                  (Q2Qc 5) false new_page).2)
    = [((num 1, num 2), [VStr "Dam"; VStr "Waste Water"; num 3])]) as Hrun
    by (vm_compute; reflexivity).
  split; [exact Hrun |].
  apply (add_markers_and_radius_site_names 5 described_sites
           [(num 1, num 2); (num 1, num 2); (num 1, num 2)]
           "orange" "yellow" "Waste Water" "Description"
           [VNaN; VStr "Dam"; VStr "Weir"] (Q2Qc 5) false (num 1, num 2)
           [VStr "Dam"; VStr "Waste Water"; num 3] 1%nat (VStr "Dam")).
  - reflexivity.
  - done.
  - reflexivity.
  - vm_compute. reflexivity.
  - reflexivity.
  - rewrite Hrun. apply list_elem_of_singleton. reflexivity.
Defined.

(** ** The river layer *)

Lemma lookup_zip_first (cols : list string) (vals : list value) name i :
  col_index name cols = Some i →
  (i < length vals)%nat →
  (list_to_map (zip cols vals) : gmap string value) !! name = vals !! i.
Proof.
  unfold col_index. revert vals i.
  induction cols as [| c cols IH]; intros vals i; [done |].
  cbn [list_find]. case_decide as Hc.
  - intros [= <-] Hlen. destruct vals as [| v vals]; [simpl in Hlen; lia |].
    subst c. simpl. by rewrite lookup_insert_eq.
  - destruct (list_find _ cols) as [[j c'] |] eqn:Hfind; [| done].
    intros [= <-] Hlen. destruct vals as [| v vals]; [simpl in Hlen; lia |].
    simpl in *. rewrite lookup_insert_ne by done.
    apply IH; [done | lia].
Qed.

Lemma lookup_zip_absent (cols : list string) (vals : list value) name :
  name ∉ cols →
  (list_to_map (zip cols vals) : gmap string value) !! name = None.
Proof.
  revert vals. induction cols as [| c cols IH]; intros vals Hname; [done |].
  apply not_elem_of_cons in Hname as [Hne Hname].
  destruct vals as [| v vals]; [done |]. simpl.
  rewrite lookup_insert_ne by done. by apply IH.
Qed.

(** The property [name] of the feature of row [j]. *)
Lemma geo_features_lookup gdf name column j x :
  rectangular gdf →
  getitem name gdf = Ok column →
  geo_features gdf !! j = Some x →
  ∃ v, column !! j = Some v ∧ x !! name = Some (to_json v).
Proof.
  unfold rectangular, getitem, geo_features. intros Hrect Hcol Hx.
  destruct (col_index name (columns gdf)) as [i |] eqn:Hi; [| done].
  injection Hcol as <-.
  apply list_lookup_fmap_Some in Hx as (r & -> & Hr).
  rewrite Forall_lookup in Hrect. specialize (Hrect j r Hr).
  assert (i < length (columns gdf))%nat as Hlt.
  { unfold col_index in Hi.
    destruct (list_find _ _) as [[i' c] |] eqn:Hfind; [| done].
    injection Hi as ->. apply list_find_Some in Hfind as (Hfind & _).
    by eapply lookup_lt_Some. }
  exists (cell_at i r). rewrite list_lookup_fmap, Hr. split; [done |].
  rewrite (lookup_zip_first _ _ _ i Hi) by (rewrite length_fmap; lia).
  rewrite list_lookup_fmap. unfold cell_at.
  destruct (r !! i) as [v |] eqn:Hv; [done |].
  apply lookup_ge_None in Hv. lia.
Qed.

Lemma geo_features_absent gdf name x :
  has_column name gdf = false →
  x ∈ geo_features gdf →
  x !! name = None.
Proof.
  unfold has_column, geo_features. intros Hname%bool_decide_eq_false.
  intros (r & -> & _)%list_elem_of_fmap. by apply lookup_zip_absent.
Qed.

Lemma to_json_not_nan v : v ≠ VNaN → to_json v = v.
Proof. by destruct v. Qed.

Lemma App_add_rivers_run gdf main_riv p :
  getitem "MAIN_RIV" gdf = Ok main_riv →
  App.add_rivers gdf p
  = (Ok (),
     mkPage (m p ++ [GeoJson (geo_features gdf) "River Network"
                       (App.style_function (river_color_map (unique main_riv)))])
            (st p)).
Proof. intros Hriv. unfold App.add_rivers. by rewrite Hriv. Qed.

Lemma style_color_App d x s :
  App.style_function d x = Ok s →
  ∃ riv, x !! "MAIN_RIV" = Some riv ∧ color s = default "#87CEFA" (d !! riv).
Proof.
  unfold App.style_function, properties_getitem.
  destruct (x !! "MAIN_RIV") as [riv |]; [| done]. simpl.
  destruct (py_mul _ _) as [w |]; [| done]. simpl.
  intros [= <-]. eauto.
Qed.

Lemma style_color_AppWastewater d x s :
  AppWastewater.style_function d x = Ok s →
  ∃ riv, x !! "MAIN_RIV" = Some riv ∧ color s = default "#00FFFF" (d !! riv).
Proof.
  unfold AppWastewater.style_function, properties_getitem.
  destruct (x !! "MAIN_RIV") as [riv |]; [| done]. simpl.
  destruct (py_mul _ _) as [w |]; [| done]. simpl.
  destruct (py_add _ _) as [w' |]; [| done]. simpl.
  intros [= <-]. eauto.
Qed.

(** X8.  The colour of a river reach, from the table to the style
    function.  For the feature made from row [j] of the river table: if the
    [MAIN_RIV] cell is not NaN, both style functions, whenever they return,
    give the palette colour at the position of this identifier in the
    first-seen order, modulo 20.  If the cell is NaN (and no cell is [None]),
    the identifier does have an entry in the colour table, but the feature
    carries [null], which is not a key: the reach gets the default colour. *)
Theorem river_layer_colours (gdf : DataFrame) (main_riv : list value)
    (j : nat) (x : feature) (riv : value) :
  rectangular gdf →
  getitem "MAIN_RIV" gdf = Ok main_riv →
  geo_features gdf !! j = Some x →
  main_riv !! j = Some riv →
  (riv ≠ VNaN →
   ∃ i, unique main_riv !! i = Some riv
        ∧ (i mod 20 < length palette)%nat
        ∧ (∀ s, App.style_function (river_color_map (unique main_riv)) x = Ok s →
                palette !! (i mod 20) = Some (color s))
        ∧ (∀ s, AppWastewater.style_function
                  (river_color_map (unique main_riv)) x = Ok s →
                palette !! (i mod 20) = Some (color s)))
  ∧ (riv = VNaN → VNone ∉ main_riv →
     is_Some (river_color_map (unique main_riv) !! riv)
     ∧ (∀ s, App.style_function (river_color_map (unique main_riv)) x = Ok s →
             color s = "#87CEFA")
     ∧ (∀ s, AppWastewater.style_function
               (river_color_map (unique main_riv)) x = Ok s →
             color s = "#00FFFF")).
Proof.
  intros Hrect Hcol Hx Hriv.
  destruct (geo_features_lookup _ _ _ _ _ Hrect Hcol Hx) as (v & Hv & Hprop).
  assert (v = riv) as -> by congruence.
  assert (riv ∈ unique main_riv) as Hin
    by (apply elem_of_unique; by eapply list_elem_of_lookup_2).
  apply list_elem_of_lookup_1 in Hin as [i Hi].
  pose proof (river_color_map_lookup _ _ _ (NoDup_unique main_riv) Hi) as Hd.
  split.
  - intros Hnan. rewrite (to_json_not_nan _ Hnan) in Hprop.
    assert (i mod 20 < 20)%nat as Hlt by (apply Nat.mod_upper_bound; lia).
    exists i. split; [done |]. split; [exact Hlt |].
    rewrite (palette_lookup _ Hlt).
    split; intros s Hs.
    + apply style_color_App in Hs as (riv' & Hriv' & ->).
      assert (riv' = riv) as -> by congruence. by rewrite Hd.
    + apply style_color_AppWastewater in Hs as (riv' & Hriv' & ->).
      assert (riv' = riv) as -> by congruence. by rewrite Hd.
  - intros -> Hnone. split; [by eexists |].
    change (to_json VNaN) with VNone in Hprop.
    assert (river_color_map (unique main_riv) !! VNone = None) as Hdn.
    { apply river_color_map_None. by rewrite elem_of_unique. }
    split; intros s Hs.
    + apply style_color_App in Hs as (riv' & Hriv' & ->).
      assert (riv' = VNone) as -> by congruence.
      by rewrite Hdn.
    + apply style_color_AppWastewater in Hs as (riv' & Hriv' & ->).
      assert (riv' = VNone) as -> by congruence.
      by rewrite Hdn.
Qed.

Lemma rivers_with_gaps_rectangular : rectangular rivers_with_gaps.
Proof. repeat constructor. Qed.

Lemma river_layer_colours_witness :
  rectangular rivers_with_gaps
  ∧ getitem "MAIN_RIV" rivers_with_gaps = Ok [num 7; VNaN; num 9]
  ∧ geo_features rivers_with_gaps !! 1%nat
    = @Some feature {[ "MAIN_RIV" := VNone; "ORD_STRA" := num 2 ]}
  ∧ (VNone ∉ [num 7; VNaN; num 9])
  ∧ (∀ s, App.style_function (river_color_map (unique [num 7; VNaN; num 9]))
            {[ "MAIN_RIV" := VNone; "ORD_STRA" := num 2 ]} = Ok s →
          color s = "#87CEFA").
Proof.
  assert (VNone ∉ [num 7; VNaN; num 9]) as Hnone
    by (apply (bool_decide_eq_false_1 (_ ∈ _)); vm_compute; reflexivity).
  assert (geo_features rivers_with_gaps !! 1%nat
    = @Some feature {[ "MAIN_RIV" := VNone; "ORD_STRA" := num 2 ]}) as Hx.
    by (vm_compute; reflexivity).
  split; [exact rivers_with_gaps_rectangular |].
  split; [reflexivity |]. split; [exact Hx |]. split; [exact Hnone |].
  destruct (river_layer_colours rivers_with_gaps [num 7; VNaN; num 9] 1
              {[ "MAIN_RIV" := VNone; "ORD_STRA" := num 2 ]} VNaN
              rivers_with_gaps_rectangular eq_refl Hx eq_refl)
    as [_ Hnan].
  destruct (Hnan eq_refl Hnone) as (_ & Happ & _). exact Happ.
Defined.

(** X9.  The line weight of a river reach.  When the river table has no
    [ORD_STRA] column, the stream order defaults to 1: the weight is [0.25]
    in [app.py] and [1] in [app_wastewater.py].  When the [ORD_STRA] cell of
    a row is missing, the feature carries [null] and both style functions
    raise [TypeError]. *)
Theorem river_without_stream_order (gdf : DataFrame) (x : feature)
    (d : gmap value string) :
  rectangular gdf →
  has_column "MAIN_RIV" gdf = true →
  x ∈ geo_features gdf →
  (has_column "ORD_STRA" gdf = false →
   ∃ c c', App.style_function d x = Ok (mkStyle c (VNum (Q2Qc (1 # 4))) (Q2Qc (4 # 5)))
           ∧ AppWastewater.style_function d x
             = Ok (mkStyle c' (VNum (Q2Qc 1)) (Q2Qc (4 # 5))))
  ∧ (∀ ord j v,
       getitem "ORD_STRA" gdf = Ok ord →
       geo_features gdf !! j = Some x →
       ord !! j = Some v →
       isna v = true →
       App.style_function d x = Raise TypeError
       ∧ AppWastewater.style_function d x = Raise TypeError).
Proof.
  intros Hrect Hhas Hx.
  assert (∃ main_riv, getitem "MAIN_RIV" gdf = Ok main_riv) as [main_riv Hcol].
  { unfold getitem, col_index, has_column in *.
    apply bool_decide_eq_true in Hhas.
    destruct (list_find _ _) as [[i c] |] eqn:Hfind; [by eexists |].
    rewrite list_find_None, Forall_forall in Hfind. by destruct (Hfind _ Hhas). }
  assert (∃ riv, x !! "MAIN_RIV" = Some riv) as [riv Hriv].
  { apply list_elem_of_lookup_1 in Hx as [j Hj].
    destruct (geo_features_lookup _ _ _ _ _ Hrect Hcol Hj) as (v & _ & Hv).
    eauto. }
  split.
  - intros Hord.
    unfold App.style_function, AppWastewater.style_function, properties_getitem.
    rewrite Hriv, (geo_features_absent _ _ _ Hord Hx). simpl.
    eexists _, _. split; do 2 f_equal; f_equal; apply Qc_is_canon; reflexivity.
  - intros ord j v Hord Hj Hv Hna.
    destruct (geo_features_lookup _ _ _ _ _ Hrect Hord Hj) as (v' & Hv' & Hprop).
    assert (v' = v) as -> by congruence.
    unfold to_json in Hprop. rewrite Hna in Hprop.
    unfold App.style_function, AppWastewater.style_function, properties_getitem.
    by rewrite Hriv, Hprop.
Qed.

Lemma river_without_stream_order_witness :
  rectangular rivers_with_gaps
  ∧ has_column "MAIN_RIV" rivers_with_gaps = true
  ∧ geo_features rivers_with_gaps !! 2%nat
    = @Some feature {[ "MAIN_RIV" := num 9; "ORD_STRA" := VNone ]}
  ∧ App.style_function ∅ {[ "MAIN_RIV" := num 9; "ORD_STRA" := VNone ]}
    = Raise TypeError.
Proof.
  assert (geo_features rivers_with_gaps !! 2%nat
    = @Some feature {[ "MAIN_RIV" := num 9; "ORD_STRA" := VNone ]}) as Hx.
    by (vm_compute; reflexivity).
  split; [exact rivers_with_gaps_rectangular |].
  split; [reflexivity |]. split; [exact Hx |].
  destruct (river_without_stream_order rivers_with_gaps
              {[ "MAIN_RIV" := num 9; "ORD_STRA" := VNone ]} ∅
              rivers_with_gaps_rectangular eq_refl
              (list_elem_of_lookup_2 _ _ _ Hx)) as [_ Hnull].
  destruct (Hnull [num 1; num 2; VNaN] 2%nat VNaN eq_refl Hx eq_refl eq_refl)
    as [Happ _].
  exact Happ.
Defined.

(** ** When the scripts stop *)

Lemma M_lift_Ok {S A B} (r : result A) (f : A → M S B) a s :
  r = Ok a → (lift r ≫= f) s = f a s.
Proof. by intros ->. Qed.

Lemma M_lift_Raise {S A B} (r : result A) (f : A → M S B) e s :
  r = Raise e → (lift r ≫= f) s = (Raise e, s).
Proof. by intros ->. Qed.

Lemma M_bind_Raise {S A B} (c : M S A) (f : A → M S B) s e s' :
  c s = (Raise e, s') → (c ≫= f) s = (Raise e, s').
Proof. intros Hc. unfold mbind, M_bind. by rewrite Hc. Qed.

Lemma getitem_coordinates_Raise df :
  has_coordinates df = false → getitem_coordinates df = Raise KeyError.
Proof.
  intros Hcols. unfold getitem_coordinates.
  destruct (coordinates df) as [ks | e] eqn:Hks.
  - assert (has_coordinates df = true); [| congruence].
    apply coordinates_has_coordinates. eauto.
  - unfold coordinates in Hks.
    destruct (col_index "Latitude" _); [destruct (col_index "Longitude" _) |];
      by simplify_eq.
Qed.

Lemma getitem_Raise c df :
  has_column c df = false → getitem c df = Raise KeyError.
Proof.
  unfold has_column, getitem, col_index. intros Hc%bool_decide_eq_false.
  destruct (list_find _ _) as [[i c'] |] eqn:Hfind; [| done].
  apply list_find_Some in Hfind as (Hi%list_elem_of_lookup_2 & -> & _). done.
Qed.

(** What [load_data] of [app.py] returns has the coordinate columns exactly
    when the file was read and has them. *)
Lemma App_load_data_has_coordinates fs file_path :
  (∃ out, App.load_data fs file_path = Ok out ∧ has_coordinates out = true)
  ↔ ∃ df, read_csv fs file_path = Ok df ∧ has_coordinates df = true.
Proof.
  unfold App.load_data. split.
  - intros (out & Hload & Hout).
    destruct (read_csv fs file_path) as [df | e] eqn:Hread.
    + exists df. split; [done |]. simpl in Hload.
      destruct (has_coordinates df) eqn:Hdf; [done |].
      unfold dropna_coordinates in Hload.
      destruct (col_index "Latitude" _) as [i |] eqn:Hi; [| done].
      destruct (col_index "Longitude" _) as [j |] eqn:Hj; [| done].
      rewrite <-Hdf. apply coordinates_has_coordinates.
      unfold coordinates. rewrite Hi, Hj. eauto.
    + simpl in Hload. destruct e; try done. by injection Hload as <-.
  - intros (df & -> & Hdf). simpl.
    apply coordinates_has_coordinates in Hdf as [ks Hks].
    unfold dropna_coordinates, coordinates in *.
    destruct (col_index "Latitude" _) as [i |] eqn:Hi; [| done].
    destruct (col_index "Longitude" _) as [j |] eqn:Hj; [| done].
    eexists. split; [done |]. apply coordinates_has_coordinates.
    unfold coordinates. simpl. rewrite Hi, Hj. eauto.
Qed.

Lemma App_load_river_data_run fs file_path p :
  ∃ rivers_gdf q,
    App.load_river_data fs file_path p = (Ok rivers_gdf, q)
    ∧ (∀ gdf, rivers_gdf = Some gdf ↔ read_file fs file_path = Ok gdf)
    ∧ m q = m p
    ∧ (st q = st p ∨ st q = st p ++ [st_error "Error loading river file"]).
Proof.
  unfold App.load_river_data.
  destruct (read_file fs file_path) as [gdf | e]; eexists _, _;
    (split; [reflexivity |]); (split; [intros g; split; congruence |]);
    simpl; auto.
Qed.

(** The part of [app.py] after the two station loads: it finishes, or it
    raises before a layer is added and before the map is shown. *)
Lemma App_main_loaded fs show_train show_val show_rivers df_train df_val p :
  App.load_data fs "TRAINING_SET.csv" = Ok df_train →
  App.load_data fs "VALIDATION_SET.csv" = Ok df_val →
  (has_coordinates df_train = true ∧ has_coordinates df_val = true
   ∧ (show_rivers = true →
      ∀ gdf, read_file fs "sa_rivers_final.geojson" = Ok gdf →
             has_column "MAIN_RIV" gdf = true)
   ∧ (App.main fs show_train show_val show_rivers p).1 = Ok ())
  ∨ (¬ (has_coordinates df_train = true ∧ has_coordinates df_val = true
        ∧ (show_rivers = true →
           ∀ gdf, read_file fs "sa_rivers_final.geojson" = Ok gdf →
                  has_column "MAIN_RIV" gdf = true))
     ∧ (App.main fs show_train show_val show_rivers p).1 = Raise KeyError
     ∧ m (App.main fs show_train show_val show_rivers p).2 = m p
     ∧ (st (App.main fs show_train show_val show_rivers p).2 = st p
        ∨ st (App.main fs show_train show_val show_rivers p).2
          = st p ++ [st_error "Error loading river file"])).
Proof.
  intros Ht Hv. unfold App.main.
  rewrite (M_lift_Ok _ _ _ _ Ht), (M_lift_Ok _ _ _ _ Hv).
  destruct (App_load_river_data_run fs "sa_rivers_final.geojson" p)
    as (rivers_gdf & q & Hload & Hrivers & Hm & Hst).
  rewrite (M_bind_Ok _ _ _ _ _ Hload).
  destruct (has_coordinates df_train) eqn:Hct; cycle 1.
  { rewrite (M_lift_Raise _ _ _ _ (getitem_coordinates_Raise _ Hct)).
    right. simpl. split; [by intros [? _] | done]. }
  destruct (has_coordinates df_val) eqn:Hcv; cycle 1.
  { apply coordinates_has_coordinates in Hct as [kt Hkt].
    destruct (getitem_coordinates_Ok _ _ Hkt) as [ct Hgt].
    rewrite (M_lift_Ok _ _ _ _ Hgt).
    rewrite (M_lift_Raise _ _ _ _ (getitem_coordinates_Raise _ Hcv)).
    right. simpl. split; [by intros (_ & ? & _) | done]. }
  apply coordinates_has_coordinates in Hct as [kt Hkt].
  apply coordinates_has_coordinates in Hcv as [kv Hkv].
  destruct (getitem_coordinates_Ok _ _ Hkt) as [ct Hgt].
  destruct (getitem_coordinates_Ok _ _ Hkv) as [cv Hgv].
  rewrite (M_lift_Ok _ _ _ _ Hgt), (M_lift_Ok _ _ _ _ Hgv).
  assert (∀ q', ∃ q'',
            ((if show_train
              then App.add_markers df_train "dodgerblue" "cyan" "Training"
              else mret ()) ;;
             (if show_val
              then App.add_markers df_val "darkred" "red" "Validation"
              else mret ()) ;;
             show_map ;;
             streamlit (st_info "Loaded river reaches from local file.")) q'
            = (Ok (), q'')) as Hrest.
  { intros q'.
    assert (∀ r, ∃ r', (if show_train
              then App.add_markers df_train "dodgerblue" "cyan" "Training"
              else mret ()) r = (Ok (), r')) as Hmt.
    { intros r. destruct show_train; [| by eexists].
      rewrite (App_add_markers_run _ _ _ _ _ _ Hkt). by eexists. }
    assert (∀ r, ∃ r', (if show_val
              then App.add_markers df_val "darkred" "red" "Validation"
              else mret ()) r = (Ok (), r')) as Hmv.
    { intros r. destruct show_val; [| by eexists].
      rewrite (App_add_markers_run _ _ _ _ _ _ Hkv). by eexists. }
    destruct (Hmt q') as [r1 Hr1]. destruct (Hmv r1) as [r2 Hr2].
    rewrite (M_bind_Ok _ _ _ _ _ Hr1), (M_bind_Ok _ _ _ _ _ Hr2).
    by eexists. }
  destruct rivers_gdf as [gdf |]; cycle 1.
  { destruct (Hrest q) as [q'' Hq''].
    rewrite (M_bind_Ok _ _ q () q eq_refl), Hq''. left.
    do 2 (split; [done |]). split; [| done].
    intros _ gdf Hgdf. apply Hrivers in Hgdf. done. }
  destruct show_rivers; cycle 1.
  { destruct (Hrest q) as [q'' Hq''].
    rewrite (M_bind_Ok _ _ q () q eq_refl), Hq''. left.
    do 2 (split; [done |]). split; done. }
  destruct (has_column "MAIN_RIV" gdf) eqn:Hriv.
  - destruct (getitem_has_column _ _ Hriv) as [main_riv Hmain].
    rewrite (M_bind_Ok _ _ _ _ _ (App_add_rivers_run gdf main_riv q Hmain)).
    destruct (Hrest (mkPage (m q ++ [GeoJson (geo_features gdf) "River Network"
                       (App.style_function (river_color_map (unique main_riv)))])
            (st q))) as [q'' Hq''].
    rewrite Hq''. left. do 2 (split; [done |]). split; [| done].
    intros _ g Hg. apply Hrivers in Hg. congruence.
  - assert (App.add_rivers gdf q = (Raise KeyError, q)) as Hfail.
    { unfold App.add_rivers. by rewrite (M_lift_Raise _ _ _ _ (getitem_Raise _ _ Hriv)). }
    rewrite (M_bind_Raise _ _ _ _ _ Hfail). right. simpl.
    split; [| done].
    intros (_ & _ & Hg). specialize (Hg eq_refl gdf (proj1 (Hrivers gdf) eq_refl)).
    congruence.
Qed.

(** X10.  [app.py] needs all its tables.  Unless both station files can
    be read and have both coordinate columns and the river table, if it is
    shown and could be read, has a [MAIN_RIV] column, the script raises,
    whatever the check boxes: no layer has been added to the map, the map is
    not shown, and the only thing that may have been shown is the message
    about the river file. *)
Theorem App_main_stops_without_its_tables (fs : filesystem)
    (show_train show_val show_rivers : bool) (p : page) :
  ¬ ((∃ df, read_csv fs "TRAINING_SET.csv" = Ok df ∧ has_coordinates df = true)
     ∧ (∃ df, read_csv fs "VALIDATION_SET.csv" = Ok df
              ∧ has_coordinates df = true)
     ∧ (show_rivers = true →
        ∀ gdf, read_file fs "sa_rivers_final.geojson" = Ok gdf →
               has_column "MAIN_RIV" gdf = true)) →
  ∃ e,
    (App.main fs show_train show_val show_rivers p).1 = Raise e
    ∧ m (App.main fs show_train show_val show_rivers p).2 = m p
    ∧ (st (App.main fs show_train show_val show_rivers p).2 = st p
       ∨ st (App.main fs show_train show_val show_rivers p).2
         = st p ++ [st_error "Error loading river file"]).
Proof.
  rewrite <-!App_load_data_has_coordinates. intros Hnot.
  destruct (App.load_data fs "TRAINING_SET.csv") as [df_train | e] eqn:Ht; cycle 1.
  { exists e. unfold App.main. rewrite (M_lift_Raise _ _ _ _ Ht). simpl. auto. }
  destruct (App.load_data fs "VALIDATION_SET.csv") as [df_val | e] eqn:Hv; cycle 1.
  { exists e. unfold App.main.
    rewrite (M_lift_Ok _ _ _ _ Ht), (M_lift_Raise _ _ _ _ Hv). simpl. auto. }
  destruct (App_main_loaded fs show_train show_val show_rivers df_train df_val p
              Ht Hv) as [(Hct & Hcv & Hriv & _) | (_ & Hfail)].
  - destruct Hnot. eauto 10.
  - by exists KeyError.
Qed.

Lemma App_main_stops_without_its_tables_witness :
  ¬ ((∃ df, read_csv missing_training_set "TRAINING_SET.csv" = Ok df
            ∧ has_coordinates df = true)
     ∧ (∃ df, read_csv missing_training_set "VALIDATION_SET.csv" = Ok df
              ∧ has_coordinates df = true)
     ∧ (false = true →
        ∀ gdf, read_file missing_training_set "sa_rivers_final.geojson" = Ok gdf →
               has_column "MAIN_RIV" gdf = true))
  ∧ ∃ e, (App.main missing_training_set false false false new_page).1 = Raise e.
Proof.
  assert (¬ ((∃ df, read_csv missing_training_set "TRAINING_SET.csv" = Ok df
            ∧ has_coordinates df = true)
     ∧ (∃ df, read_csv missing_training_set "VALIDATION_SET.csv" = Ok df
              ∧ has_coordinates df = true)
     ∧ (false = true →
        ∀ gdf, read_file missing_training_set "sa_rivers_final.geojson" = Ok gdf →
               has_column "MAIN_RIV" gdf = true))) as Hnot.
  { intros [(df & Hdf & _) _]. vm_compute in Hdf. discriminate. }
  split; [exact Hnot |].
  destruct (App_main_stops_without_its_tables missing_training_set
              false false false new_page Hnot) as (e & He & _).
  exists e. exact He.
Defined.

(** The loader of [app_wastewater.py] shows nothing but its error
    message. *)
Lemma AppWastewater_load_data_run fs file_path p :
  ∃ df p',
    AppWastewater.load_data fs file_path p = (Ok df, p')
    ∧ (df = pd_DataFrame ∨ ∃ ks, coordinates df = Ok ks)
    ∧ m p' = m p
    ∧ ∀ shown, st_folium shown ∈ st p' → st_folium shown ∈ st p.
Proof.
  unfold AppWastewater.load_data.
  destruct (AppWastewater.resolve fs file_path) as [path |];
    [| exists pd_DataFrame, p; auto].
  destruct (AppWastewater.read_table fs path) as [df | e] eqn:Hread.
  - exists df, p. split; [done |]. split; [| done].
    unfold AppWastewater.read_table in Hread.
    destruct (if endswith path ".xlsx" then _ else _) as [d |]; [| done].
    simpl in Hread. destruct (has_coordinates _).
    + right. apply dropna_coordinates_Ok in Hread as (ks & ? & _). eauto.
    + left. by injection Hread.
  - eexists pd_DataFrame, _. split; [reflexivity |]. split; [by left |].
    split; [done |]. simpl. intros shown [? | Hin]%elem_of_app; [done |].
    by apply list_elem_of_singleton in Hin.
Qed.

(** X11.  In [app_wastewater.py], when the river box is ticked and the
    river file is read but its table has no [MAIN_RIV] column, the script
    raises, whatever the station files and the other boxes are: no layer has
    been added and the map is never shown.  (A page that gets as far as the
    river block raises the [KeyError] of the missing column.) *)
Theorem AppWastewater_main_river_without_id (fs : filesystem)
    (show_train show_val show_wastewater : bool) (radius_km : Z)
    (gdf : DataFrame) (p : page) :
  read_file fs "sa_rivers_final.geojson" = Ok gdf →
  has_column "MAIN_RIV" gdf = false →
  ∃ e,
    (AppWastewater.main fs show_train show_val show_wastewater true
       radius_km p).1 = Raise e
    ∧ m (AppWastewater.main fs show_train show_val show_wastewater true
           radius_km p).2 = m p
    ∧ (∀ shown,
         st_folium shown
         ∈ st (AppWastewater.main fs show_train show_val show_wastewater true
                 radius_km p).2 →
         st_folium shown ∈ st p).
Proof.
  intros Hgdf Hriv. exists KeyError.
  destruct (AppWastewater_load_data_run fs "TRAINING_SET.csv" p)
    as (df_train & p1 & Ht & Hdt & Hm1 & Hs1).
  destruct (AppWastewater_load_data_run fs "VALIDATION_SET.csv" p1)
    as (df_val & p2 & Hv & Hdv & Hm2 & Hs2).
  destruct (AppWastewater_load_data_run fs "Waste_Water.xlsx" p2)
    as (df_wastewater & p3 & Hw & Hdw & Hm3 & Hs3).
  destruct (mapM_getitem_coordinates [df_train; df_val; df_wastewater])
    as [all_coords Hall].
  { repeat first [apply Forall_nil_2 | apply Forall_cons_2]; done. }
  assert (AppWastewater.add_rivers gdf p3 = (Raise KeyError, p3)) as Hfail.
  { unfold AppWastewater.add_rivers.
    by rewrite (M_lift_Raise _ _ _ _ (getitem_Raise _ _ Hriv)). }
  unfold AppWastewater.main, AppWastewater.load_river_data.
  rewrite (M_bind_Ok _ _ _ _ _ Ht), (M_bind_Ok _ _ _ _ _ Hv),
    (M_bind_Ok _ _ _ _ _ Hw).
  rewrite (M_lift_Ok _ _ _ _ Hall), Hgdf.
  rewrite (M_bind_Raise _ _ _ _ _ Hfail). simpl.
  split; [done |]. split; [congruence | auto].
Qed.

Lemma AppWastewater_main_river_without_id_witness :
  read_file nameless_rivers "sa_rivers_final.geojson" = Ok no_coordinates
  ∧ has_column "MAIN_RIV" no_coordinates = false
  ∧ ∃ e,
      (AppWastewater.main nameless_rivers true true true true 5 new_page).1
      = Raise e.
Proof.
  split; [reflexivity |]. split; [reflexivity |].
  destruct (AppWastewater_main_river_without_id nameless_rivers true true true
              5 no_coordinates new_page eq_refl eq_refl) as (e & Hfail & _).
  exists e. exact Hfail.
Defined.

(** ** The aggregation does not depend on the row order *)

Lemma unique_Permutation {A} `{EqDecision A} (l l' : list A) :
  l ≡ₚ l' → unique l ≡ₚ unique l'.
Proof.
  intros Hl. apply NoDup_Permutation; [apply NoDup_unique .. |].
  intros x. by rewrite !elem_of_unique, Hl.
Qed.

Lemma group_keys_order ks ks' : ks ≡ₚ ks' → group_keys ks = group_keys ks'.
Proof.
  intros Hks. apply (StronglySorted_unique key_le);
    [apply StronglySorted_group_keys .. |].
  rewrite !group_keys_Permutation. apply unique_Permutation. by rewrite Hks.
Qed.

Lemma occurrences_order {A} `{EqDecision A} (x : A) l l' :
  l ≡ₚ l' → occurrences x l = occurrences x l'.
Proof. intros Hl. unfold occurrences. by rewrite Hl. Qed.

Lemma groupby_size_order ks ks' : ks ≡ₚ ks' → groupby_size ks = groupby_size ks'.
Proof.
  intros Hks. unfold groupby_size. rewrite (group_keys_order _ _ Hks).
  apply list_fmap_ext. intros _ k _. by rewrite (occurrences_order _ _ _ Hks).
Qed.

(** X12.  The marker loops do not depend on the order of the rows: two
    tables whose coordinate pairs are the same up to order give the same
    layers, in [app.py] and (without a description column) in
    [app_wastewater.py]. *)
Theorem aggregation_ignores_row_order (df df' : DataFrame) (ks ks' : list key)
    (radius_km : Z) (color fill_color label : string) (marker_size : Qc)
    (with_radius : bool) (p : page) :
  coordinates df = Ok ks →
  coordinates df' = Ok ks' →
  ks ≡ₚ ks' →
  App.add_markers df color fill_color label p
  = App.add_markers df' color fill_color label p
  ∧ AppWastewater.add_markers_and_radius radius_km df color fill_color label
      None marker_size with_radius p
    = AppWastewater.add_markers_and_radius radius_km df' color fill_color label
        None marker_size with_radius p.
Proof.
  intros Hks Hks' Hperm. split.
  - rewrite (App_add_markers_run _ _ _ _ _ _ Hks),
      (App_add_markers_run _ _ _ _ _ _ Hks').
    by rewrite (groupby_size_order _ _ Hperm).
  - assert (∀ d l, coordinates d = Ok l →
              AppWastewater.distinct_df d None
              = Ok (mkDF ["Latitude"; "Longitude"; "Count"; "Name"]
                      ((λ kn : key * nat,
                          [kn.1.1; kn.1.2; num (Z.of_nat kn.2);
                           (λ _, VNone) kn.1])
                         <$> groupby_size l))) as Hdf.
    { intros d l Hl. unfold AppWastewater.distinct_df. by rewrite Hl. }
    rewrite (AppWastewater_add_markers_and_radius_layers _ _ _ _ _ _ _ _ _
               (λ _, VNone) p Hks (Hdf _ _ Hks)).
    rewrite (AppWastewater_add_markers_and_radius_layers _ _ _ _ _ _ _ _ _
               (λ _, VNone) p Hks' (Hdf _ _ Hks')).
    by rewrite (groupby_size_order _ _ Hperm).
Qed.

Lemma aggregation_ignores_row_order_witness :
  coordinates (station_table [(3, 4); (1, 2); (3, 4)]%Z)
  = Ok [(num 3, num 4); (num 1, num 2); (num 3, num 4)]
  ∧ coordinates (station_table [(1, 2); (3, 4); (3, 4)]%Z)
    = Ok [(num 1, num 2); (num 3, num 4); (num 3, num 4)]
  ∧ App.add_markers (station_table [(3, 4); (1, 2); (3, 4)]%Z)
      "dodgerblue" "cyan" "Training" new_page
    = App.add_markers (station_table [(1, 2); (3, 4); (3, 4)]%Z)
        "dodgerblue" "cyan" "Training" new_page.
Proof.
  split; [reflexivity |]. split; [reflexivity |].
  destruct (aggregation_ignores_row_order
              (station_table [(3, 4); (1, 2); (3, 4)]%Z)
              (station_table [(1, 2); (3, 4); (3, 4)]%Z)
              [(num 3, num 4); (num 1, num 2); (num 3, num 4)]
              [(num 1, num 2); (num 3, num 4); (num 3, num 4)]
              5 "dodgerblue" "cyan" "Training" (Q2Qc 5) true new_page
              eq_refl eq_refl) as [Happ _].
  - apply Permutation_swap.
  - exact Happ.
Defined.

(** ** Distinct river colours *)

Lemma NoDup_palette : NoDup palette.
Proof. apply (bool_decide_eq_true_1 (NoDup palette)). vm_compute. reflexivity. Qed.

(** X13.  Two rivers get the same colour exactly when their positions in
    the first-seen order are equal modulo 20; so with at most 20 distinct
    identifiers, different rivers have different colours. *)
Theorem river_colours_collide_iff (main_riv : list value) (i j : nat)
    (a b : value) :
  unique main_riv !! i = Some a →
  unique main_riv !! j = Some b →
  (river_color_map (unique main_riv) !! a
   = river_color_map (unique main_riv) !! b
   ↔ (i mod 20 = j mod 20)%nat)
  ∧ ((length (unique main_riv) ≤ 20)%nat →
     a ≠ b →
     river_color_map (unique main_riv) !! a
     ≠ river_color_map (unique main_riv) !! b).
Proof.
  intros Hi Hj.
  assert (i mod 20 < 20)%nat as Hlti by (apply Nat.mod_upper_bound; lia).
  assert (j mod 20 < 20)%nat as Hltj by (apply Nat.mod_upper_bound; lia).
  assert (river_color_map (unique main_riv) !! a
          = river_color_map (unique main_riv) !! b
          ↔ (i mod 20 = j mod 20)%nat) as Hiff.
  { rewrite (river_color_map_lookup _ _ _ (NoDup_unique _) Hi).
    rewrite (river_color_map_lookup _ _ _ (NoDup_unique _) Hj).
    split; [| by intros ->].
    intros Hcol. apply (NoDup_lookup palette _ _ (to_hex (colormap (i mod 20))));
      [apply NoDup_palette | by apply palette_lookup |].
    rewrite Hcol. by apply palette_lookup. }
  split; [exact Hiff |].
  intros Hlen Hab Hcol. apply Hiff in Hcol.
  apply lookup_lt_Some in Hi as Hi'. apply lookup_lt_Some in Hj as Hj'.
  rewrite !Nat.mod_small in Hcol by lia. subst j. congruence.
Qed.

Lemma river_colours_collide_iff_witness :
  unique [VStr "A"; VStr "B"; VStr "A"; VStr "C"] !! 0%nat = Some (VStr "A")
  ∧ unique [VStr "A"; VStr "B"; VStr "A"; VStr "C"] !! 2%nat = Some (VStr "C")
  ∧ river_color_map (unique [VStr "A"; VStr "B"; VStr "A"; VStr "C"]) !! VStr "A"
    ≠ river_color_map (unique [VStr "A"; VStr "B"; VStr "A"; VStr "C"]) !! VStr "C".
Proof.
  split; [reflexivity |]. split; [reflexivity |].
  destruct (river_colours_collide_iff [VStr "A"; VStr "B"; VStr "A"; VStr "C"]
              0 2 (VStr "A") (VStr "C") eq_refl eq_refl) as [_ Hdistinct].
  apply Hdistinct.
  - vm_compute. lia.
  - discriminate.
Defined.

(** ** The station page *)

Lemma stations_length df : length (stations df) = len df.
Proof. unfold stations, len. apply length_fmap. Qed.

(** [load_unique_data] once more, with what [df.empty] sees. *)
Lemma load_unique_data_empty fs :
  ∃ out, AppSatelite.load_unique_data fs = Ok out
    ∧ stations out = first_by fst [] (concatenated_input fs)
    ∧ (concatenated_input fs = [] → empty out = true)
    ∧ (concatenated_input fs ≠ [] →
       empty out = false ∧ columns out = ["Latitude"; "Longitude"; "Source"]).
Proof.
  unfold AppSatelite.load_unique_data.
  destruct (combined_df_holds fs) as [Hrows Hcols].
  destruct (AppSatelite.combined_df fs) as [cols rs]. simpl in *. subst rs.
  unfold drop_duplicates_coordinates, empty. simpl.
  destruct Hcols as [[-> Hc] | ->].
  - rewrite Hc. simpl. eexists. split; [done |]. split; [done |]. by split.
  - rewrite bool_decide_eq_false_2 by done. simpl.
    case_bool_decide as Hnil.
    + eexists. split; [done |].
      assert (concatenated_input fs = []) as Hc
        by (by destruct (concatenated_input fs)).
      rewrite Hc. simpl. by split.
    + eexists. split; [done |]. split.
      { rewrite first_by_fmap, stations_station_row.
        apply first_by_ext. by intros [[a b] s]. }
      split; [by intros Hc; rewrite Hc in Hnil |]. intros _.
      simpl. split; [| done].
      apply bool_decide_eq_false_2.
      by destruct (concatenated_input fs) as [| s c].
Qed.

(** X14.  The start of [app_satelite.py]: when no station file that can be
    read has a row with the coordinate columns, the page shows its error
    message and stops; otherwise it goes on, showing nothing, with a table
    of at least one row and the columns Latitude, Longitude, Source, one row
    per coordinate pair of the input. *)
Theorem start_stops_iff_no_station (fs : filesystem) (p : page) :
  (concatenated_input fs = [] →
   AppSatelite.start fs p
   = (Raise StopException,
      mkPage (m p) (st p ++ [st_error "Error: CSV files not found."])))
  ∧ (concatenated_input fs ≠ [] →
     ∃ out,
       AppSatelite.start fs p = (Ok out, p)
       ∧ columns out = ["Latitude"; "Longitude"; "Source"]
       ∧ stations out = first_by fst [] (concatenated_input fs)
       ∧ (0 < len out)%nat).
Proof.
  destruct (load_unique_data_empty fs) as (out & Hout & Hst & Hnil & Hcons).
  unfold AppSatelite.start. rewrite (M_lift_Ok _ _ _ _ Hout). split.
  - intros Hc. by rewrite (Hnil Hc).
  - intros Hc. destruct (Hcons Hc) as [Hempty Hcols]. rewrite Hempty.
    exists out. split; [done |]. split; [done |]. split; [done |].
    rewrite <-stations_length, Hst.
    destruct (concatenated_input fs) as [| s c]; [done |]. simpl. lia.
Qed.

Lemma start_stops_iff_no_station_witness :
  concatenated_input shared_station ≠ []
  ∧ ∃ out, AppSatelite.start shared_station new_page = (Ok out, new_page)
           ∧ (0 < len out)%nat.
Proof.
  assert (concatenated_input shared_station ≠ []) as Hc
    by (vm_compute; discriminate).
  split; [exact Hc |].
  destruct (start_stops_iff_no_station shared_station new_page) as [_ Hgo].
  destruct (Hgo Hc) as (out & Hout & _ & _ & Hlen).
  exists out. split; [exact Hout | exact Hlen].
Defined.

(** ** The drawing loop of the station page *)

Lemma marker_colors_app ls1 ls2 :
  marker_colors (ls1 ++ ls2) = marker_colors ls1 ++ marker_colors ls2.
Proof. apply omap_app. Qed.

(** One turn of the drawing loop for a station at two numbers. *)
Lemma draw_station radii (row : list value) q :
  numeric (cell_at 0 row, cell_at 1 row) = true →
  (AppSatelite.draw (mkDF ["Latitude"; "Longitude"; "Source"] [row]) radii q)
  = (Ok (),
     mkPage (m q ++ station_layers radii
                      ((cell_at 0 row, cell_at 1 row), cell_at 2 row))
            (st q)).
Proof.
  intros Hnum. unfold AppSatelite.draw. cbn [columns rows for_].
  change (row_getitem ["Latitude"; "Longitude"; "Source"] row "Latitude")
    with (Ok (cell_at 0 row)).
  change (row_getitem ["Latitude"; "Longitude"; "Source"] row "Longitude")
    with (Ok (cell_at 1 row)).
  change (row_getitem ["Latitude"; "Longitude"; "Source"] row "Source")
    with (Ok (cell_at 2 row)).
  destruct (cell_at 0 row) as [| | x | ?]; try done.
  destruct (cell_at 1 row) as [| | y | ?]; try done.
  unfold mbind at 1, M_bind at 1.
  rewrite !(M_lift_Ok _ _ _ _ eq_refl). cbn [format_4f].
  change (folium_CircleMarker (VNum x, VNum y) ?r ?c ?fc ?popup)
    with (Ok (CircleMarker (VNum x, VNum y) r c fc popup)).
  rewrite !(M_lift_Ok _ _ _ _ eq_refl).
  rewrite (M_bind_Ok (add_to _) _ q () _ eq_refl).
  rewrite (for_adds radii _
             (λ km, [Circle (VNum x, VNum y) (num (km * 1000)) "cyan"]))
    by done.
  rewrite mjoin_singletons. unfold station_layers. simpl.
  by rewrite <-app_assoc.
Qed.


(** One turn for a station with a coordinate that is not a number: the popup
    text or the location is refused, and nothing is added. *)
Lemma draw_refused radii (row : list value) :
  numeric (cell_at 0 row, cell_at 1 row) = false →
  ∃ e,
    (∀ q, AppSatelite.draw (mkDF ["Latitude"; "Longitude"; "Source"] [row])
            radii q = (Raise e, q))
    ∧ (e = ValueError ∨ e = TypeError)
    ∧ (cell_at 0 row ≠ VNone → cell_at 1 row ≠ VNone → e = ValueError).
Proof.
  intros Hnum. unfold AppSatelite.draw. cbn [columns rows for_].
  change (row_getitem ["Latitude"; "Longitude"; "Source"] row "Latitude")
    with (Ok (cell_at 0 row)).
  change (row_getitem ["Latitude"; "Longitude"; "Source"] row "Longitude")
    with (Ok (cell_at 1 row)).
  change (row_getitem ["Latitude"; "Longitude"; "Source"] row "Source")
    with (Ok (cell_at 2 row)).
  destruct (cell_at 0 row) as [| | x | s], (cell_at 1 row) as [| | y | t];
    try discriminate Hnum;
    (eexists; split; [intros q; reflexivity |]; split; [auto | done]).
Qed.

Lemma draw_cons radii cols (row : list value) (rs : list (list value)) q :
  AppSatelite.draw (mkDF cols (row :: rs)) radii q
  = (AppSatelite.draw (mkDF cols [row]) radii ;;
     AppSatelite.draw (mkDF cols rs) radii) q.
Proof.
  unfold AppSatelite.draw. cbn [columns rows].
  set (body := λ row : list value, _). cbn [for_].
  unfold mbind, M_bind. by destruct (body row q) as [[[] | e] q'].
Qed.

(** The loop over stations at numbers. *)
Lemma draw_run display_df radii p :
  columns display_df = ["Latitude"; "Longitude"; "Source"] →
  Forall (λ s : key * value, numeric s.1 = true) (stations display_df) →
  AppSatelite.draw display_df radii p
  = (Ok (),
     mkPage (m p ++ mjoin (station_layers radii <$> stations display_df))
            (st p)).
Proof.
  destruct display_df as [cols rs]. cbn [columns]. intros -> Hnum.
  unfold stations in *. cbn [rows] in *. revert p.
  induction rs as [| row rs IH]; intros p.
  - simpl. rewrite app_nil_r. by destruct p.
  - rewrite fmap_cons in Hnum. apply Forall_cons in Hnum as [Hrow Hnum].
    rewrite draw_cons.
    rewrite (M_bind_Ok _ _ _ _ _ (draw_station radii row p Hrow)).
    rewrite (IH Hnum). cbn [m st]. rewrite fmap_cons.
    change (mjoin (?x :: ?l)) with (x ++ mjoin l). by rewrite <-app_assoc.
Qed.

(** The loop stops at the first station that is not at two numbers. *)
Lemma draw_stops display_df radii good bad rest p :
  columns display_df = ["Latitude"; "Longitude"; "Source"] →
  stations display_df = good ++ bad :: rest →
  Forall (λ s : key * value, numeric s.1 = true) good →
  numeric bad.1 = false →
  ∃ e,
    AppSatelite.draw display_df radii p
    = (Raise e, mkPage (m p ++ mjoin (station_layers radii <$> good)) (st p))
    ∧ (e = ValueError ∨ e = TypeError)
    ∧ (bad.1.1 ≠ VNone → bad.1.2 ≠ VNone → e = ValueError).
Proof.
  destruct display_df as [cols rs]. cbn [columns]. intros -> Hst Hgood Hbad.
  unfold stations in Hst. cbn [rows] in Hst. revert rs p Hst.
  induction Hgood as [| s good Hs _ IH]; intros rs p Hst.
  - destruct rs as [| row rs]; [done |]. rewrite fmap_cons in Hst.
    injection Hst as Hrow _. subst bad. cbn [fst snd] in *.
    destruct (draw_refused radii row Hbad) as (e & Hrun & He & Hvalue).
    exists e. split; [| done]. rewrite draw_cons.
    rewrite (M_bind_Raise _ _ _ _ _ (Hrun p)). simpl. rewrite app_nil_r.
    by destruct p.
  - destruct rs as [| row rs]; [done |]. rewrite fmap_cons in Hst.
    injection Hst as Hrow Hst. subst s. cbn [fst] in Hs.
    destruct (IH rs (mkPage (m p ++ station_layers radii
                               ((cell_at 0 row, cell_at 1 row), cell_at 2 row))
                       (st p)) Hst) as (e & Hrun & He).
    exists e. split; [| done]. rewrite draw_cons.
    rewrite (M_bind_Ok _ _ _ _ _ (draw_station radii row p Hs)).
    rewrite Hrun. cbn [m st]. rewrite fmap_cons.
    change (mjoin (?x :: ?l)) with (x ++ mjoin l). by rewrite <-app_assoc.
Qed.

Lemma tagged_rows_tag fs file s : s ∈ tagged_rows fs file → s.2 = VStr file.1.
Proof.
  unfold tagged_rows. destruct (read_csv fs file.2) as [df |];
    [| by intros ?%elem_of_nil].
  destruct (coordinates df) as [ks |]; [| by intros ?%elem_of_nil].
  by intros (k & -> & _)%list_elem_of_fmap.
Qed.

(** The source of a station of the table is the training set exactly when
    the training set has its coordinates. *)
Lemma station_source fs out s :
  AppSatelite.load_unique_data fs = Ok out →
  s ∈ stations out →
  s.2 = VStr "Training Set"
  ↔ s.1 ∈ (tagged_rows fs ("Training Set", "TRAINING_SET.csv")).*1.
Proof.
  intros Hout Hs.
  destruct (load_unique_data_empty fs) as (out' & Hout' & Hst & _).
  assert (out' = out) as -> by congruence. rewrite Hst in Hs.
  destruct (first_by_is_first fst [] _ _ Hs) as [i Hfind].
  unfold concatenated_input in Hfind.
  apply list_find_app_Some in Hfind as [Hfind | (_ & Hnone & Hfind)].
  - apply list_find_Some in Hfind as (Hi%list_elem_of_lookup_2 & _).
    split; intros _.
    + apply list_elem_of_fmap. eauto.
    + by apply tagged_rows_tag in Hi.
  - apply list_find_Some in Hfind as (Hi%list_elem_of_lookup_2 & _).
    apply tagged_rows_tag in Hi. simpl in Hi. split.
    + rewrite Hi. discriminate.
    + intros (s' & Hkey & Hs')%list_elem_of_fmap.
      rewrite list_find_None, Forall_forall in Hnone.
      by destruct (Hnone s' Hs').
Qed.

Lemma marker_colors_circles (k : key) (radii : list Z) :
  marker_colors ((λ km, Circle k (num (km * 1000)) "cyan") <$> radii) = [].
Proof. induction radii as [| km rs IH]; [done |]. by rewrite fmap_cons. Qed.

(** X15.  The colour of a station in [app_satelite.py]: for any selection
    of rows of the unique-station table whose coordinates are numbers, the
    drawing loop returns, and the marker of a station is blue exactly when
    its coordinates occur in the training set, red otherwise; the markers
    come in row order, one per row. *)
Theorem station_marker_colours (fs : filesystem) (out display_df : DataFrame)
    (radii : list Z) :
  AppSatelite.load_unique_data fs = Ok out →
  columns display_df = ["Latitude"; "Longitude"; "Source"] →
  rows display_df ⊆ rows out →
  Forall (λ s : key * value, numeric s.1 = true) (stations display_df) →
  (AppSatelite.draw display_df radii new_page).1 = Ok ()
  ∧ marker_colors (m (AppSatelite.draw display_df radii new_page).2)
    = (λ s : key * value,
         (s.1,
          if bool_decide
               (s.1 ∈ (tagged_rows fs ("Training Set", "TRAINING_SET.csv")).*1)
          then "blue" else "red"))
      <$> stations display_df.
Proof.
  intros Hout Hcols Hrows Hnum. rewrite (draw_run _ _ _ Hcols Hnum).
  split; [done |]. cbn [snd m new_page app]. clear Hnum.
  assert (∀ s, s ∈ stations display_df → s ∈ stations out) as Hsub.
  { unfold stations. intros s (r & -> & Hr)%list_elem_of_fmap.
    apply list_elem_of_fmap. eauto. }
  induction (stations display_df) as [| s l IH]; [done |].
  rewrite !fmap_cons. change (mjoin (?x :: ?l)) with (x ++ mjoin l).
  rewrite marker_colors_app, IH by (intros ? ?; apply Hsub; by right).
  f_equal. unfold station_layers.
  change (marker_colors (CircleMarker ?k ?r ?c ?fc ?popup :: ?ls))
    with ((k, c) :: marker_colors ls).
  rewrite marker_colors_circles. do 2 f_equal.
  pose proof (station_source fs out s Hout (Hsub s (list_elem_of_here _ _))) as Hsrc.
  case_decide as Htag; case_bool_decide as Hin; tauto.
Qed.

(** Station (1, 1) is in both sets, station (2, 2) in the validation set
    only: the first is drawn blue, the second red. *)
Lemma station_marker_colours_witness :
  AppSatelite.load_unique_data overlapping_sets
  = Ok (mkDF ["Latitude"; "Longitude"; "Source"]
          [[num 1; num 1; VStr "Training Set"];
           [num 2; num 2; VStr "Validation Set"]])
  ∧ Forall (λ s : key * value, numeric s.1 = true)
      (stations (mkDF ["Latitude"; "Longitude"; "Source"]
                   [[num 1; num 1; VStr "Training Set"];
                    [num 2; num 2; VStr "Validation Set"]]))
  ∧ marker_colors
      (m (AppSatelite.draw
            (mkDF ["Latitude"; "Longitude"; "Source"]
               [[num 1; num 1; VStr "Training Set"];
                [num 2; num 2; VStr "Validation Set"]])
            [1; 3]%Z new_page).2)
    = [((num 1, num 1), "blue"); ((num 2, num 2), "red")].
Proof.
  assert (AppSatelite.load_unique_data overlapping_sets
          = Ok (mkDF ["Latitude"; "Longitude"; "Source"]
                  [[num 1; num 1; VStr "Training Set"];
                   [num 2; num 2; VStr "Validation Set"]])) as Hout
    by (vm_compute; reflexivity).
  assert (Forall (λ s : key * value, numeric s.1 = true)
            (stations (mkDF ["Latitude"; "Longitude"; "Source"]
                         [[num 1; num 1; VStr "Training Set"];
                          [num 2; num 2; VStr "Validation Set"]]))) as Hnum
    by (repeat first [apply Forall_nil_2 | apply Forall_cons_2]; reflexivity).
  split; [exact Hout |]. split; [exact Hnum |].
  destruct (station_marker_colours overlapping_sets
              (mkDF ["Latitude"; "Longitude"; "Source"]
                 [[num 1; num 1; VStr "Training Set"];
                  [num 2; num 2; VStr "Validation Set"]])
              (mkDF ["Latitude"; "Longitude"; "Source"]
                 [[num 1; num 1; VStr "Training Set"];
                  [num 2; num 2; VStr "Validation Set"]])
              [1; 3]%Z Hout eq_refl (λ r Hr, Hr) Hnum) as [_ Hcolours].
  rewrite Hcolours. vm_compute. reflexivity.
Defined.

Lemma radii_sublist show_1km show_3km show_5km show_10km :
  AppSatelite.radii show_1km show_3km show_5km show_10km
  `sublist_of` [1; 3; 5; 10]%Z.
Proof.
  destruct show_1km, show_3km, show_5km, show_10km; simpl;
    repeat first [apply sublist_nil | apply sublist_skip | apply sublist_cons].
Qed.

Lemma circles_buffers (k : key) (radii : list Z) :
  circles ((λ km, Circle k (num (km * 1000)) "cyan") <$> radii)
  = (λ km, (k, num (km * 1000))) <$> radii.
Proof.
  induction radii as [| km rs IH]; [done |].
  rewrite !fmap_cons, <-IH. done.
Qed.

Lemma station_layers_length radii (l : list (key * value)) :
  length (mjoin (station_layers radii <$> l))
  = (length l * (1 + length radii))%nat.
Proof.
  induction l as [| s l IH]; [done |].
  rewrite fmap_cons. change (mjoin (?x :: ?l)) with (x ++ mjoin l).
  rewrite length_app, IH. unfold station_layers. simpl.
  rewrite length_fmap. lia.
Qed.

(** X16.  The drawing loop of [app_satelite.py] on a table with the
    columns Latitude, Longitude, Source.  When the coordinates of every row
    are numbers it does not raise and shows nothing by itself; it adds one
    marker per row and, after it, one circle per chosen radius, centred on
    the station, with the radius in metres.  Otherwise it raises at the
    first row with a coordinate that is not a number, [ValueError] unless
    the coordinate is [None], having drawn the rows before it: a missing
    coordinate, which [load_unique_data] lets through, stops the page.  The
    radii chosen in the side bar are a subsequence of 1, 3, 5, 10 km. *)
Theorem draw_buffers (display_df : DataFrame) (radii : list Z) (p : page) :
  columns display_df = ["Latitude"; "Longitude"; "Source"] →
  (Forall (λ s : key * value, numeric s.1 = true) (stations display_df) →
   (AppSatelite.draw display_df radii p).1 = Ok ()
   ∧ st (AppSatelite.draw display_df radii p).2 = st p
   ∧ length (m (AppSatelite.draw display_df radii p).2)
     = (length (m p) + len display_df * (1 + length radii))%nat
   ∧ circles (m (AppSatelite.draw display_df radii new_page).2)
     = (stations display_df
          ≫= λ s, (λ km, (s.1, num (km * 1000))) <$> radii))
  ∧ (∀ good bad rest,
       stations display_df = good ++ bad :: rest →
       Forall (λ s : key * value, numeric s.1 = true) good →
       numeric bad.1 = false →
       ∃ e,
         (AppSatelite.draw display_df radii p).1 = Raise e
         ∧ (e = ValueError ∨ e = TypeError)
         ∧ (bad.1.1 ≠ VNone → bad.1.2 ≠ VNone → e = ValueError)
         ∧ st (AppSatelite.draw display_df radii p).2 = st p
         ∧ length (m (AppSatelite.draw display_df radii p).2)
           = (length (m p) + length good * (1 + length radii))%nat)
  ∧ ∀ show_1km show_3km show_5km show_10km,
      AppSatelite.radii show_1km show_3km show_5km show_10km
      `sublist_of` [1; 3; 5; 10]%Z.
Proof.
  intros Hcols. split; [| split; [| apply radii_sublist]].
  - intros Hnum. rewrite !(draw_run _ _ _ Hcols Hnum).
    cbn [fst snd m st new_page app].
    split; [done |]. split; [done |]. split.
    + by rewrite length_app, station_layers_length, stations_length.
    + clear Hnum. induction (stations display_df) as [| s l IH]; [done |].
      rewrite fmap_cons. change (mjoin (?x :: ?l)) with (x ++ mjoin l).
      rewrite circles_app, IH. cbn [mbind list_bind]. f_equal.
      unfold station_layers.
      change (circles (CircleMarker ?k ?r ?c ?fc ?popup :: ?ls)) with (circles ls).
      apply circles_buffers.
  - intros good bad rest Hst Hgood Hbad.
    destruct (draw_stops display_df radii good bad rest p Hcols Hst Hgood Hbad)
      as (e & -> & He & Hvalue).
    exists e. cbn [fst snd m st]. do 4 (split; [done |]).
    by rewrite length_app, station_layers_length.
Qed.

(** The validation set has a row without latitude: [load_unique_data] keeps
    it, and the loop raises [ValueError] there, after the first station. *)
Lemma draw_buffers_witness :
  AppSatelite.load_unique_data unlocated_station
  = Ok (mkDF ["Latitude"; "Longitude"; "Source"]
          [[num 1; num 1; VStr "Training Set"];
           [VNaN; num 2; VStr "Validation Set"]])
  ∧ (AppSatelite.draw
       (mkDF ["Latitude"; "Longitude"; "Source"]
          [[num 1; num 1; VStr "Training Set"];
           [VNaN; num 2; VStr "Validation Set"]])
       (AppSatelite.radii true false false true) new_page).1
    = Raise ValueError
  ∧ circles
      (m (AppSatelite.draw
            (mkDF ["Latitude"; "Longitude"; "Source"]
               [[num 1; num 1; VStr "Training Set"]])
            (AppSatelite.radii true false false true) new_page).2)
    = [((num 1, num 1), num 1000); ((num 1, num 1), num 10000)].
Proof.
  split; [vm_compute; reflexivity |]. split.
  - destruct (draw_buffers
                (mkDF ["Latitude"; "Longitude"; "Source"]
                   [[num 1; num 1; VStr "Training Set"];
                    [VNaN; num 2; VStr "Validation Set"]])
                (AppSatelite.radii true false false true) new_page eq_refl)
      as (_ & Hstop & _).
    destruct (Hstop [((num 1, num 1), VStr "Training Set")]
                ((VNaN, num 2), VStr "Validation Set") [])
      as (e & He & _ & Hvalue & _).
    + reflexivity.
    + repeat first [apply Forall_nil_2 | apply Forall_cons_2]; reflexivity.
    + reflexivity.
    + rewrite He. f_equal. by apply Hvalue.
  - destruct (draw_buffers
                (mkDF ["Latitude"; "Longitude"; "Source"]
                   [[num 1; num 1; VStr "Training Set"]])
                (AppSatelite.radii true false false true) new_page eq_refl)
      as (Hgo & _).
    destruct Hgo as (_ & _ & _ & Hcircles).
    + repeat first [apply Forall_nil_2 | apply Forall_cons_2]; reflexivity.
    + rewrite Hcircles. vm_compute. reflexivity.
Defined.

(** ** What the station page shows *)

Lemma picked_NoDup {A B} (f : A → B) (l l' : list A) (positions : list nat) :
  NoDup (f <$> l) →
  NoDup positions →
  Forall2 (λ i r, l !! i = Some r) positions l' →
  NoDup (f <$> l').
Proof.
  intros Hl Hpos Hpick. induction Hpick as [| i r positions l' Hi Hpick IH].
  - constructor.
  - apply NoDup_cons in Hpos as [Hnotin Hpos]. rewrite fmap_cons.
    apply NoDup_cons. split; [| by apply IH].
    intros (r' & Hfr & Hr')%list_elem_of_fmap.
    apply list_elem_of_lookup_1 in Hr' as [n Hn].
    destruct (Forall2_lookup_r _ _ _ _ _ Hpick Hn) as (i' & Hi' & Hr').
    assert (i = i') as <-.
    { apply (NoDup_lookup (f <$> l) _ _ (f r)); [done | |].
      - by rewrite list_lookup_fmap, Hi.
      - by rewrite list_lookup_fmap, Hr', Hfr. }
    apply Hnotin. by eapply list_elem_of_lookup_2.
Qed.

(** X17.  What [app_satelite.py] displays.  Let the generator seeded with
    42 draw an arrangement of the row positions.  Then the display step
    applied to the unique-station table returns rows of that table with
    pairwise distinct coordinates, each being the first row of the
    concatenated input with its coordinates; and the notice about the random
    selection is shown exactly when the table has more rows than the cap. *)
Theorem displayed_stations_are_distinct {rng : Type} (RandomState : Z → rng)
    (permutation : rng → nat → list nat * rng) (fs : filesystem)
    (out : DataFrame) (max_points : nat) (s : page * rng) :
  AppSatelite.load_unique_data fs = Ok out →
  (permutation (RandomState 42%Z) (len out)).1 ≡ₚ seq 0 (len out) →
  ∃ display_df,
    (AppSatelite.display_df RandomState permutation out max_points s).1
    = Ok display_df
    ∧ columns display_df = columns out
    ∧ rows display_df ⊆ rows out
    ∧ NoDup (stations display_df).*1
    ∧ (∀ x, x ∈ stations display_df →
            ∃ i, list_find (λ y : key * value, y.1 = x.1) (concatenated_input fs)
                 = Some (i, x))
    ∧ ((max_points < len out)%nat ↔
       st (AppSatelite.display_df RandomState permutation out max_points s).2.1
       = st s.1 ++ [st_toast "Displaying random stations."]).
Proof.
  intros Hout Hperm.
  destruct (load_unique_data_empty fs) as (out' & Hout' & Hst & _).
  assert (out' = out) as -> by congruence.
  assert (NoDup (stations out).*1) as Hnodup.
  { rewrite Hst, (first_by_keys fst). apply NoDup_unique_from. }
  assert (∀ x, x ∈ stations out →
            ∃ i, list_find (λ y : key * value, y.1 = x.1) (concatenated_input fs)
                 = Some (i, x)) as Hfirst.
  { intros x Hx. rewrite Hst in Hx. by apply (first_by_is_first fst [] _ _ Hx). }
  destruct (decide (max_points < len out)%nat) as [Hlt | Hle].
  - rewrite display_df_large by done.
    set (arrangement := (permutation (RandomState 42%Z) (len out)).1) in *.
    assert (NoDup (take max_points arrangement)) as Hpos.
    { eapply sublist_NoDup; [| apply sublist_take].
      rewrite Hperm. apply NoDup_seq. }
    assert (is_Some (mapM (λ i, rows out !! i) (take max_points arrangement)))
      as [taken Htaken].
    { apply mapM_is_Some, Forall_take, Forall_forall. intros i Hi.
      rewrite Hperm in Hi. apply elem_of_seq in Hi.
      apply lookup_lt_is_Some. unfold len in *. lia. }
    rewrite Htaken. apply mapM_Some in Htaken.
    exists (mkDF (columns out) taken). cbn [fst snd columns rows st].
    assert (taken ⊆ rows out) as Hsub.
    { intros r [n Hn]%list_elem_of_lookup_1.
      destruct (Forall2_lookup_r _ _ _ _ _ Htaken Hn) as (i & _ & Hr).
      by eapply list_elem_of_lookup_2. }
    split; [done |]. split; [done |]. split; [exact Hsub |]. split; [| split].
    + unfold stations in *. cbn [rows]. rewrite <-list_fmap_compose in *.
      by eapply picked_NoDup.
    + intros x (r & -> & Hr)%list_elem_of_fmap. apply Hfirst.
      apply list_elem_of_fmap. exists r. split; [done |]. by apply Hsub.
    + done.
  - rewrite display_df_small by lia. exists out. cbn [fst snd].
    split; [done |]. split; [done |]. split; [done |]. split; [done |].
    split; [done |]. split; [lia |].
    intros Heq. apply (f_equal length) in Heq. rewrite length_app in Heq.
    simpl in Heq. lia.
Qed.

(** Eleven stations, at most ten to be shown, and a generator whose
    arrangement is the reversed order: ten stations are displayed, at
    pairwise distinct coordinates. *)
Lemma displayed_stations_are_distinct_witness :
  ∃ out,
    AppSatelite.load_unique_data eleven_stations = Ok out
    ∧ len out = 11%nat
    ∧ (reverse (seq 0 (len out)) ≡ₚ seq 0 (len out))
    ∧ ∃ display_df,
        (AppSatelite.display_df (λ seed, seed)
           (λ g n, (reverse (seq 0 n), (g + 1)%Z)) out 10 (new_page, 0%Z)).1
        = Ok display_df
        ∧ len display_df = 10%nat
        ∧ NoDup (stations display_df).*1
        ∧ st (AppSatelite.display_df (λ seed, seed)
                (λ g n, (reverse (seq 0 n), (g + 1)%Z)) out 10
                (new_page, 0%Z)).2.1
          = [st_toast "Displaying random stations."].
Proof.
  destruct (AppSatelite.load_unique_data eleven_stations) as [out |] eqn:Hout;
    [| vm_compute in Hout; discriminate].
  assert (len out = 11%nat) as Hlen.
  { vm_compute in Hout. injection Hout as <-. reflexivity. }
  exists out. split; [reflexivity |]. split; [exact Hlen |].
  split; [apply reverse_Permutation |].
  destruct (displayed_stations_are_distinct (λ seed, seed)
              (λ g n, (reverse (seq 0 n), (g + 1)%Z)) eleven_stations
              out 10 (new_page, 0%Z) Hout)
    as (display_df & Hdisplay & _ & _ & Hnodup & _ & Htoast).
  - apply reverse_Permutation.
  - exists display_df. split; [exact Hdisplay |]. split; [| split].
    + vm_compute in Hout. injection Hout as <-.
      vm_compute in Hdisplay. injection Hdisplay as <-. reflexivity.
    + exact Hnodup.
    + apply Htoast. rewrite Hlen. lia.
Defined.

(** ** A page without its river file *)

Lemma AppWastewater_main_without_rivers_witness :
  read_file shared_station "sa_rivers_final.geojson" = Raise FileNotFoundError
  ∧ AppWastewater.load_data shared_station "TRAINING_SET.csv" new_page
    = (Ok (station_table [(1, 1)%Z]), new_page)
  ∧ plain (station_table [(1, 1)%Z])
  ∧ plain pd_DataFrame
  ∧ (AppWastewater.main shared_station true true true true 5 new_page).1
    = Ok ()
  ∧ distinct_locations
      (m (AppWastewater.main shared_station true true true true 5
            new_page).2)
    = [((num 1, num 1), num 1); ((num 1, num 1), num 1)].
Proof.
  assert (plain (station_table [(1, 1)%Z])) as Hplain.
  { split.
    - apply (bool_decide_eq_true_1 (NoDup _)). vm_compute. reflexivity.
    - intros ks [= <-].
      repeat first [apply Forall_nil_2 | apply Forall_cons_2]; reflexivity. }
  assert (plain pd_DataFrame) as Hempty.
  { split; [constructor | intros ks Hks; discriminate Hks]. }
  split; [reflexivity |]. split; [reflexivity |].
  split; [exact Hplain |]. split; [exact Hempty |].
  destruct (AppWastewater_main_without_rivers shared_station FileNotFoundError
              true true true true 5
              (station_table [(1, 1)%Z]) (station_table [(1, 1)%Z])
              pd_DataFrame new_page new_page new_page)
    as [Hok Hlocs].
  - reflexivity.
  - reflexivity.
  - reflexivity.
  - reflexivity.
  - exact Hplain.
  - exact Hplain.
  - exact Hempty.
  - split; [exact Hok |]. rewrite Hlocs. vm_compute. reflexivity.
Defined.
